(** * Agilepy: the sources library and the energy-bin table

    A shallow embedding of [agilepy/api/SourcesLibrary.py],
    [agilepy/utils/Parameters.py] and, of [agilepy/api/AGEng.py], the
    reader of the index of the log files and the control of the
    computation of the pointing distances.

    Python objects live in a store and are named by references, exceptions
    are values of [exn], the logger and the calls made to a user lambda are
    recorded in a trace.  The classes of [agilepy.dataclasses.Source] and
    [agilepy.utils.Utils] are used by the code but are not part of the
    sources at hand: their methods are the fields of the interface
    [Dataclasses] below, and every statement holds for every
    implementation of it. *)

From Stdlib Require Import ZArith List String Ascii Bool Lia PrimFloat Uint63.
From stdpp Require Import base option list gmap strings.

Local Open Scope string_scope.

(* ================================================================== *)
(** * Part I: definitions                                              *)
(* ================================================================== *)

(** ** Python values, exceptions and the builtins the code calls *)

Module Py.

Inductive exn : Type :=
| TypeError
| ValueError
| IndexError
| AttributeError
| NameError (name : string)
| SystemExit (code : Z).

Inductive res (A : Type) : Type :=
| Ok (a : A)
| Err (e : exn).
Arguments Ok {A} a.
Arguments Err {A} e.

Definition bind {A B} (m : res A) (k : A -> res B) : res B :=
  match m with
  | Ok a => k a
  | Err e => Err e
  end.

(** A list comprehension whose element expression may raise: elements
    are evaluated left to right, the first exception aborts. *)
Fixpoint mapM {A B} (f : A -> res B) (l : list A) : res (list B) :=
  match l with
  | [] => Ok []
  | x :: l' =>
      bind (f x) (fun y => bind (mapM f l') (fun ys => Ok (y :: ys)))
  end.

(** A list comprehension with a condition that may raise. *)
Fixpoint filterM {A} (c : A -> res bool) (l : list A) : res (list A) :=
  match l with
  | [] => Ok []
  | x :: l' =>
      bind (c x) (fun b =>
      bind (filterM c l') (fun r => Ok (if b then x :: r else r)))
  end.

(** The values a flag or a table entry can hold: [int] (which also
    stands for [bool], its subclass) and [str]. *)
Inductive pyval : Type :=
| PyInt (z : Z)
| PyStr (s : string).

(** [a == b]: an [int] and a [str] never compare equal. *)
Definition py_eq (a b : pyval) : bool :=
  match a, b with
  | PyInt x, PyInt y => Z.eqb x y
  | PyStr x, PyStr y => String.eqb x y
  | _, _ => false
  end.

(** [a + b]: addition on [int], concatenation on [str], [TypeError]
    when the two are mixed. *)
Definition py_add (a b : pyval) : res pyval :=
  match a, b with
  | PyInt x, PyInt y => Ok (PyInt (x + y))
  | PyStr x, PyStr y => Ok (PyStr (x ++ y))
  | _, _ => Err TypeError
  end.

(** A result that is not a string: an exception or an integer. *)
Definition not_str (r : res pyval) : Prop :=
  match r with
  | Ok (PyStr _) => False
  | _ => True
  end.

(** Characters are code points below 256.  [str.isspace] holds of
    these. *)
Definition isspace (c : ascii) : bool :=
  let n := nat_of_ascii c in
  ((9 <=? n)%nat && (n <=? 13)%nat) || ((28 <=? n)%nat && (n <=? 32)%nat)
  || (n =? 133)%nat || (n =? 160)%nat.

Fixpoint lstrip (s : string) : string :=
  match s with
  | String c s' => if isspace c then lstrip s' else s
  | EmptyString => EmptyString
  end.

Fixpoint all_space (s : string) : bool :=
  match s with
  | String c s' => isspace c && all_space s'
  | EmptyString => true
  end.

(** [rstrip] keeps a character when something that is not a blank
    follows it or when it is not a blank itself. *)
Fixpoint rstrip (s : string) : string :=
  match s with
  | String c s' => if all_space s then EmptyString else String c (rstrip s')
  | EmptyString => EmptyString
  end.

(** [s.strip()] *)
Definition strip (s : string) : string := rstrip (lstrip s).

(** The blanks that [int] skips around a numeral.  [int] first turns
    the blanks above 127 into spaces and then skips what C's [isspace]
    accepts: the separators 28 to 31, blanks for [str.isspace] and
    [str.strip], are not skipped, and a numeral next to one of them is
    a [ValueError]. *)
Definition isspace_int (c : ascii) : bool :=
  let n := nat_of_ascii c in
  ((9 <=? n)%nat && (n <=? 13)%nat) || (n =? 32)%nat
  || (n =? 133)%nat || (n =? 160)%nat.

Fixpoint lstrip_int (s : string) : string :=
  match s with
  | String c s' => if isspace_int c then lstrip_int s' else s
  | EmptyString => EmptyString
  end.

Fixpoint all_space_int (s : string) : bool :=
  match s with
  | String c s' => isspace_int c && all_space_int s'
  | EmptyString => true
  end.

(** The value of a decimal digit; letters are digits of bases above
    10 only, which the code never asks for. *)
Definition digit_value (c : ascii) : option Z :=
  let n := nat_of_ascii c in
  if (48 <=? n)%nat && (n <=? 57)%nat
  then Some (Z.of_nat (n - 48)) else None.

(** The digit scanner of [int(s, base)]: digits below [base] with
    single underscores between them.  [prev_us] says that the last
    character read was an underscore, [seen] that a character was
    read.  Returns the value and what follows the numeral. *)
Fixpoint scan_digits (base acc : Z) (prev_us seen : bool) (s : string)
  : option (Z * string) :=
  let finish :=
    if prev_us then None else if seen then Some (acc, s) else None in
  match s with
  | String c s' =>
      if Ascii.eqb c "_" then
        if prev_us then None else scan_digits base acc true true s'
      else
        match digit_value c with
        | Some d =>
            if (d <? base)%Z
            then scan_digits base (acc * base + d) false true s'
            else finish
        | None => finish
        end
  | EmptyString => finish
  end.

Definition long_from_string_base (base : Z) (s : string)
  : option (Z * string) :=
  match s with
  | String "_" _ => None
  | _ => scan_digits base 0 false false s
  end.

(** After the sign, base 2 accepts the prefix [0b] or [0B], and one
    underscore after it. *)
Definition skip_prefix (base : Z) (s : string) : string :=
  match s with
  | String "0" (String c s') =>
      if (base =? 2)%Z && (Ascii.eqb c "b" || Ascii.eqb c "B") then
        match s' with
        | String "_" s'' => s''
        | _ => s'
        end
      else s
  | _ => s
  end.

(** [int(s, base)] for a string [s] and [base] 2 or 10: blanks, a
    sign, the prefix, the digits, blanks. *)
Definition int_of_string (base : Z) (s : string) : res Z :=
  let s1 := lstrip_int s in
  let '(neg, s2) :=
    match s1 with
    | String "+" r => (false, r)
    | String "-" r => (true, r)
    | _ => (false, s1)
    end in
  match long_from_string_base base (skip_prefix base s2) with
  | Some (v, rest) =>
      if all_space_int rest then Ok (if neg then (- v)%Z else v)
      else Err ValueError
  | None => Err ValueError
  end.

(** [int(v, 2)]: a value that is not a string cannot be converted
    with an explicit base. *)
Definition py_int_base2 (v : pyval) : res Z :=
  match v with
  | PyStr s => int_of_string 2 s
  | PyInt _ => Err TypeError
  end.

(** [int(v)] *)
Definition py_int (v : pyval) : res Z :=
  match v with
  | PyStr s => int_of_string 10 s
  | PyInt z => Ok z
  end.

Definition digit_char (n : N) : ascii :=
  ascii_of_nat (48 + N.to_nat n).

Fixpoint digits_of (fuel : nat) (n : N) (acc : string) : string :=
  match fuel with
  | O => acc
  | S fuel' =>
      let acc' := String (digit_char (n mod 10)) acc in
      if (n / 10 =? 0)%N then acc' else digits_of fuel' (n / 10)%N acc'
  end.

(** [str(z)] for an [int]: the decimal numeral. *)
Definition str_of_int (z : Z) : string :=
  let n := Z.abs_N z in
  let d := digits_of (S (N.size_nat n)) n EmptyString in
  if (z <? 0)%Z then String "-" d else d.

End Py.
Export Py.

Notation "'let*' x ':=' m 'in' k" := (bind m (fun x => k))
  (at level 10, x name, m at level 100, k at level 200).

(** ** [agilepy/utils/Parameters.py] *)

Module Parameters.

(** The class attributes of [Parameters] that the method reads. *)
Record cls : Type := { energybins : list (list Z) }.

Definition Parameters : cls :=
  {| energybins :=
       [ [10000; 50000]; [1000; 3000]; [1000; 50000]; [100; 1000];
         [100; 10000]; [100; 200]; [100; 300]; [100; 400];
         [100; 50000]; [200; 400]; [200; 50000]; [3000; 10000];
         [3000; 50000]; [300; 1000]; [300; 10000]; [300; 3000];
         [300; 50000]; [30; 100]; [30; 1000]; [30; 400]; [30; 50];
         [30; 50000]; [400; 1000]; [400; 10000]; [400; 3000];
         [400; 50000]; [50; 100]; [50; 400] ]%Z |}.

(** [x in l] for lists of integers: [==] on lists is element-wise. *)
Definition list_Z_eqb (a b : list Z) : bool :=
  bool_decide (a = b).

Definition py_in_table (x : list Z) (t : list (list Z)) : bool :=
  existsb (list_Z_eqb x) t.

(** [checkEnergyBin(energyBin)]: the result and the class afterwards. *)
Definition checkEnergyBin (P : cls) (energyBin : list pyval)
  : res bool * cls :=
  match mapM py_int energyBin with
  | Err e => (Err e, P)
  | Ok energyBin' =>
      if py_in_table energyBin' (energybins P)
      then (Ok true, P)
      else (Ok false, P)
  end.

End Parameters.


(** ** Strings and lists: the methods the parser calls *)

Module PyStr.

Definition newline : ascii := "010"%char.

(** [s.split(sep)] for a separator of one character. *)
Fixpoint split_char (sep : ascii) (s : string) : list string :=
  match s with
  | EmptyString => [EmptyString]
  | String c s' =>
      if Ascii.eqb c sep then EmptyString :: split_char sep s'
      else match split_char sep s' with
           | h :: t => String c h :: t
           | [] => [String c EmptyString]
           end
  end.

(** [s.split("..")] *)
Fixpoint split_dotdot (s : string) : list string :=
  match s with
  | EmptyString => [EmptyString]
  | String "." (String "." s') => EmptyString :: split_dotdot s'
  | String c s' =>
      match split_dotdot s' with
      | h :: t => String c h :: t
      | [] => [String c EmptyString]
      end
  end.

(** [f.readlines()] on the text of a file: every line keeps its
    newline, the last one may lack it; no line is empty. *)
Fixpoint readlines (s : string) : list string :=
  match s with
  | EmptyString => []
  | String c s' =>
      if Ascii.eqb c newline then String c EmptyString :: readlines s'
      else match readlines s' with
           | h :: t => String c h :: t
           | [] => [String c EmptyString]
           end
  end.

(** [l[i]] for [i >= 0] *)
Definition index {A} (l : list A) (i : nat) : res A :=
  match nth_error l i with
  | Some x => Ok x
  | None => Err IndexError
  end.

(** [l[-1]] *)
Definition last_item {A} (l : list A) : res A :=
  match rev l with
  | x :: _ => Ok x
  | [] => Err IndexError
  end.

(** [l[:-1]] *)
Definition but_last {A} (l : list A) : list A := removelast l.

(** [l[-n:]] *)
Definition last_n {A} (n : nat) (l : list A) : list A :=
  skipn (List.length l - n) l.

(** [sep.join(l)] is not called by the code; [words] is the reader's
    view of a line of the text format: the maximal runs of characters
    other than the blank. *)
Fixpoint words_from (cur : string) (s : string) : list string :=
  match s with
  | EmptyString =>
      match cur with EmptyString => [] | _ => [cur] end
  | String c s' =>
      if Ascii.eqb c " " then
        match cur with
        | EmptyString => words_from EmptyString s'
        | _ => cur :: words_from EmptyString s'
        end
      else words_from (cur ++ String c EmptyString) s'
  end.

Definition words (s : string) : list string := words_from EmptyString s.

(** The character [c] occurs in [s]. *)
Fixpoint has_char (c : ascii) (s : string) : bool :=
  match s with
  | EmptyString => false
  | String d s' => Ascii.eqb d c || has_char c s'
  end.

(** A result that is not a numeral in base 2: an exception, an integer,
    or a string in which the digit 2 occurs. *)
Definition not_binary (r : res pyval) : Prop :=
  match r with
  | Ok (PyStr s) => has_char "2" s = true
  | _ => True
  end.

(** The text whose lines are [lines], each followed by a newline. *)
Definition unlines (lines : list string) : string :=
  fold_right (fun l acc => l ++ String newline acc) "" lines.

End PyStr.
Export PyStr.

(** ** [agilepy.dataclasses.Source]: the data model

    The fields are those the code reads.  The attributes of a parameter
    are the texts of its XML attributes; a free flag is a [pyval], since
    the encoder compares flags with integers and concatenates them with
    strings. *)

Module Par.
Record t : Type :=
  { name : string; value : string; min : string; max : string;
    free : pyval }.
End Par.

Module Spectrum.
Record t : Type := { type : string; parameters : list Par.t }.
End Spectrum.

Module SpatialModel.
Record t : Type :=
  { type : string; location_limit : string; free : pyval;
    parameters : list Par.t }.
End SpatialModel.

(** References name objects in the store. *)
Abbreviation ref := nat.

Module Source.
Record t : Type :=
  { name : string; spectrum : Spectrum.t; spatialModel : SpatialModel.t;
    multi : option ref }.

Definition set_multi (m : option ref) (s : t) : t :=
  {| name := name s; spectrum := spectrum s;
     spatialModel := spatialModel s; multi := m |}.
End Source.

(** The value of an attribute of a fit result: a token, a list of
    tokens, or a number once [Dist] has been computed. *)
Inductive attr : Type :=
| AStr (s : string)
| AList (l : list string)
| AFloat (f : float).

(** A fit result is an object with named attributes. *)
Abbreviation MultiOutput := (gmap string attr).

(** The object [self] with the objects it reaches: [sources] is
    [self.sourcesLibrary.sources], a list of references to the sources
    in [objs]; [fits] holds the fit results. *)
Record State : Type :=
  { objs : gmap ref Source.t;
    fits : gmap ref MultiOutput;
    sources : list ref }.

Definition set_objs (o : gmap ref Source.t) (st : State) : State :=
  {| objs := o; fits := fits st; sources := sources st |}.
Definition set_fits (f : gmap ref MultiOutput) (st : State) : State :=
  {| objs := objs st; fits := f; sources := sources st |}.
Definition set_sources (l : list ref) (st : State) : State :=
  {| objs := objs st; fits := fits st; sources := l |}.

(** The methods of the classes of [agilepy.dataclasses.Source], the
    function [Astro.distance] of [agilepy.utils.Utils] and the builtin
    [float] on strings.  None of them is in the sources at hand; the
    code below is written against this interface. *)
Class Dataclasses : Type :=
  { (** [spectrum.getParamAttributeWhere(attribute, key, value)] *)
    spectrum_getParamAttributeWhere :
      Spectrum.t -> string -> string -> string -> res string;
    (** [spatialModel.getParamAttributeWhere(attribute, key, value)] *)
    spatialModel_getParamAttributeWhere :
      SpatialModel.t -> string -> string -> string -> res string;
    (** [spectrum.getFreeAttributeValueOf(key, value)] *)
    getFreeAttributeValueOf : Spectrum.t -> string -> string -> res pyval;
    (** [source.setFreeAttributeValueOf(parameterName, free)], which
        updates the source in place *)
    setFreeAttributeValueOf : Source.t -> string -> bool -> Source.t;
    (** [sourcesLibrary.getSelectionParams(multi=...)] *)
    getSelectionParams : State -> bool -> list string;
    (** [sourcesLibrary.getFreeParams()] *)
    getFreeParams : State -> list string;
    (** [a == b] on two sources that are not the same object *)
    Source__eq__ : State -> Source.t -> Source.t -> bool;
    (** the names of the fields of [MultiOutput], in the order of the
        arguments of its constructor *)
    MultiOutput_fields : list string;
    (** whether the star import binds a name in the module *)
    module_binds : string -> bool;
    (** [Astro.distance(l1, b1, l2, b2)] *)
    Astro_distance : float -> float -> float -> float -> float;
    (** [float(s)] for a string *)
    float_of_string : string -> option float }.

(** What the code writes to the logger, and the calls it makes to the
    lambda of the user. *)
Inductive event : Type :=
| Warning (msg : string) (args : list string)
| Critical (msg : string) (args : list string)
| Info (msg : string) (args : list string)
| Call (args : list (string + float)).

(** A selection lambda: the names of its parameters, as
    [inspect.signature] lists them, and what a call with positional
    arguments returns (the truth value of the result) or raises.  An
    argument is a [str] (the name of a source) or a [float]. *)
Record Lambda : Type :=
  { lam_params : list string;
    lam_call : list (string + float) -> res bool }.

(** ** [agilepy/api/SourcesLibrary.py] *)

Module SourcesLibrary.
Section Methods.
Context {DC : Dataclasses}.

(** [x in l] for a list of strings *)
Definition str_in (x : string) (l : list string) : bool :=
  existsb (String.eqb x) l.

(** Reading an object through a reference.  A reference that names no
    object does not arise in Python; reading through it is an
    [AttributeError] here. *)
Definition deref {A} (m : gmap ref A) (r : ref) : res A :=
  match m !! r with
  | Some x => Ok x
  | None => Err AttributeError
  end.

(** [getattr(obj, name)] for a fit result, [obj] being [None] or a
    reference *)
Definition getattr (st : State) (obj : option ref) (name : string)
  : res attr :=
  match obj with
  | None => Err AttributeError
  | Some r =>
      let* o := deref (fits st) r in
      match o !! name with
      | Some a => Ok a
      | None => Err AttributeError
      end
  end.

(** [float(a)] *)
Definition py_float (a : attr) : res float :=
  match a with
  | AStr s =>
      match float_of_string s with
      | Some f => Ok f
      | None => Err ValueError
      end
  | AFloat f => Ok f
  | AList _ => Err TypeError
  end.

Definition _needMultiParams (st : State) (validatedUserSelectionParams : list string)
  : bool :=
  let multiParams := getSelectionParams st true in
  existsb (fun p => str_in p multiParams) validatedUserSelectionParams.

Definition _validateSelectionParams (st : State) (userSelectionParams : list string)
  : list event * list string :=
  let selectionParams := getSelectionParams st false in
  (map (fun up =>
          Warning "The selectionParam %s is not supported and it is not going to be used! Supported params: %s" [up])
       (filter (fun up => negb (str_in up selectionParams)) userSelectionParams),
   filter (fun param => str_in param selectionParams) userSelectionParams).

(** The arguments of the call for one source: the inner loop over the
    validated parameters. *)
Definition selectionParamsValues (st : State) (source : Source.t)
  (validated : list string) : res (list (string + float)) :=
  mapM (fun param =>
          if String.eqb param "Name" then Ok (inl (Source.name source))
          else
            let* a := getattr st (Source.multi source) param in
            let* f := py_float a in
            Ok (inr f))
       validated.

(** The loop over the sources of the catalog.  The references of the
    selected sources are collected in the order of the catalog. *)
Fixpoint select_loop (st : State) (validated : list string)
  (selectionLambda : Lambda) (l : list ref) : list event * res (list ref) :=
  match l with
  | [] => ([], Ok [])
  | r :: l' =>
      match deref (objs st) r with
      | Err e => ([], Err e)
      | Ok source =>
          if _needMultiParams st validated
             && negb (bool_decide (is_Some (Source.multi source)))
          then select_loop st validated selectionLambda l'
          else
            match selectionParamsValues st source validated with
            | Err e => ([], Err e)
            | Ok values =>
                match lam_call selectionLambda values with
                | Err e => ([Call values], Err e)
                | Ok b =>
                    let '(log, rest) :=
                      select_loop st validated selectionLambda l' in
                    (Call values :: log,
                     let* sources := rest in
                     Ok (if b then r :: sources else sources))
                end
            end
      end
  end.

Definition selectSourcesWithLambda (st : State) (selectionLambda : Lambda)
  : list event * res (list ref) :=
  let userSelectionParams := lam_params selectionLambda in
  let '(warnings, validatedUserSelectionParams) :=
    _validateSelectionParams st userSelectionParams in
  if (List.length validatedUserSelectionParams =? 0)%nat then
    ((warnings ++ [Warning "No selection params are used." []])%list, Ok [])
  else
    let '(log, r) :=
      select_loop st validatedUserSelectionParams selectionLambda
                  (sources st) in
    ((warnings ++ log)%list, r).

(** [freeSources].  When the parameter cannot be released the code
    logs a warning and returns the empty list; the arguments of that
    call name [selectionParam], which the method binds nowhere, so the
    warning is reached only if the module binds the name. *)
Definition freeSources (st : State) (selectionLambda : Lambda)
  (parameterName : string) (free : bool)
  : list event * res (list ref) * State :=
  let '(log, r) := selectSourcesWithLambda st selectionLambda in
  match r with
  | Err e => (log, Err e, st)
  | Ok sources =>
      if negb (str_in parameterName (getFreeParams st)) then
        if module_binds "selectionParam" then
          ((log ++ [Warning "The parameter %s cannot be released!" []])%list,
           Ok [], st)
        else (log, Err (NameError "selectionParam"), st)
      else
        (log, Ok sources,
         set_objs
           (fold_left
              (fun o s =>
                 alter (fun x => setFreeAttributeValueOf x parameterName free)
                       s o)
              sources (objs st))
           st)
  end.

(** [s in l] for sources: identity first, then [==]. *)
Definition source_in (st : State) (s : ref) (l : list ref) : bool :=
  existsb
    (fun e =>
       (s =? e)%nat
       || match objs st !! s, objs st !! e with
          | Some a, Some b => Source__eq__ st a b
          | _, _ => false
          end)
    l.

Definition deleteSources (st : State) (selectionLambda : Lambda)
  : list event * res (list ref) * State :=
  let '(log, r) := selectSourcesWithLambda st selectionLambda in
  match r with
  | Err e => (log, Err e, st)
  | Ok sourcesToBeDeleted =>
      (log, Ok sourcesToBeDeleted,
       set_sources
         (filter (fun s => negb (source_in st s sourcesToBeDeleted))
                 (sources st))
         st)
  end.

(** The lambda of [updateMulti]: [lambda Name : Name == data.label].
    [data.label] is read at every call. *)
Definition label_lambda (st : State) (data : ref) : Lambda :=
  {| lam_params := ["Name"];
     lam_call := fun args =>
       match args with
       | [Name] =>
           let* label := getattr st (Some data) "label" in
           Ok match Name, label with
              | inl n, AStr l => String.eqb n l
              | inr x, AFloat y => PrimFloat.eqb x y
              | _, _ => false
              end
       | _ => Err TypeError
       end |}.

(** The body of the loop of [updateMulti], after [sourceFound.multi]
    has been set: the value stored in [Dist]. *)
Definition multi_distance (st : State) (sourceFound : Source.t)
  (data : ref) (mapCenterL mapCenterB : float) : res float :=
  let* glon := spatialModel_getParamAttributeWhere
                 (Source.spatialModel sourceFound) "value" "name" "GLON" in
  let* sourceL := py_float (AStr glon) in
  let* glat := spatialModel_getParamAttributeWhere
                 (Source.spatialModel sourceFound) "value" "name" "GLAT" in
  let* sourceB := py_float (AStr glat) in
  let* L := getattr st (Some data) "L" in
  let* sourceL := py_float L in
  let* B := getattr st (Some data) "B" in
  let* sourceB := py_float B in
  let* sourceL :=
    (if PrimFloat.eqb sourceL (-1)%float
     then let* start_l := getattr st (Some data) "start_l" in
          py_float start_l
     else Ok sourceL) in
  let* sourceB :=
    (if PrimFloat.eqb sourceB (-1)%float
     then let* start_b := getattr st (Some data) "start_b" in
          py_float start_b
     else Ok sourceB) in
  Ok (Astro_distance sourceL sourceB mapCenterL mapCenterB).

(** The loop of [updateMulti] over the sources found.  What was written
    before an exception stays written. *)
Fixpoint updateMulti_loop (st : State) (data : ref)
  (mapCenterL mapCenterB : float) (sourcesFound : list ref)
  : list event * res unit * State :=
  match sourcesFound with
  | [] => ([], Ok tt, st)
  | r :: rest =>
      match deref (objs st) r with
      | Err e => ([], Err e, st)
      | Ok sourceFound =>
          let sourceFound := Source.set_multi (Some data) sourceFound in
          let st1 := set_objs (<[r := sourceFound]> (objs st)) st in
          match
            (let* d := multi_distance st1 sourceFound data
                         mapCenterL mapCenterB in
             let* o := deref (fits st1) data in
             Ok (<["Dist" := AFloat d]> o))
          with
          | Err e => ([], Err e, st1)
          | Ok o =>
              let st2 := set_fits (<[data := o]> (fits st1)) st1 in
              let '(log, res, st3) :=
                updateMulti_loop st2 data mapCenterL mapCenterB rest in
              (Info "Source '%s' has been updated with 'AG_multi' analysis output" []
                 :: log, res, st3)
          end
      end
  end.

Definition updateMulti (st : State) (data : ref)
  (mapCenterL mapCenterB : float) : list event * res unit * State :=
  let '(log, r) := selectSourcesWithLambda st (label_lambda st data) in
  match r with
  | Err e => (log, Err e, st)
  | Ok sourcesFound =>
      if (List.length sourcesFound =? 0)%nat then
        ((log ++ [Critical "Source '%s' has not been found in the sources library" []])%list,
         Err (SystemExit 1), st)
      else
        let '(log', res, st') :=
          updateMulti_loop st data mapCenterL mapCenterB sourcesFound in
        ((log ++ log')%list, res, st')
  end.

(** [line[0] != "!"] *)
Definition not_comment (line : string) : res bool :=
  match line with
  | String c _ => Ok (negb (Ascii.eqb c "!"))
  | EmptyString => Err IndexError
  end.

(** [v != ''] for an element of [values] *)
Definition nonempty_value (v : attr) : bool :=
  match v with
  | AStr s => negb (String.eqb s "")
  | _ => true
  end.

(** The body of the loop of [parseSourceFile]: the values of line
    number [lin_num]. *)
Definition line_values (lin_num : nat) (line : string) : res (list attr) :=
  let values := split_char " " line in
  let values := map strip (filter (fun v => negb (String.eqb v "")) values) in
  let* values :=
    match lin_num with
    | 0 =>
        Ok (map AStr
              (filter (fun v => negb (String.eqb v "[")
                                && negb (String.eqb v "]")
                                && negb (String.eqb v ","))
                      values))
    | 5 =>
        let* v := last_item values in
        let fluxperchannel := split_char "," v in
        Ok (map AStr (but_last values) ++ [AList fluxperchannel])%list
    | 8 | 9 | 10 | 11 =>
        let* c0 := index (split_char " " line) 0 in
        let coeffs := split_char "," c0 in
        let* c1 := index (split_char " " line) 1 in
        let coeffserr := map strip (split_char "," c1) in
        Ok [AList coeffs; AList coeffserr]
    | 13 =>
        let* c0 := index (split_char " " line) 0 in
        let energybins := split_char "," c0 in
        let* emins := mapM (fun e => index (split_dotdot e) 0) energybins in
        let* emaxs := mapM (fun e => index (split_dotdot e) 1) energybins in
        let* c1 := index (split_char " " line) 1 in
        let fovbinnumbers := split_char "," c1 in
        let* fovmin := mapM (fun e => index (split_dotdot e) 0) fovbinnumbers in
        let* fovmax := mapM (fun e => index (split_dotdot e) 1) fovbinnumbers in
        Ok ([AList emins; AList emaxs; AList fovmin; AList fovmax]
              ++ map AStr (last_n 5 values))%list
    | _ => Ok (map AStr values)
    end in
  Ok (filter nonempty_value values).

(** The loop over [enumerate(body)], from line number [lin_num] on:
    what is added to [allValues]. *)
Fixpoint all_values (lin_num : nat) (body : list string) : res (list attr) :=
  match body with
  | [] => Ok []
  | line :: rest =>
      let* values := line_values lin_num line in
      let* more := all_values (S lin_num) rest in
      Ok (values ++ more)%list
  end.

(** Modelled from the spec: the constructor of [MultiOutput], a class of
    [agilepy.dataclasses.Source], is not in the sources.  The spec has
    the record of a fixed shape, built from the flattened tokens as
    positional arguments, in the order of its fields. *)
Definition MultiOutput_new (args : list attr) : res MultiOutput :=
  if (List.length args =? List.length MultiOutput_fields)%nat
  then Ok (list_to_map (zip MultiOutput_fields args))
  else Err TypeError.

(** [parseSourceFile], on the text of the file at [sourceFilePath] *)
Definition parseSourceFile (text : string) : list event * res MultiOutput :=
  let lines := readlines text in
  match filterM not_comment lines with
  | Err e => ([], Err e)
  | Ok body =>
      if negb (List.length body =? 17)%nat then
        ([Critical "The number of lines of the %s source file is not 17!" []],
         Err (SystemExit 1))
      else
        ([], let* allValues := all_values 0 body in
             MultiOutput_new allValues)
  end.

(** The sum [first + o1 + o2 + ...]: the operands are evaluated from
    left to right, each just before it is added. *)
Definition py_sum (first : res pyval) (operands : list (res pyval))
  : res pyval :=
  fold_left
    (fun acc operand =>
       let* a := acc in
       let* b := operand in
       py_add a b)
    operands first.

Definition _computeFixFlag (source : Source.t) : res string :=
  let free := getFreeAttributeValueOf (Source.spectrum source) "name" in
  let* flux := free "Flux" in
  if py_eq flux (PyInt 0) then Ok "0"
  else
    let spatialFree := SpatialModel.free (Source.spatialModel source) in
    let* bitmask :=
      (if py_eq spatialFree (PyInt 2) then
         py_sum (Ok spatialFree)
                [free "Curvature"; free "Index2";
                 free "CutoffEnergy"; free "PivotEnergy";
                 free "Index"; free "Index1";
                 Ok (PyStr "0");
                 free "Flux"]
       else
         py_sum (free "Curvature")
                [free "Index2";
                 free "CutoffEnergy"; free "PivotEnergy";
                 free "Index"; free "Index1";
                 Ok spatialFree;
                 free "Flux"]) in
    let* fixflag := py_int_base2 bitmask in
    Ok (str_of_int fixflag).

(** The body of the loop of [_convertToAgileFormat]: [sourceStr] after
    the fields of [source] have been appended. *)
Definition append_source (sourceStr : string) (source : Source.t)
  : res string :=
  let spectrum := Source.spectrum source in
  let spatialModel := Source.spatialModel source in
  let type := Spectrum.type spectrum in
  let spec_attr := spectrum_getParamAttributeWhere spectrum in
  let* flux :=
    last_item
      (map Par.value
           (filter (fun param => String.eqb (Par.name param) "Flux")
                   (Spectrum.parameters spectrum))) in
  let sourceStr := sourceStr ++ (flux ++ " ") in
  let* glon := spatialModel_getParamAttributeWhere
                 spatialModel "value" "name" "GLON" in
  let sourceStr := sourceStr ++ (glon ++ " ") in
  let* glat := spatialModel_getParamAttributeWhere
                 spatialModel "value" "name" "GLAT" in
  let sourceStr := sourceStr ++ (glat ++ " ") in
  let* index :=
    (if String.eqb type "PLSuperExpCutoff"
     then spec_attr "value" "name" "Index1"
     else spec_attr "value" "name" "Index") in
  let sourceStr := sourceStr ++ (index ++ " ") in
  let* fixflag := _computeFixFlag source in
  let sourceStr := sourceStr ++ (fixflag ++ " ") in
  let sourceStr := sourceStr ++ "2 " in
  let sourceStr := sourceStr ++ (Source.name source ++ " ") in
  let sourceStr :=
    sourceStr ++ (SpatialModel.location_limit spatialModel ++ " ") in
  let* sourceStr :=
    (if String.eqb type "PowerLaw" then
       Ok (sourceStr ++ "0 0 0 ")
     else if String.eqb type "PLExpCutoff" then
       let* cutoffenergy := spec_attr "value" "name" "CutoffEnergy" in
       Ok (sourceStr ++ ((("1 " ++ cutoffenergy) ++ " 0 ")))
     else if String.eqb type "PLSuperExpCutoff" then
       let* cutoffenergy := spec_attr "value" "name" "CutoffEnergy" in
       let* index2 := spec_attr "value" "name" "Index2" in
       Ok (sourceStr ++ (((("2 " ++ cutoffenergy) ++ " ") ++ index2) ++ " "))
     else
       let* pivotenergy := spec_attr "value" "name" "PivotEnergy" in
       let* curvature := spec_attr "value" "name" "Curvature" in
       Ok (sourceStr ++ (((("3 " ++ pivotenergy) ++ " ") ++ curvature) ++ " "))) in
  let* sourceStr :=
    (if String.eqb type "PLSuperExpCutoff" then
       let* imin := spec_attr "min" "name" "Index1" in
       let* imax := spec_attr "max" "name" "Index1" in
       Ok (sourceStr ++ (((imin ++ " ") ++ imax) ++ " "))
     else
       let* imin := spec_attr "min" "name" "Index" in
       let* imax := spec_attr "max" "name" "Index" in
       Ok (sourceStr ++ (((imin ++ " ") ++ imax) ++ " "))) in
  let* sourceStr :=
    (if String.eqb type "PowerLaw" then
       Ok (sourceStr ++ "-1 -1 -1 -1")
     else if String.eqb type "PLExpCutoff" then
       let* cmin := spec_attr "min" "name" "CutoffEnergy" in
       let* cmax := spec_attr "max" "name" "CutoffEnergy" in
       Ok (sourceStr ++ ((((cmin ++ " ") ++ cmax) ++ " ") ++ " -1 -1"))
     else if String.eqb type "PLSuperExpCutoff" then
       let* cmin := spec_attr "min" "name" "CutoffEnergy" in
       let* cmax := spec_attr "max" "name" "CutoffEnergy" in
       let* i2min := spec_attr "min" "name" "Index2" in
       let* i2max := spec_attr "max" "name" "Index2" in
       Ok (sourceStr
             ++ ((((((cmin ++ " ") ++ cmax) ++ " ") ++ i2min) ++ " ") ++ i2max))
     else
       let* pmin := spec_attr "min" "name" "PivotEnergy" in
       let* pmax := spec_attr "max" "name" "PivotEnergy" in
       let* cmin := spec_attr "min" "name" "Curvature" in
       let* cmax := spec_attr "max" "name" "Curvature" in
       Ok (sourceStr
             ++ ((((((pmin ++ " ") ++ pmax) ++ " ") ++ cmin) ++ " ") ++ cmax))) in
  Ok (sourceStr ++ String newline EmptyString).

(** The loop of [_convertToAgileFormat] over the sources still to be
    written. *)
Fixpoint append_sources (st : State) (sourceStr : string) (l : list ref)
  : res string :=
  match l with
  | [] => Ok sourceStr
  | r :: l' =>
      let* source := deref (objs st) r in
      let* sourceStr := append_source sourceStr source in
      append_sources st sourceStr l'
  end.

Definition _convertToAgileFormat (st : State) : res string :=
  append_sources st "" (sources st).

End Methods.
End SourcesLibrary.

(** ** The text format, in the words of the specification *)

Module Spec.
Section Fields.
Context {DC : Dataclasses}.

(** The value of a sequence of binary digits, the first one the most
    significant. *)
Definition bits_value (bits : list bool) : Z :=
  fold_left (fun acc (b : bool) => (2 * acc + (if b then 1 else 0))%Z) bits 0%Z.

(** The flag digit of a bit. *)
Definition digit (b : bool) : pyval := PyStr (if b then "1" else "0").







End Fields.

(** ** The selection, in the words of the specification *)

Section Selection.
Context {DC : Dataclasses}.

(** The calls recorded in a trace, in their order. *)
Definition calls (log : list event) : list (list (string + float)) :=
  omap (fun e => match e with Call args => Some args | _ => None end) log.

(** The declared parameters that are in the registry. *)
Definition validated_params (st : State) (selectionLambda : Lambda)
  : list string :=
  filter (fun p => SourcesLibrary.str_in p (getSelectionParams st false))
         (lam_params selectionLambda).

(** A source is eligible unless a validated parameter needs a fit
    result and the source has none. *)
Definition eligible (st : State) (validated : list string) (r : ref) : bool :=
  match objs st !! r with
  | Some source =>
      negb (SourcesLibrary._needMultiParams st validated)
      || bool_decide (is_Some (Source.multi source))
  | None => true
  end.

(** The arguments of the call for the source that [r] names. *)
Definition call_args (st : State) (validated : list string) (r : ref)
  (args : list (string + float)) : Prop :=
  exists source,
    objs st !! r = Some source
    /\ SourcesLibrary.selectionParamsValues st source validated = Ok args.

(** An eligible source on which the lambda holds. *)
Definition selects (st : State) (validated : list string)
  (selectionLambda : Lambda) (r : ref) : bool :=
  eligible st validated r
  && match objs st !! r with
     | Some source =>
         match SourcesLibrary.selectionParamsValues st source validated with
         | Ok args =>
             match lam_call selectionLambda args with
             | Ok b => b
             | Err _ => false
             end
         | Err _ => false
         end
     | None => false
     end.

(** The source that [r] names has the name [X]. *)
Definition source_named (st : State) (X : string) (r : ref) : bool :=
  match objs st !! r with
  | Some source => String.eqb (Source.name source) X
  | None => false
  end.

(** [==] on sources looks no further than the selection does: two
    sources that compare equal have the same name, both have a fit result
    or none has, and the attributes of their fit results read the
    same.  The equality of a dataclass and the identity of objects both
    are of this kind. *)
Definition eq_respects_selection (st : State) : Prop :=
  forall a b,
    Source__eq__ st a b = true ->
    Source.name a = Source.name b
    /\ (is_Some (Source.multi a) <-> is_Some (Source.multi b))
    /\ (forall p, SourcesLibrary.getattr st (Source.multi a) p
                   = SourcesLibrary.getattr st (Source.multi b) p).

(** A fatal error, the way this module raises them: a critical message
    in the log, then [exit(1)]. *)
Definition fatal {A} (log : list event) (res : res A) : Prop :=
  res = Err (SystemExit 1)
  /\ exists msg args, In (Critical msg args) log.

(** The lines of a text that do not begin with an exclamation mark. *)
Definition is_comment (line : string) : bool :=
  match line with
  | String c _ => Ascii.eqb c "!"
  | EmptyString => false
  end.

Definition body_of (text : string) : list string :=
  filter (fun line => is_comment line = false) (readlines text).

(** The first token of a line: the first of its words, with the blank
    characters at its ends removed, that is not empty and is not a
    bracket or a comma on its own. *)
Definition first_token (line : string) : option string :=
  head (filter (fun v => v <> "" /\ v <> "[" /\ v <> "]" /\ v <> ",")
               (map strip (words line))).

(** ** The update with a fit result, in the words of the specification *)

(** The number that [float] makes of the attribute [n] of a fit
    result. *)
Definition attr_float (o : MultiOutput) (n : string) : res float :=
  match o !! n with
  | Some a => SourcesLibrary.py_float a
  | None => Err AttributeError
  end.

(** The resolved coordinate: the reported one, unless it is the
    sentinel -1, and then the initial one. *)
Definition resolved (reported initial : float) : float :=
  if PrimFloat.eqb reported (-1)%float then initial else reported.

(** The spatial model of the source has a GLON and a GLAT that [float]
    converts. *)
Definition has_position (source : Source.t) : Prop :=
  exists glon glat,
    spatialModel_getParamAttributeWhere
      (Source.spatialModel source) "value" "name" "GLON" = Ok glon
    /\ is_Some (float_of_string glon)
    /\ spatialModel_getParamAttributeWhere
         (Source.spatialModel source) "value" "name" "GLAT" = Ok glat
    /\ is_Some (float_of_string glat).

End Selection.

(** The lambda [lambda Name : Name == X] for a string [X]. *)
Definition name_is (X : string) : Lambda :=
  {| lam_params := ["Name"];
     lam_call := fun args =>
       match args with
       | [Name] =>
           Ok match Name with
              | inl n => String.eqb n X
              | inr _ => false
              end
       | _ => Err TypeError
       end |}.

End Spec.

(** ** An implementation of the interface and a small catalog

    Used to run the code on concrete inputs. *)

Module Sample.

Definition par_attribute (a : string) (p : Par.t) : res string :=
  if String.eqb a "name" then Ok (Par.name p)
  else if String.eqb a "value" then Ok (Par.value p)
  else if String.eqb a "min" then Ok (Par.min p)
  else if String.eqb a "max" then Ok (Par.max p)
  else Err AttributeError.

(** The attribute of the last parameter whose [key] is [value]. *)
Definition getParamAttributeWhere (ps : list Par.t)
  (attribute key value : string) : res string :=
  let* found :=
    filterM (fun p => let* k := par_attribute key p in
                      Ok (String.eqb k value)) ps in
  let* p := last_item found in
  par_attribute attribute p.

(** The flag of the last parameter whose [key] is [value]; the digit 0
    when there is none. *)
Definition getFree (sp : Spectrum.t) (key value : string) : res pyval :=
  let* found :=
    filterM (fun p => let* k := par_attribute key p in
                      Ok (String.eqb k value)) (Spectrum.parameters sp) in
  match last_item found with
  | Ok p => Ok (Par.free p)
  | Err _ => Ok (PyStr "0")
  end.

Definition set_free (n : string) (free : bool) (p : Par.t) : Par.t :=
  if String.eqb (Par.name p) n then
    {| Par.name := Par.name p; Par.value := Par.value p;
       Par.min := Par.min p; Par.max := Par.max p;
       Par.free := PyInt (if free then 1 else 0) |}
  else p.

Definition setFree (s : Source.t) (n : string) (free : bool) : Source.t :=
  {| Source.name := Source.name s;
     Source.spectrum :=
       {| Spectrum.type := Spectrum.type (Source.spectrum s);
          Spectrum.parameters :=
            map (set_free n free) (Spectrum.parameters (Source.spectrum s)) |};
     Source.spatialModel := Source.spatialModel s;
     Source.multi := Source.multi s |}.

(** [float] on the integer numerals. *)
Definition float_of_numeral (s : string) : option float :=
  match int_of_string 10 s with
  | Ok z =>
      let f := PrimFloat.of_uint63 (Uint63.of_Z (Z.abs z)) in
      Some (if (z <? 0)%Z then PrimFloat.opp f else f)
  | Err _ => None
  end.

(** The separation of two directions that are close to each other and
    to the equator. *)
Definition flat_distance (l1 b1 l2 b2 : float) : float :=
  PrimFloat.sqrt
    (PrimFloat.add
       (PrimFloat.mul (PrimFloat.sub l1 l2) (PrimFloat.sub l1 l2))
       (PrimFloat.mul (PrimFloat.sub b1 b2) (PrimFloat.sub b1 b2))).

Definition fields : list string :=
  ["label"; "Fix"; "index"; "ULConfidenceLevel"; "SrcLocConfLevel";
   "start_l"; "fluxperchannel"; "start_b"; "start_flux";
   "galcoeff"; "galcoeff_err"; "galzero"; "galzero_err";
   "isocoeff"; "isocoeff_err"; "isozero"; "isozero_err";
   "L"; "L_peak"; "B_peak"; "emin"; "emax"; "fovmin"; "fovmax";
   "albedo"; "binsize"; "expstep"; "phasecode"; "ExpRatio";
   "B"; "TS"; "Flux"].

Definition dataclasses : Dataclasses :=
  {| spectrum_getParamAttributeWhere sp :=
       getParamAttributeWhere (Spectrum.parameters sp);
     spatialModel_getParamAttributeWhere sm :=
       getParamAttributeWhere (SpatialModel.parameters sm);
     getFreeAttributeValueOf := getFree;
     setFreeAttributeValueOf := setFree;
     getSelectionParams _ multi :=
       if multi then ["Dist"; "Flux"; "TS"]
       else ["Name"; "Dist"; "Flux"; "TS"];
     getFreeParams _ :=
       ["Flux"; "Index"; "Index1"; "Index2"; "CutoffEnergy";
        "PivotEnergy"; "Curvature"];
     Source__eq__ _ _ _ := false;
     MultiOutput_fields := fields;
     module_binds _ := false;
     Astro_distance := flat_distance;
     float_of_string := float_of_numeral |}.

(** The same, in a module that binds the name [selectionParam]. *)
Definition dataclasses_bound : Dataclasses :=
  {| spectrum_getParamAttributeWhere :=
       @spectrum_getParamAttributeWhere dataclasses;
     spatialModel_getParamAttributeWhere :=
       @spatialModel_getParamAttributeWhere dataclasses;
     getFreeAttributeValueOf := getFree;
     setFreeAttributeValueOf := setFree;
     getSelectionParams := @getSelectionParams dataclasses;
     getFreeParams := @getFreeParams dataclasses;
     Source__eq__ _ _ _ := false;
     MultiOutput_fields := fields;
     module_binds _ := true;
     Astro_distance := flat_distance;
     float_of_string := float_of_numeral |}.

Definition par (n v lo hi : string) (f : pyval) : Par.t :=
  {| Par.name := n; Par.value := v; Par.min := lo; Par.max := hi;
     Par.free := f |}.

Definition point (free : pyval) (glon glat : string) : SpatialModel.t :=
  {| SpatialModel.type := "PointSource";
     SpatialModel.location_limit := "0";
     SpatialModel.free := free;
     SpatialModel.parameters :=
       [par "GLON" glon "-1" "-1" (PyStr "0");
        par "GLAT" glat "-1" "-1" (PyStr "0")] |}.

(** A power law with a free flux and a free index. *)
Definition vela (spatialFree : pyval) (m : option ref) : Source.t :=
  {| Source.name := "Vela";
     Source.spectrum :=
       {| Spectrum.type := "PowerLaw";
          Spectrum.parameters :=
            [par "Flux" "969e-08" "0" "1e-4" (PyStr "1");
             par "Index" "1.71" "0.5" "5" (PyStr "1")] |};
     Source.spatialModel := point spatialFree "263" "-2";
     Source.multi := m |}.

(** A power law with a cutoff, with a fixed flux and a free index. *)
Definition crab (fluxFree : pyval) : Source.t :=
  {| Source.name := "Crab";
     Source.spectrum :=
       {| Spectrum.type := "PLExpCutoff";
          Spectrum.parameters :=
            [par "Flux" "25e-08" "0" "1e-4" fluxFree;
             par "Index" "2.1" "0.5" "5" (PyStr "1");
             par "CutoffEnergy" "3000" "20" "10000" (PyStr "0")] |};
     Source.spatialModel := point (PyStr "0") "184" "-5";
     Source.multi := None |}.

(** A fit result for Vela whose longitude was not fitted. *)
Definition fit : MultiOutput :=
  list_to_map
    [("label", AStr "Vela"); ("L", AStr "-1"); ("B", AStr "-3");
     ("start_l", AStr "263"); ("start_b", AStr "-2")].

(** Three sources, two of them named Vela, and a fit result that no
    source carries yet. *)
Definition catalog : State :=
  {| objs :=
       list_to_map
         [(1, vela (PyStr "1") None); (2, crab (PyStr "0"));
          (3, vela (PyStr "0") None)];
     fits := {[ 7 := fit ]};
     sources := [1; 2; 3] |}.


(** A file of the fitter: two comment lines and seventeen lines. *)
Definition fitter_lines : list string :=
  ["! header"; "! columns";
   "Vela [ 1 , 2 ]";
   "a"; "b"; "c"; "d";
   "263 1e-8,2e-8";
   "e"; "f";
   "0.7,0.8 0.01,0.02"; "0,0 0,0"; "12,13 0.1,0.2"; "0,0 0,0";
   "g";
   "100..300,300..1000 0..1,1..2 1 2 3 4 5";
   "-2"; "h"; "i"].

End Sample.

(** ** [agilepy/utils/Parameters.py]: the prefix of the names of the maps *)

Module MapNames.

(** [n] zeros *)
Fixpoint zeros (n : nat) : string :=
  match n with
  | O => EmptyString
  | S n' => String "0" (zeros n')
  end.

(** [s.zfill(width)]: zeros on the left up to [width] characters, put
    after the sign when [s] begins with one; a string that is long
    enough is returned as it is. *)
Definition zfill (width : nat) (s : string) : string :=
  if (width <=? String.length s)%nat then s
  else
    let fill := (width - String.length s)%nat in
    match s with
    | String c s' =>
        if Ascii.eqb c "+" || Ascii.eqb c "-"
        then String c (zeros fill ++ s')
        else zeros fill ++ s
    | EmptyString => zeros fill
    end.

(** [getMapNamePrefix(emin, emax, stepi)] for two strings and an [int]:
    [_mapNamePrefix] is [EMIN{}_EMAX{}_{}], and [format] puts a string in
    the place of a pair of braces as it is. *)
Definition getMapNamePrefix (emin emax : string) (stepi : Z) : string :=
  "EMIN" ++ zfill 5 emin ++ "_EMAX" ++ zfill 5 emax
    ++ "_" ++ zfill 2 (str_of_int stepi).

(** A decimal numeral: digits only, and one at least. *)
Definition is_digit (c : ascii) : bool :=
  match digit_value c with
  | Some _ => true
  | None => false
  end.

Fixpoint all_digits (s : string) : bool :=
  match s with
  | EmptyString => true
  | String c s' => is_digit c && all_digits s'
  end.

Definition is_numeral (s : string) : bool :=
  negb (String.eqb s "") && all_digits s.

End MapNames.

(** ** [agilepy/api/AGEng.py]: the log files of an interval *)

Module AGEng.

(** What the methods write to the logger. *)
Inductive log_event : Type :=
| Debug (msg : string)
| LogInfo (msg : string)
| LogWarning (msg : string)
| LogCritical (msg : string).

(** The exceptions of this module: those of Python, the one of
    [agilepy.utils.CustomExceptions] and the [OSError] of a file that
    cannot be opened. *)
Inductive eng_exn : Type :=
| PyExn (e : exn)
| WrongCoordinateSystemError
| OSError.

Inductive result (A : Type) : Type :=
| Return (a : A)
| Raise (e : eng_exn).
Arguments Return {A} a.
Arguments Raise {A} e.

(** What [astropy], [numpy], the configuration, the file system and
    [PlottingUtils] do for [AGEng].  The loop of
    [_computePointingDistancesFromSource] over the log files, with
    [_computeSeparationPerFile] and the conversion and the writing that
    follow it, works on arrays of [numpy] and coordinates of [astropy]
    from its first line to its last: it is the field
    [separations_of_logs] here, and the statements below hold whatever
    it does. *)
Class Engine : Type :=
  { SkyCoord : Type;
    Arrays : Type;
    Plot : Type;
    (** [self.config.getConf("input", "logfile")] *)
    config_logfile : res string;
    (** [SkyCoord(ra=x*u.degree, dec=y*u.degree, frame='fk5')] *)
    SkyCoord_fk5 : float -> float -> res SkyCoord;
    (** [SkyCoord(l=x*u.degree, b=y*u.degree, frame='galactic')] *)
    SkyCoord_galactic : float -> float -> res SkyCoord;
    (** [c.transform_to('fk5')] *)
    transform_to_fk5 : SkyCoord -> res SkyCoord;
    (** [c.l.deg], [c.b.deg], [c.ra.deg], [c.dec.deg] *)
    l_deg : SkyCoord -> res float;
    b_deg : SkyCoord -> res float;
    ra_deg : SkyCoord -> res float;
    dec_deg : SkyCoord -> res float;
    (** the text of a file, when [open(path, "r")] opens it *)
    read_text : string -> option string;
    (** the loop over the log files and what follows it, up to the
        seven values that are returned *)
    separations_of_logs :
      list string -> float -> float -> SkyCoord -> float -> Z -> bool ->
      list log_event * result Arrays;
    (** [self.plottingUtils.visibilityPlot(...)] on the seven values *)
    plottingUtils_visibilityPlot :
      Arrays -> float -> Z -> bool -> string -> string ->
      list log_event * result Plot }.

(** What [_computePointingDistancesFromSource] returns: five values
    when no log file meets the interval, three empty lists and the two
    coordinates, and seven values otherwise. *)
Inductive distances (A : Type) : Type :=
| Five (src_ra src_dec : float)
| Seven (values : A).
Arguments Five {A} src_ra src_dec.
Arguments Seven {A} values.

Section Methods.
Context {DC : Dataclasses}.

(** The body of the loop of [_getLogsFileInInterval]: the path of the
    log file of a line of the index, when its interval meets the one
    asked for. *)
Definition log_file_of (tmin tmax : float) (line : string)
  : res (option string) :=
  let elements := split_char " " line in
  let* logFilePath := index elements 0 in
  let* e1 := index elements 1 in
  let* logFileTmin := SourcesLibrary.py_float (AStr e1) in
  let* e2 := index elements 2 in
  let* logFileTmax := SourcesLibrary.py_float (AStr e2) in
  Ok (if PrimFloat.leb logFileTmin tmax && PrimFloat.leb tmin logFileTmax
      then Some logFilePath else None).

(** The loop over the lines: the paths are collected in the order of
    the index; the first exception aborts. *)
Fixpoint logs_loop (tmin tmax : float) (lines : list string)
  : res (list string) :=
  match lines with
  | [] => Ok []
  | line :: rest =>
      let* found := log_file_of tmin tmax line in
      let* logsFiles := logs_loop tmin tmax rest in
      Ok match found with
         | Some logFilePath => logFilePath :: logsFiles
         | None => logsFiles
         end
  end.

(** [_getLogsFileInInterval], on the text of the file at
    [logfilesIndex] *)
Definition _getLogsFileInInterval (text : string) (tmin tmax : float)
  : list log_event * res (list string) :=
  ([Debug "Selecting files from %s [%d to %d]"],
   let lines := map strip (readlines text) in
   logs_loop tmin tmax lines).

End Methods.

Section Distances.
Context {DC : Dataclasses} {EN : Engine}.

(** A step of a computation that logs and may raise. *)
Definition then_ {A B} (m : list log_event * result A)
  (k : A -> list log_event * result B) : list log_event * result B :=
  match m with
  | (log, Return a) => let '(log', r) := k a in ((log ++ log')%list, r)
  | (log, Raise e) => (log, Raise e)
  end.

(** A value that Python computes without logging. *)
Definition eval {A} (m : res A) : list log_event * result A :=
  match m with
  | Ok a => ([], Return a)
  | Err e => ([], Raise (PyExn e))
  end.

Definition logged (e : log_event) : list log_event * result unit :=
  ([e], Return tt).

(** [_getLogsFileInInterval(logfilesIndex, tmin, tmax)], on the path
    of the index: the file is opened after the first message. *)
Definition logs_of_index (logfilesIndex : string) (tmin tmax : float)
  : list log_event * result (list string) :=
  match read_text logfilesIndex with
  | None => ([Debug "Selecting files from %s [%d to %d]"], Raise OSError)
  | Some text =>
      let '(log, r) := _getLogsFileInInterval text tmin tmax in
      (log, match r with Ok l => Return l | Err e => Raise (PyExn e) end)
  end.

(** [_computePointingDistancesFromSource].  [skyCordsGAL] is bound in
    the branch of the galactic coordinates only; reading it unbound is
    an [UnboundLocalError], which is a [NameError]. *)
Definition _computePointingDistancesFromSource
  (tmin tmax src_x src_y : float) (ref : string) (zmax : float) (step : Z)
  (writeFiles : bool) (logfilesIndex : option string)
  : list log_event * result (distances Arrays) :=
  then_ (logged (LogInfo "Computing pointing distances from source (%f, %f) %s in [%f, %f]"))
  (fun _ =>
  then_ (match logfilesIndex with
         | Some path =>
             if String.eqb path "" then eval config_logfile
             else ([], Return path)
         | None => eval config_logfile
         end)
  (fun logfilesIndex =>
  then_ (if String.eqb ref "equ" then
           then_ (eval (SkyCoord_fk5 src_x src_y))
                 (fun skyCordsFK5 => ([], Return (None, skyCordsFK5)))
         else if String.eqb ref "gal" then
           then_ (eval (SkyCoord_galactic src_x src_y))
           (fun skyCordsGAL =>
           then_ (eval (transform_to_fk5 skyCordsGAL))
           (fun skyCordsFK5 => ([], Return (Some skyCordsGAL, skyCordsFK5))))
         else
           ([LogCritical "Reference system '%s' is not supported"],
            Raise WrongCoordinateSystemError))
  (fun coords =>
  let '(skyCordsGAL, skyCordsFK5) := coords in
  then_ (if (step <? 1)%Z then
           ([LogCritical "step %f cannot be < 1"],
            Raise (PyExn ValueError))
         else ([], Return tt))
  (fun _ =>
  then_ (match skyCordsGAL with
         | None => ([], Raise (PyExn (NameError "skyCordsGAL")))
         | Some gal =>
             then_ (eval (l_deg gal)) (fun _ =>
             then_ (eval (b_deg gal)) (fun _ =>
             logged (Debug "Galactict coords: l:%f b:%f")))
         end)
  (fun _ =>
  then_ (eval (ra_deg skyCordsFK5)) (fun _ =>
  then_ (eval (dec_deg skyCordsFK5)) (fun _ =>
  then_ (logged (Debug "FK5 coords: ra:%f dec:%f "))
  (fun _ =>
  then_ (logs_of_index logfilesIndex tmin tmax)
  (fun logFiles =>
  then_ (logged (LogInfo "%d log files satisfy the interval %f-%f"))
  (fun _ =>
  match logFiles with
  | [] =>
      then_ (logged (LogWarning "No log files can are compatible with tmin %f and tmax %f"))
      (fun _ =>
      then_ (eval (ra_deg skyCordsFK5)) (fun src_ra =>
      then_ (eval (dec_deg skyCordsFK5)) (fun src_dec =>
      ([], Return (Five src_ra src_dec)))))
  | _ =>
      then_ (separations_of_logs logFiles tmin tmax skyCordsFK5 zmax step
                                 writeFiles)
            (fun values => ([], Return (Seven values)))
  end)))))))))).

(** [visibilityPlot]: the result of the computation is unpacked into
    seven names. *)
Definition visibilityPlot (tmin tmax src_x src_y : float) (ref : string)
  (zmax : float) (step : Z) (writeFiles : bool)
  (logfilesIndex : option string) (saveImage : bool) (format title : string)
  : list log_event * result Plot :=
  then_ (_computePointingDistancesFromSource tmin tmax src_x src_y ref zmax
           step writeFiles logfilesIndex)
  (fun returned =>
  match returned with
  | Five _ _ => ([], Raise (PyExn ValueError))
  | Seven values =>
      plottingUtils_visibilityPlot values zmax step saveImage format title
  end).

End Distances.
End AGEng.

(** ** [agilepy/api/SourcesLibrary.py]: the object and the file it writes *)

Module Instance.

(** The attributes of [self]: the path of the XML file, its directory,
    and the catalog, each of them [None] until a file is loaded. *)
Record Self : Type :=
  { xmlFilePath : option string;
    xmlFilePathPrefix : option string;
    sourcesLibrary : option State }.

(** How a call that opens a file ends. *)
Inductive outcome (A : Type) : Type :=
| Returned (a : A)
| Raised (e : exn)
| OSError.
Arguments Returned {A} a.
Arguments Raised {A} e.
Arguments OSError {A}.

(** What [open(path, "w")] and the [write] that follows it do to a
    file: the text is written; or [open] raises and the file is as it
    was; or [open] empties the file and [write] raises, with [remains]
    in the file. *)
Inductive io_outcome : Type :=
| Written
| NotOpened
| WriteFailed (remains : string).

Section Methods.
Context {DC : Dataclasses}.

Definition __init__ : Self :=
  {| xmlFilePath := None; xmlFilePathPrefix := None;
     sourcesLibrary := None |}.

(** [self.sourcesLibrary.sources] *)
Definition library_sources (self : Self) : res State :=
  match sourcesLibrary self with
  | Some st => Ok st
  | None => Err AttributeError
  end.

Definition getSources (self : Self) : res (list ref) :=
  let* st := library_sources self in
  Ok (sources st).

Definition getSourcesNames (self : Self) : res (list string) :=
  let* st := library_sources self in
  mapM (fun r => let* s := SourcesLibrary.deref (objs st) r in
                 Ok (Source.name s))
       (sources st).

Definition startswith_sep (s : string) : bool :=
  match s with
  | String "/" _ => true
  | _ => false
  end.

Fixpoint endswith_sep (s : string) : bool :=
  match s with
  | EmptyString => false
  | String c EmptyString => Ascii.eqb c "/"
  | String _ s' => endswith_sep s'
  end.

(** [os.path.join(a, b)] of [posixpath], for [a] a string or [None]
    and [b] a string *)
Definition os_path_join (a : option string) (b : string) : res string :=
  match a with
  | None => Err TypeError
  | Some path =>
      Ok (if startswith_sep b then b
          else if String.eqb path "" || endswith_sep path then path ++ b
          else path ++ ("/" ++ b))
  end.

(** [writeToFile(outfileNamePrefix, format)].  The files are a map
    from paths to texts; [io path text] says what opening the file at
    [path] for writing and writing [text] to it does.  Returns the
    trace, the outcome and the files afterwards. *)
Definition writeToFile (self : Self) (files : gmap string string)
  (io : string -> string -> io_outcome) (outfileNamePrefix format : string)
  : list event * outcome string * gmap string string :=
  if negb (SourcesLibrary.str_in format ["AG"]) then
    ([Critical "Format %s not supported. Supported formats: 'AG'" [format]],
     Raised (SystemExit 1), files)
  else
    match os_path_join (xmlFilePathPrefix self) outfileNamePrefix with
    | Err e => ([], Raised e, files)
    | Ok outfilepath =>
        if String.eqb format "AG" then
          match (let* st := library_sources self in
                 SourcesLibrary._convertToAgileFormat st) with
          | Err e => ([], Raised e, files)
          | Ok sourcesAgileFormat =>
              let outfilepath := outfilepath ++ ".txt" in
              match io outfilepath sourcesAgileFormat with
              | Written =>
                  ([], Returned outfilepath,
                   <[outfilepath := sourcesAgileFormat]> files)
              | NotOpened => ([], OSError, files)
              | WriteFailed remains =>
                  ([], OSError, <[outfilepath := remains]> files)
              end
          end
        else ([], Returned outfilepath, files)
    end.

End Methods.
End Instance.

(** ** The arguments of a call and the sources that are passed over,
    in the words of the specification *)

Module SelectionSpec.
Section Values.
Context {DC : Dataclasses}.

(** The value of the parameter [p] for a source: its name for [Name];
    otherwise the number that [float] makes of the attribute [p] of
    its fit result. *)
Definition param_value (st : State) (source : Source.t) (p : string)
  (v : string + float) : Prop :=
  if String.eqb p "Name" then v = inl (Source.name source)
  else exists r o f,
      Source.multi source = Some r
      /\ fits st !! r = Some o
      /\ Spec.attr_float o p = Ok f
      /\ v = inr f.

(** The arguments are the values of the parameters, one for each, in
    their order. *)
Definition values_of (st : State) (r : ref) (params : list string)
  (args : list (string + float)) : Prop :=
  exists source,
    objs st !! r = Some source
    /\ Forall2 (param_value st source) params args.

(** One of the parameters is among those that the registry lists for
    [multi=True]: it needs a fit result. *)
Definition requires_fit (st : State) (params : list string) : bool :=
  existsb (fun p => bool_decide (p ∈ getSelectionParams st true)) params.

(** A source is passed over when a parameter needs a fit result and
    the source has none. *)
Definition passed_over (st : State) (params : list string) (r : ref)
  : bool :=
  match objs st !! r with
  | Some source =>
      requires_fit st params
      && negb (bool_decide (is_Some (Source.multi source)))
  | None => false
  end.

(** A source that is not passed over and of whose values the lambda
    holds. *)
Definition chosen (st : State) (params : list string) (lam : Lambda)
  (r : ref) : Prop :=
  passed_over st params r = false
  /\ exists args, values_of st r params args /\ lam_call lam args = Ok true.

End Values.
End SelectionSpec.

(** ** The shape of the output of the fitter *)

Module Shape.

(** An item [a..b] *)
Definition has_range (e : string) : bool :=
  (2 <=? List.length (split_dotdot e))%nat.

(** What the parser needs of the line number [lin_num]: a word on
    line 5; two pieces between single blanks on lines 8 to 11; two
    pieces on line 13, each a list of items [a..b] between commas. *)
Definition line_shape (lin_num : nat) (line : string) : bool :=
  match lin_num with
  | 5 => match words line with [] => false | _ => true end
  | 8 | 9 | 10 | 11 => (2 <=? List.length (split_char " " line))%nat
  | 13 =>
      match split_char " " line with
      | c0 :: c1 :: _ =>
          forallb has_range (split_char "," c0)
          && forallb has_range (split_char "," c1)
      | _ => false
      end
  | _ => true
  end.

Fixpoint shaped (lin_num : nat) (body : list string) : bool :=
  match body with
  | [] => true
  | line :: rest => line_shape lin_num line && shaped (S lin_num) rest
  end.

End Shape.

(** ** What the statements below speak of *)

Module Props.
Section Catalog.
Context {DC : Dataclasses}.

(** A catalog in which no source is listed twice and every reference
    names a source. *)
Definition catalog_wf (st : State) : Prop :=
  NoDup (sources st)
  /\ Forall (fun r => is_Some (objs st !! r)) (sources st).

(** The names of the sources of the catalog, in its order. *)
Definition names_of (st : State) : list string :=
  omap (fun r => Source.name <$> objs st !! r) (sources st).

(** A source encodes to a line on its own. *)
Definition encodes_to (st : State) (r : ref) (line : string) : Prop :=
  exists source,
    objs st !! r = Some source
    /\ SourcesLibrary.append_source "" source = Ok line.


(** An entry of the index of the log files. *)
Record entry : Type :=
  { path : string; first : float; last : float }.

(** The interval of the entry meets [tmin, tmax]. *)
Definition meets (tmin tmax : float) (e : entry) : bool :=
  PrimFloat.leb (first e) tmax && PrimFloat.leb tmin (last e).

(** The line reads as the entry: without the blanks at its ends, its
    pieces between single blanks are the path, a numeral of the start
    and a numeral of the end, and possibly more. *)
Definition reads_as (line : string) (e : entry) : Prop :=
  exists t1 t2 more,
    split_char " " (strip line) = path e :: t1 :: t2 :: more
    /\ float_of_string t1 = Some (first e)
    /\ float_of_string t2 = Some (last e).

(** A line that has the three pieces and the two numerals. *)
Definition well_formed (line : string) : Prop :=
  exists e, reads_as line e.

(** The registry of the selection parameters is a constant of the
    class: it is the same in every state. *)
Definition fixed_registry : Prop :=
  forall (st1 st2 : State) (multi : bool),
    getSelectionParams st1 multi = getSelectionParams st2 multi.

(** No source of the catalog carries a fit result. *)
Definition no_fit_result (st : State) : Prop :=
  Forall (fun r => forall s, objs st !! r = Some s -> Source.multi s = None)
         (sources st).

End Catalog.

(** The lines of a text, one after the other. *)
Definition concat_lines (lines : list string) : string :=
  fold_right String.append "" lines.

(** A line of text: no newline in it. *)
Definition one_line (line : string) : Prop :=
  has_char newline line = false.

(** A lambda of one parameter, [Dist]. *)
Definition on_dist (lam : Lambda) : Prop :=
  lam_params lam = ["Dist"].

End Props.

(** ** More sample data *)

Module SampleFiles.

(** An index of three log files. *)
Definition log_index : string :=
  unlines ["/logs/a.log.gz 100 200"; "/logs/b.log.gz 200 300";
           "/logs/c.log.gz 300 400"].

Definition log_entries : list Props.entry :=
  [ {| Props.path := "/logs/a.log.gz";
       Props.first := 100%float; Props.last := 200%float |};
    {| Props.path := "/logs/b.log.gz";
       Props.first := 200%float; Props.last := 300%float |};
    {| Props.path := "/logs/c.log.gz";
       Props.first := 300%float; Props.last := 400%float |} ].

(** An engine whose coordinates are pairs of numbers, whose
    configuration names the index above, and whose arrays hold the
    names of the log files. *)
Definition engine : AGEng.Engine :=
  {| AGEng.SkyCoord := float * float;
     AGEng.Arrays := list string;
     AGEng.Plot := string;
     AGEng.config_logfile := Ok "/logs/index";
     AGEng.SkyCoord_fk5 x y := Ok (x, y);
     AGEng.SkyCoord_galactic x y := Ok (x, y);
     AGEng.transform_to_fk5 c := Ok c;
     AGEng.l_deg c := Ok (fst c);
     AGEng.b_deg c := Ok (snd c);
     AGEng.ra_deg c := Ok (fst c);
     AGEng.dec_deg c := Ok (snd c);
     AGEng.read_text path :=
       if String.eqb path "/logs/index" then Some log_index else None;
     AGEng.separations_of_logs logFiles _ _ _ _ _ _ :=
       ([], AGEng.Return logFiles);
     AGEng.plottingUtils_visibilityPlot _ _ _ _ format title :=
       ([], AGEng.Return (title ++ "." ++ format)) |}.

(** The sample catalog, loaded from [/data/catalog.xml]. *)
Definition loaded : Instance.Self :=
  {| Instance.xmlFilePath := Some "/data/catalog.xml";
     Instance.xmlFilePathPrefix := Some "/data";
     Instance.sourcesLibrary := Some Sample.catalog |}.

(** The sample catalog after the fit result 7 has been attached to the
    sources named Vela. *)
Definition catalog_updated : State :=
  {| objs :=
       list_to_map
         [(1, Sample.vela (PyStr "1") (Some 7)); (2, Sample.crab (PyStr "0"));
          (3, Sample.vela (PyStr "0") (Some 7))];
     fits := {[ 7 := <["Dist" := AFloat 3%float]> Sample.fit ]};
     sources := [1; 2; 3] |}.





(** A writer for which every file opens and every write goes
    through. *)
Definition io_ok (path text : string) : Instance.io_outcome :=
  Instance.Written.

(** [lambda Dist : Dist <= 5] *)
Definition near : Lambda :=
  {| lam_params := ["Dist"];
     lam_call := fun args =>
       match args with
       | [inr d] => Ok (PrimFloat.leb d 5%float)
       | [inl _] => Err TypeError
       | _ => Err TypeError
       end |}.

End SampleFiles.

(** ** [agilepy/api/SourcesLibrary.py]: loading the XML file *)

Module Xml.

(** An element of [xml.etree.ElementTree]: its tag, its attributes in
    the order of the document, and its children. *)
#[warnings="-register-all"] Inductive Element : Type :=
| Elem (tag : string) (attrib : list (string * string))
       (children : list Element).

Definition tag (x : Element) : string :=
  match x with Elem t _ _ => t end.
Definition attrib (x : Element) : list (string * string) :=
  match x with Elem _ a _ => a end.
Definition children (x : Element) : list Element :=
  match x with Elem _ _ c => c end.

(** [key in d] *)
Definition has_key (key : string) (d : list (string * string)) : bool :=
  existsb (fun kv => String.eqb (fst kv) key) d.

End Xml.

(** The classes [SourceLibrary], [Source], [Spectrum], [SpatialModel]
    and [Parameter] of [agilepy.dataclasses.Source] are not in the
    sources at hand.  The loader is written against their
    constructors, called with the attributes of an element as keyword
    arguments, and against the three things it does to their
    instances: setting an attribute, appending to a list attribute,
    and taking the truth value. *)
Class Constructors : Type :=
  { LibraryDC : Type;
    SourceDC : Type;
    DescrDC : Type;
    ParameterDC : Type;
    (** [SourceLibrary(sources=[], ...)] with the attributes as keywords *)
    SourceLibrary_new : list (string * string) -> res LibraryDC;
    (** [Source(...)] with the attributes as keywords *)
    Source_new : list (string * string) -> res SourceDC;
    (** [Spectrum(parameters=[], ...)] with the attributes as keywords *)
    Spectrum_new : list (string * string) -> res DescrDC;
    (** [SpatialModel(parameters=[], ...)] with the attributes as keywords *)
    SpatialModel_new : list (string * string) -> res DescrDC;
    (** [Parameter(...)] with the attributes as keywords *)
    Parameter_new : list (string * string) -> res ParameterDC;
    (** [sourceDescrDC.parameters.append(paramDC)] *)
    parameters_append : DescrDC -> ParameterDC -> res DescrDC;
    (** [sourceDC.spectrum = sourceDescrDC] *)
    set_spectrum : SourceDC -> DescrDC -> res SourceDC;
    (** [sourceDC.spatialModel = sourceDescrDC] *)
    set_spatialModel : SourceDC -> DescrDC -> res SourceDC;
    (** [sourceConfig.sources.append(sourceDC)] *)
    sources_append : LibraryDC -> SourceDC -> res LibraryDC;
    (** the truth value of a [SourceLibrary] *)
    library_truth : LibraryDC -> bool;
    (** the catalog, as the other methods read it *)
    library_state : LibraryDC -> State;
    (** [str(sourceDescr.tag)], in a module that binds the name
        [sourceDescr] *)
    sourceDescr_tag : res string }.

Module Loader.

(** What the loader writes: to the logger, and to the standard output
    with [print]. *)
Inductive output : Type :=
| Log (e : event)
| Stdout (text : string).

(** The part of a path up to its last slash, and the rest. *)
Fixpoint rsplit_sep (p : string) : string * string :=
  match p with
  | EmptyString => (EmptyString, EmptyString)
  | String c p' =>
      if has_char "/" p' then
        let '(head, tail) := rsplit_sep p' in (String c head, tail)
      else if Ascii.eqb c "/" then (String c EmptyString, p')
      else (EmptyString, p)
  end.

Fixpoint all_sep (s : string) : bool :=
  match s with
  | EmptyString => true
  | String c s' => Ascii.eqb c "/" && all_sep s'
  end.

(** [s.rstrip("/")] *)
Fixpoint rstrip_sep (s : string) : string :=
  match s with
  | EmptyString => EmptyString
  | String c s' => if all_sep s then EmptyString else String c (rstrip_sep s')
  end.

(** [os.path.split(p)] of [posixpath]: the head loses its trailing
    slashes unless it is made of slashes only. *)
Definition os_path_split (p : string) : string * string :=
  let '(head, tail) := rsplit_sep p in
  (if negb (String.eqb head "") && negb (all_sep head)
   then rstrip_sep head else head,
   tail).

Section Methods.
Context {DC : Dataclasses} {CT : Constructors}.

(** [_fail(msg)].  The text that is printed has one place, taken by
    the path; the second argument of [format] is the name [e], which
    the method binds nowhere, so the [print] is reached only if the
    module binds the name.  [msg] is not used.  Returns what is
    printed and the exception: the method never returns. *)
Definition _fail (self : Instance.Self) (msg : string) : list output * exn :=
  if module_binds "e" then
    ([Stdout ("[SourcesConfig] Parsing _failed: "
                ++ match Instance.xmlFilePath self with
                   | Some p => p
                   | None => "None"
                   end)],
     SystemExit 1)
  else ([], NameError "e").

(** A call of [f] with the items of [attrib] as keywords and the
    keyword [name] besides: a keyword given twice is a [TypeError] of
    the call. *)
Definition call_with {A} (name : string)
  (f : list (string * string) -> res A) (attrib : list (string * string))
  : res A :=
  if Xml.has_key name attrib then Err TypeError else f attrib.

(** The loop of [_checkAndAddParameters] *)
Fixpoint parameters_loop (self : Instance.Self) (sourceDescrDC : DescrDC)
  (parameters : list Xml.Element) : list output * res DescrDC :=
  match parameters with
  | [] => ([], Ok sourceDescrDC)
  | parameter :: rest =>
      if negb (String.eqb (Xml.tag parameter) "parameter") then
        let '(out, e) :=
          _fail self ("Tag <parameter> expected, "
                        ++ Xml.tag parameter ++ " found.") in
        (out, Err e)
      else
        match Parameter_new (Xml.attrib parameter) with
        | Err e => ([], Err e)
        | Ok paramDC =>
            match parameters_append sourceDescrDC paramDC with
            | Err e => ([], Err e)
            | Ok sourceDescrDC => parameters_loop self sourceDescrDC rest
            end
        end
  end.

Definition _checkAndAddParameters (self : Instance.Self)
  (sourceDescrDC : DescrDC) (sourceDescription : Xml.Element)
  : list output * res DescrDC :=
  parameters_loop self sourceDescrDC (Xml.children sourceDescription).

(** The inner loop of [_parseSourceXml], over the children of a
    [source] element.  The message for a wrong tag names
    [sourceDescr], which the method binds nowhere. *)
Fixpoint descriptions_loop (self : Instance.Self) (sourceDC : SourceDC)
  (descriptions : list Xml.Element) : list output * res SourceDC :=
  match descriptions with
  | [] => ([], Ok sourceDC)
  | sourceDescription :: rest =>
      if negb (SourcesLibrary.str_in (Xml.tag sourceDescription)
                 ["spectrum"; "spatialModel"]) then
        if module_binds "sourceDescr" then
          match sourceDescr_tag with
          | Err e => ([], Err e)
          | Ok t =>
              let '(out, e) :=
                _fail self ("Tag <spectrum> or <spatialModel> expected, "
                              ++ t ++ " found.") in
              (out, Err e)
          end
        else ([], Err (NameError "sourceDescr"))
      else
        let is_spectrum := String.eqb (Xml.tag sourceDescription) "spectrum" in
        match call_with "parameters"
                (if is_spectrum then Spectrum_new else SpatialModel_new)
                (Xml.attrib sourceDescription) with
        | Err e => ([], Err e)
        | Ok sourceDescrDC =>
            let '(out, r) :=
              _checkAndAddParameters self sourceDescrDC sourceDescription in
            match r with
            | Err e => (out, Err e)
            | Ok sourceDescrDC =>
                match (if is_spectrum then set_spectrum sourceDC sourceDescrDC
                       else set_spatialModel sourceDC sourceDescrDC) with
                | Err e => (out, Err e)
                | Ok sourceDC =>
                    let '(out', r') := descriptions_loop self sourceDC rest in
                    ((out ++ out')%list, r')
                end
            end
        end
  end.

(** The outer loop of [_parseSourceXml], over the children of the
    root. *)
Fixpoint sources_loop (self : Instance.Self) (sourceConfig : LibraryDC)
  (elements : list Xml.Element) : list output * res LibraryDC :=
  match elements with
  | [] => ([], Ok sourceConfig)
  | source :: rest =>
      if negb (String.eqb (Xml.tag source) "source") then
        let '(out, e) :=
          _fail self ("Tag <source> expected, "
                        ++ Xml.tag source ++ " found.") in
        (out, Err e)
      else
        match Source_new (Xml.attrib source) with
        | Err e => ([], Err e)
        | Ok sourceDC =>
            let '(out, r) :=
              descriptions_loop self sourceDC (Xml.children source) in
            match r with
            | Err e => (out, Err e)
            | Ok sourceDC =>
                match sources_append sourceConfig sourceDC with
                | Err e => (out, Err e)
                | Ok sourceConfig =>
                    let '(out', r') := sources_loop self sourceConfig rest in
                    ((out ++ out')%list, r')
                end
            end
        end
  end.

(** [_parseSourceXml(xmlFilePath)], on the root that [ET.parse] returns
    for the file *)
Definition _parseSourceXml (self : Instance.Self) (xmlFilePath : string)
  (xmlRoot : Xml.Element) : list output * res LibraryDC :=
  let info := Log (Info "Parsing %s ..." [xmlFilePath]) in
  match call_with "sources" SourceLibrary_new (Xml.attrib xmlRoot) with
  | Err e => ([info], Err e)
  | Ok sourceConfig =>
      let '(out, r) :=
        sources_loop self sourceConfig (Xml.children xmlRoot) in
      (info :: out, r)
  end.

(** [loadSourceLibraryXML(xmlFilePath)]: what is written, the result,
    and [self] afterwards.  The two paths are set before the file is
    parsed. *)
Definition loadSourceLibraryXML (self : Instance.Self) (xmlFilePath : string)
  (xmlRoot : Xml.Element) : list output * res bool * Instance.Self :=
  let self :=
    {| Instance.xmlFilePath := Some xmlFilePath;
       Instance.xmlFilePathPrefix := Some (fst (os_path_split xmlFilePath));
       Instance.sourcesLibrary := Instance.sourcesLibrary self |} in
  let '(out, r) := _parseSourceXml self xmlFilePath xmlRoot in
  match r with
  | Err e => (out, Err e, self)
  | Ok sourcesLibrary =>
      let self :=
        {| Instance.xmlFilePath := Instance.xmlFilePath self;
           Instance.xmlFilePathPrefix := Instance.xmlFilePathPrefix self;
           Instance.sourcesLibrary :=
             Some (library_state sourcesLibrary) |} in
      if negb (library_truth sourcesLibrary) then
        ((out ++ [Log (Warning "Errors during %s parsing" [xmlFilePath])])%list,
         Ok false, self)
      else (out, Ok true, self)
  end.

End Methods.
End Loader.

(** ** Sample constructors and a sample document *)

Module SampleXml.

Definition get (key : string) (d : list (string * string)) : string :=
  match find (fun kv => String.eqb (fst kv) key) d with
  | Some kv => snd kv
  | None => ""
  end.

(** A description under construction: its attributes and its
    parameters so far. *)
Definition descr : Type := list (string * string) * list Par.t.

Definition new_source (d : list (string * string)) : res Source.t :=
  if Xml.has_key "name" d then
    Ok {| Source.name := get "name" d;
          Source.spectrum :=
            {| Spectrum.type := ""; Spectrum.parameters := [] |};
          Source.spatialModel :=
            {| SpatialModel.type := ""; SpatialModel.location_limit := "";
               SpatialModel.free := PyStr ""; SpatialModel.parameters := [] |};
          Source.multi := None |}
  else Err TypeError.

Definition new_parameter (d : list (string * string)) : res Par.t :=
  if Xml.has_key "name" d then
    Ok (Sample.par (get "name" d) (get "value" d) (get "min" d) (get "max" d)
          (PyStr (get "free" d)))
  else Err TypeError.

Definition with_spectrum (s : Source.t) (d : descr) : Source.t :=
  {| Source.name := Source.name s;
     Source.spectrum :=
       {| Spectrum.type := get "type" (fst d);
          Spectrum.parameters := snd d |};
     Source.spatialModel := Source.spatialModel s;
     Source.multi := Source.multi s |}.

Definition with_spatialModel (s : Source.t) (d : descr) : Source.t :=
  {| Source.name := Source.name s;
     Source.spectrum := Source.spectrum s;
     Source.spatialModel :=
       {| SpatialModel.type := get "type" (fst d);
          SpatialModel.location_limit := get "location_limit" (fst d);
          SpatialModel.free := PyStr (get "free" (fst d));
          SpatialModel.parameters := snd d |};
     Source.multi := Source.multi s |}.

(** The sources are numbered from 1, in the order of the document. *)
Definition state_of (l : list Source.t) : State :=
  {| objs := list_to_map (zip (seq 1 (List.length l)) l);
     fits := ∅;
     sources := seq 1 (List.length l) |}.

Definition constructors : Constructors :=
  {| LibraryDC := list Source.t;
     SourceDC := Source.t;
     DescrDC := descr;
     ParameterDC := Par.t;
     SourceLibrary_new _ := Ok [];
     Source_new := new_source;
     Spectrum_new d := Ok (d, []);
     SpatialModel_new d := Ok (d, []);
     Parameter_new := new_parameter;
     parameters_append d p := Ok (fst d, (snd d ++ [p])%list);
     set_spectrum s d := Ok (with_spectrum s d);
     set_spatialModel s d := Ok (with_spatialModel s d);
     sources_append l s := Ok (l ++ [s])%list;
     library_truth _ := true;
     library_state := state_of;
     sourceDescr_tag := Err AttributeError |}.

Definition parameter (n v lo hi free : string) : Xml.Element :=
  Xml.Elem "parameter"
    [("name", n); ("value", v); ("min", lo); ("max", hi); ("free", free)] [].

(** The source Vela as an element. *)
Definition vela : Xml.Element :=
  Xml.Elem "source" [("name", "Vela")]
    [ Xml.Elem "spectrum" [("type", "PowerLaw")]
        [parameter "Flux" "969e-08" "0" "1e-4" "1";
         parameter "Index" "1.71" "0.5" "5" "1"];
      Xml.Elem "spatialModel"
        [("type", "PointSource"); ("location_limit", "0"); ("free", "1")]
        [parameter "GLON" "263" "-1" "-1" "0";
         parameter "GLAT" "-2" "-1" "-1" "0"] ].

(** A document with one source. *)
Definition document : Xml.Element :=
  Xml.Elem "source_library" [("title", "source library")] [vela].

(** A document in which a comment of the author has become an
    element. *)
Definition document_note : Xml.Element :=
  Xml.Elem "source_library" [("title", "source library")]
    [vela; Xml.Elem "note" [] []].

(** A document in which a source has a child that is no description. *)
Definition document_flux : Xml.Element :=
  Xml.Elem "source_library" [("title", "source library")]
    [Xml.Elem "source" [("name", "Vela")]
       [parameter "Flux" "969e-08" "0" "1e-4" "1"]].

End SampleXml.

(* ================================================================== *)
(** * Part II: theorems                                                *)
(* ================================================================== *)

Import SourcesLibrary Spec.

(** ** The energy bins *)

Lemma py_in_table_In (x : list Z) (t : list (list Z)) :
  Parameters.py_in_table x t = true <-> In x t.
Proof.
  unfold Parameters.py_in_table, Parameters.list_Z_eqb.
  rewrite existsb_exists. split.
  - intros [y [Hy Heq]]. apply bool_decide_eq_true in Heq. now subst.
  - intros Hin. exists x. split; [assumption | now apply bool_decide_eq_true].
Qed.

(** C10.  For a bin of two elements that [int] converts to [x] and [y],
    [checkEnergyBin] returns [True] exactly when [[x, y]] is an entry of
    the table [Parameters.energybins] and [False] exactly when it is
    not; the table has 28 entries and is the same after the call. *)
Theorem checkEnergyBin_member (a b : pyval) (x y : Z) :
  py_int a = Ok x ->
  py_int b = Ok y ->
  let '(r, P') := Parameters.checkEnergyBin Parameters.Parameters [a; b] in
  (r = Ok true <-> In [x; y] (Parameters.energybins Parameters.Parameters))
  /\ (r = Ok false
      <-> ~ In [x; y] (Parameters.energybins Parameters.Parameters))
  /\ P' = Parameters.Parameters
  /\ List.length (Parameters.energybins Parameters.Parameters) = 28%nat.
Proof.
  intros Ha Hb. unfold Parameters.checkEnergyBin.
  cbn [mapM]. rewrite Ha, Hb. cbn [bind].
  destruct (Parameters.py_in_table [x; y] _) eqn:E.
  - apply py_in_table_In in E.
    split; [tauto |]. split; [| split; reflexivity].
    split; [discriminate | intros H; now destruct H].
  - assert (~ In [x; y] (Parameters.energybins Parameters.Parameters)) as N.
    { intros H. apply py_in_table_In in H. congruence. }
    split; [| split; [tauto | split; reflexivity]].
    split; [discriminate | intros H; now destruct N].
Qed.

Lemma checkEnergyBin_member_witness :
  py_int (PyStr " 100") = Ok 100%Z
  /\ py_int (PyInt 300) = Ok 300%Z
  /\ fst (Parameters.checkEnergyBin Parameters.Parameters
            [PyStr " 100"; PyInt 300]) = Ok true.
Proof.
  split; [reflexivity | split; [reflexivity |]].
  pose proof (checkEnergyBin_member (PyStr " 100") (PyInt 300) 100 300
                eq_refl eq_refl) as H.
  destruct (Parameters.checkEnergyBin _ _) as [r P'].
  destruct H as [H _]. apply H. cbn. tauto.
Defined.

(** ** The packed flags *)

Section FixFlag.
Context {DC : Dataclasses}.

(** When the flag of Flux compares equal to the integer 0,
    [_computeFixFlag] returns 0 at once: no other flag is read, whatever
    the other flags and the [free] field of the spatial model are. *)
Lemma computeFixFlag_flux_fixed (source : Source.t) (flux : pyval) :
  getFreeAttributeValueOf (Source.spectrum source) "name" "Flux" = Ok flux ->
  py_eq flux (PyInt 0) = true ->
  _computeFixFlag source = Ok "0".
Proof.
  intros Hflux Hzero. unfold _computeFixFlag.
  rewrite Hflux. cbn [bind]. now rewrite Hzero.
Qed.

Lemma py_sum_not_str (operands : list (res pyval)) (first : res pyval) :
  not_str first -> not_str (py_sum first operands).
Proof.
  unfold py_sum. revert first.
  induction operands as [| o rest IH]; intros first Hfirst; [exact Hfirst |].
  cbn [fold_left]. apply IH.
  destruct first as [[x | s] | e]; cbn in *; try tauto.
  destruct o as [[y | t] | e]; cbn; tauto.
Qed.

Lemma has_char_app (c : ascii) (a b : string) :
  has_char c (a ++ b) = has_char c a || has_char c b.
Proof.
  induction a as [| x a IH]; [reflexivity |].
  change (String x a ++ b) with (String x (a ++ b)).
  cbn [has_char]. rewrite IH. now rewrite orb_assoc.
Qed.

Lemma isspace_false_has_char (c : ascii) (s : string) :
  isspace c = false -> all_space s = true -> has_char c s = false.
Proof.
  intros Hc. induction s as [| d s IH]; [reflexivity |].
  cbn [all_space has_char]. intros H. apply andb_true_iff in H as [Hd Hs].
  rewrite (IH Hs), orb_false_r.
  destruct (Ascii.eqb_spec d c) as [-> | _]; [congruence | reflexivity].
Qed.

Lemma lstrip_has_char (c : ascii) (s : string) :
  isspace c = false -> has_char c s = true -> has_char c (lstrip s) = true.
Proof.
  intros Hc. induction s as [| d s IH]; [discriminate |].
  cbn [lstrip]. destruct (isspace d) eqn:Hd; [| trivial].
  cbn [has_char]. destruct (Ascii.eqb_spec d c) as [-> | _]; [congruence |].
  exact IH.
Qed.

Lemma isspace_int_false_has_char (c : ascii) (s : string) :
  isspace_int c = false -> all_space_int s = true -> has_char c s = false.
Proof.
  intros Hc. induction s as [| d s IH]; [reflexivity |].
  cbn [all_space_int has_char]. intros H.
  apply andb_true_iff in H as [Hd Hs].
  rewrite (IH Hs), orb_false_r.
  destruct (Ascii.eqb_spec d c) as [-> | _]; [congruence | reflexivity].
Qed.

Lemma lstrip_int_has_char (c : ascii) (s : string) :
  isspace_int c = false -> has_char c s = true ->
  has_char c (lstrip_int s) = true.
Proof.
  intros Hc. induction s as [| d s IH]; [discriminate |].
  cbn [lstrip_int]. destruct (isspace_int d) eqn:Hd; [| trivial].
  cbn [has_char]. destruct (Ascii.eqb_spec d c) as [-> | _]; [congruence |].
  exact IH.
Qed.

(** The scanner of the digits of base 2 stops before a digit 2. *)
Lemma scan_digits_keeps_two (s : string) (acc : Z) (prev_us seen : bool)
  (v : Z) (rest : string) :
  scan_digits 2 acc prev_us seen s = Some (v, rest) ->
  has_char "2" s = true ->
  has_char "2" rest = true.
Proof.
  revert acc prev_us seen.
  induction s as [| c s IH]; intros acc prev_us seen Hscan Htwo;
    [discriminate |].
  cbn [scan_digits] in Hscan.
  assert (forall (o : option (Z * string)),
             o = (if prev_us then None
                  else if seen then Some (acc, String c s) else None) ->
             o = Some (v, rest) -> has_char "2" rest = true) as Hfinish.
  { intros o -> H. destruct prev_us; [discriminate |].
    destruct seen; [| discriminate]. now injection H as <- <-. }
  destruct (Ascii.eqb_spec c "2") as [-> | Hc].
  - apply (Hfinish _ eq_refl). exact Hscan.
  - cbn [has_char] in Htwo.
    rewrite (proj2 (Ascii.eqb_neq c "2") Hc) in Htwo. cbn [orb] in Htwo.
    destruct (Ascii.eqb c "_").
    + destruct prev_us; [discriminate |]. exact (IH _ _ _ Hscan Htwo).
    + destruct (digit_value c) as [d |];
        [| exact (Hfinish _ eq_refl Hscan)].
      destruct (d <? 2)%Z; [| exact (Hfinish _ eq_refl Hscan)].
      exact (IH _ _ _ Hscan Htwo).
Qed.

Lemma skip_prefix_keeps_two (s : string) :
  has_char "2" s = true -> has_char "2" (skip_prefix 2 s) = true.
Proof.
  intros H2. destruct s as [| c0 [| c1 s']]; [discriminate | |].
  - destruct c0 as [[] [] [] [] [] [] [] []]; exact H2.
  - destruct (Ascii.eqb_spec c0 "0") as [-> | Hc0].
    + cbn [skip_prefix Z.eqb Pos.eqb andb].
      cbn [has_char Ascii.eqb Bool.eqb orb] in H2.
      destruct (Ascii.eqb_spec c1 "b") as [-> | Hb];
        [| destruct (Ascii.eqb_spec c1 "B") as [-> | HB]]; cbn [orb].
      3: { cbn [has_char Ascii.eqb Bool.eqb orb]. exact H2. }
      all: cbn [has_char Ascii.eqb Bool.eqb orb] in H2.
      all: destruct s' as [| c2 s'']; [discriminate |].
      all: destruct (Ascii.eqb_spec c2 "_") as [-> | Hu]; [exact H2 |].
      all: destruct c2 as [[] [] [] [] [] [] [] []];
        first [exact H2 | now destruct Hu].
    + destruct c0 as [[] [] [] [] [] [] [] []];
        first [exact H2 | now destruct Hc0].
Qed.

(** A string in which the digit 2 occurs is not a numeral in base 2. *)
Lemma int_of_string_two (s : string) :
  has_char "2" s = true -> int_of_string 2 s = Err ValueError.
Proof.
  intros Htwo. apply (lstrip_int_has_char "2" s eq_refl) in Htwo.
  unfold int_of_string.
  assert (forall (neg : bool) (s2 : string),
             has_char "2" s2 = true ->
             match long_from_string_base 2 (skip_prefix 2 s2) with
             | Some (v, rest) =>
                 if all_space_int rest then Ok (if neg then (- v)%Z else v)
                 else Err ValueError
             | None => Err ValueError
             end = Err ValueError) as Hbody.
  { intros neg s2 H2.
    pose proof (skip_prefix_keeps_two s2 H2) as Hp.
    unfold long_from_string_base.
    assert (match scan_digits 2 0 false false (skip_prefix 2 s2) with
            | Some (v, rest) =>
                if all_space_int rest then Ok (if neg then (- v)%Z else v)
                else Err ValueError
            | None => Err ValueError
            end = Err ValueError) as Hscan.
    { destruct (scan_digits 2 0 false false (skip_prefix 2 s2))
        as [[v rest] |] eqn:E; [| reflexivity].
      pose proof (scan_digits_keeps_two _ _ _ _ _ _ E Hp) as Hrest.
      destruct (all_space_int rest) eqn:Hsp; [| reflexivity].
      rewrite (isspace_int_false_has_char "2" rest eq_refl Hsp) in Hrest.
      discriminate. }
    destruct (skip_prefix 2 s2) as [| c s']; [exact Hscan |].
    destruct (Ascii.eqb_spec c "_") as [-> | Hu]; [reflexivity |].
    destruct c as [[] [] [] [] [] [] [] []];
      first [exact Hscan | now destruct Hu]. }
  destruct (lstrip_int s) as [| c s1] eqn:Hs; [discriminate |].
  destruct (Ascii.eqb_spec c "+") as [-> | Hplus];
    [exact (Hbody false s1 Htwo) |].
  destruct (Ascii.eqb_spec c "-") as [-> | Hminus];
    [exact (Hbody true s1 Htwo) |].
  assert ((let '(neg, s2) :=
             match String c s1 with
             | String "+" r => (false, r)
             | String "-" r => (true, r)
             | _ => (false, String c s1)
             end in
           match long_from_string_base 2 (skip_prefix 2 s2) with
           | Some (v, rest) =>
               if all_space_int rest then Ok (if neg then (- v)%Z else v)
               else Err ValueError
           | None => Err ValueError
           end)
          = match long_from_string_base 2 (skip_prefix 2 (String c s1)) with
            | Some (v, rest) =>
                if all_space_int rest then Ok v else Err ValueError
            | None => Err ValueError
            end) as ->.
  { destruct c as [[] [] [] [] [] [] [] []];
      first [reflexivity | now destruct Hplus | now destruct Hminus]. }
  exact (Hbody false _ Htwo).
Qed.

Lemma py_sum_step_not_binary (acc operand : res pyval) :
  not_binary acc ->
  not_binary (let* a := acc in let* b := operand in py_add a b).
Proof.
  destruct acc as [[x | s] | e]; cbn; try tauto;
    destruct operand as [[y | t] | e]; cbn; try tauto.
  intros H. now rewrite has_char_app, H.
Qed.

Lemma py_sum_step_two (acc : res pyval) :
  not_binary (let* a := acc in let* b := Ok (PyStr "2") in py_add a b).
Proof.
  destruct acc as [[x | s] | e]; cbn; try tauto.
  rewrite has_char_app. cbn. now rewrite orb_true_r.
Qed.

(** C1, where the code departs from it.  When the flag of Flux is not 0
    and the [free] field of the spatial model is 2, [_computeFixFlag]
    raises and no bitmask is emitted.  With the integer 2 the branch
    of the nine digits is taken and its sum starts from an integer, so
    it is never a string; with the string 2 the test against 2 fails,
    the branch of the eight digits is taken, and its digits are not a
    numeral in base 2. *)
Theorem computeFixFlag_spatial_free_2_raises (source : Source.t)
  (flux : pyval) :
  getFreeAttributeValueOf (Source.spectrum source) "name" "Flux" = Ok flux ->
  py_eq flux (PyInt 0) = false ->
  SpatialModel.free (Source.spatialModel source) = PyInt 2
  \/ SpatialModel.free (Source.spatialModel source) = PyStr "2" ->
  exists e, _computeFixFlag source = Err e.
Proof.
  intros Hflux Hfree [Htwo | Htwo]; unfold _computeFixFlag;
    rewrite Hflux; cbn [bind]; rewrite Hfree, Htwo; cbn [py_eq Z.eqb Pos.eqb].
  - match goal with
    | |- context [py_sum ?f ?ops] =>
        pose proof (py_sum_not_str ops f I) as Hsum;
        destruct (py_sum f ops) as [[z | s] | e]
    end.
    + cbn. now exists TypeError.
    + destruct Hsum.
    + cbn. now exists e.
  - unfold py_sum. cbn [fold_left].
    match goal with
    | |- context [bind (bind (bind ?acc ?k2) ?kf) ?ki] =>
        pose proof (py_sum_step_not_binary _
                      (getFreeAttributeValueOf (Source.spectrum source)
                         "name" "Flux")
                      (py_sum_step_two acc)) as Hsum;
        cbv zeta in Hsum; rewrite Hflux in Hsum;
        destruct (bind (bind acc k2) kf) as [[z | s] | e]
    end.
    + cbn. now exists TypeError.
    + cbn [bind py_int_base2]. rewrite (int_of_string_two s Hsum).
      now exists ValueError.
    + cbn. now exists e.
Qed.

(** When [_computeFixFlag] returns: either the flag of Flux is 0 and
    the result is 0, or the flag of Flux is a string and the [free]
    field of the spatial model is not the integer 2. *)
Lemma computeFixFlag_returns (source : Source.t) (r : string) :
  _computeFixFlag source = Ok r ->
  exists flux,
    getFreeAttributeValueOf (Source.spectrum source) "name" "Flux" = Ok flux
    /\ ((py_eq flux (PyInt 0) = true /\ r = "0")
        \/ ((exists s, flux = PyStr s)
            /\ py_eq (SpatialModel.free (Source.spatialModel source))
                     (PyInt 2) = false)).
Proof.
  unfold _computeFixFlag.
  destruct (getFreeAttributeValueOf (Source.spectrum source) "name" "Flux")
    as [flux | e] eqn:Hflux; [| discriminate].
  cbn [bind]. intros H. exists flux. split; [reflexivity |].
  destruct (py_eq flux (PyInt 0)) eqn:Hzero;
    [left; split; [reflexivity | congruence] | right].
  destruct (py_eq (SpatialModel.free (Source.spatialModel source)) (PyInt 2))
    eqn:Htwo.
  - exfalso.
    match type of H with
    | context [py_sum ?f ?ops] =>
        assert (not_str f) as Hf
          by (destruct (SpatialModel.free (Source.spatialModel source));
              [exact I | discriminate]);
        pose proof (py_sum_not_str ops f Hf) as Hsum;
        destruct (py_sum f ops) as [[z | s] | e]
    end; [discriminate | destruct Hsum | discriminate].
  - split; [| reflexivity].
    unfold py_sum in H. cbn [fold_left] in H.
    match type of H with
    | context [bind (bind ?acc ?k) ?kf] =>
        destruct acc as [[x | t] | e]; cbn [bind] in H;
          try discriminate; destruct flux as [z | s]; cbn in H;
          try discriminate
    end.
    now exists s.
Qed.

(** The other branch, on flags that are digits: the bitmask is the
    number that the eight digits denote in base 2. *)
Lemma computeFixFlag_digits (source : Source.t)
  (curvature index2 cutoff pivot index index1 spatial : bool) :
  let free := getFreeAttributeValueOf (Source.spectrum source) "name" in
  free "Flux" = Ok (digit true) ->
  free "Curvature" = Ok (digit curvature) ->
  free "Index2" = Ok (digit index2) ->
  free "CutoffEnergy" = Ok (digit cutoff) ->
  free "PivotEnergy" = Ok (digit pivot) ->
  free "Index" = Ok (digit index) ->
  free "Index1" = Ok (digit index1) ->
  SpatialModel.free (Source.spatialModel source) = digit spatial ->
  _computeFixFlag source
  = Ok (str_of_int
          (bits_value [curvature; index2; cutoff; pivot; index; index1;
                       spatial; true])).
Proof.
  intros free H1 H2 H3 H4 H5 H6 H7 H8. subst free.
  unfold _computeFixFlag.
  rewrite H1, H2, H3, H4, H5, H6, H7, H8.
  destruct curvature, index2, cutoff, pivot, index, index1, spatial;
    reflexivity.
Qed.

(** C2, where the code departs from it.  The flag of Flux is compared
    with the integer 0, and the flags are digits: the digit 0 is not
    equal to the integer, the computation of the bitmask is not skipped,
    and what is emitted is the number that the digits of the other
    flags denote, which is 0 only when every one of them is the
    digit 0. *)
Theorem computeFixFlag_flux_digit_0 (source : Source.t)
  (curvature index2 cutoff pivot index index1 spatial : bool) :
  let free := getFreeAttributeValueOf (Source.spectrum source) "name" in
  free "Flux" = Ok (digit false) ->
  free "Curvature" = Ok (digit curvature) ->
  free "Index2" = Ok (digit index2) ->
  free "CutoffEnergy" = Ok (digit cutoff) ->
  free "PivotEnergy" = Ok (digit pivot) ->
  free "Index" = Ok (digit index) ->
  free "Index1" = Ok (digit index1) ->
  SpatialModel.free (Source.spatialModel source) = digit spatial ->
  _computeFixFlag source
  = Ok (str_of_int
          (bits_value [curvature; index2; cutoff; pivot; index; index1;
                       spatial; false]))
  /\ (_computeFixFlag source = Ok "0"
      <-> curvature = false /\ index2 = false /\ cutoff = false
          /\ pivot = false /\ index = false /\ index1 = false
          /\ spatial = false).
Proof.
  intros free H1 H2 H3 H4 H5 H6 H7 H8. subst free.
  unfold _computeFixFlag.
  rewrite H1, H2, H3, H4, H5, H6, H7, H8.
  destruct curvature, index2, cutoff, pivot, index, index1, spatial;
    (split; [reflexivity |]);
    (split; [intros H; vm_compute in H; try discriminate H; repeat split
            | intros (? & ? & ? & ? & ? & ? & ?); try discriminate;
              reflexivity]).
Qed.

End FixFlag.

Lemma computeFixFlag_flux_fixed_witness :
  @_computeFixFlag Sample.dataclasses (Sample.crab (PyInt 0)) = Ok "0".
Proof.
  apply (@computeFixFlag_flux_fixed Sample.dataclasses
           (Sample.crab (PyInt 0)) (PyInt 0)); reflexivity.
Defined.

Lemma computeFixFlag_flux_digit_0_witness :
  @_computeFixFlag Sample.dataclasses (Sample.crab (PyStr "0")) = Ok "8"
  /\ @_computeFixFlag Sample.dataclasses (Sample.crab (PyStr "0")) <> Ok "0".
Proof.
  destruct (@computeFixFlag_flux_digit_0 Sample.dataclasses
              (Sample.crab (PyStr "0")) false false false false true false
              false eq_refl eq_refl eq_refl eq_refl eq_refl eq_refl eq_refl
              eq_refl) as [Hmask Hzero].
  split; [exact Hmask |].
  intros H. apply Hzero in H. destruct H as (_ & _ & _ & _ & H & _).
  discriminate H.
Defined.

Lemma computeFixFlag_spatial_free_2_raises_witness :
  exists e,
    @_computeFixFlag Sample.dataclasses (Sample.vela (PyInt 2) None) = Err e.
Proof.
  apply (@computeFixFlag_spatial_free_2_raises Sample.dataclasses
           (Sample.vela (PyInt 2) None) (PyStr "1"));
    [reflexivity | reflexivity | left; reflexivity].
Defined.

(** The two ways of writing 2 in the [free] field of the spatial model:
    with the integer the sum is a [TypeError], with the string the
    eight digits are not a numeral in base 2. *)
Example computeFixFlag_vela_2 :
  @_computeFixFlag Sample.dataclasses (Sample.vela (PyInt 2) None)
  = Err TypeError
  /\ @_computeFixFlag Sample.dataclasses (Sample.vela (PyStr "2") None)
     = Err ValueError.
Proof. split; reflexivity. Qed.

(** A flag of Flux that is the digit 0 is not the integer 0: the
    bitmask is computed. *)
Example computeFixFlag_crab_digit_0 :
  @_computeFixFlag Sample.dataclasses (Sample.crab (PyStr "0")) = Ok "8".
Proof. reflexivity. Qed.

(** ** The text format *)

Lemma str_app_nil_l (t : string) : "" ++ t = t.
Proof. reflexivity. Qed.

Lemma str_app_cons (c : ascii) (s t : string) :
  String c s ++ t = String c (s ++ t).
Proof. reflexivity. Qed.

Lemma str_app_nil_r (s : string) : s ++ "" = s.
Proof.
  induction s as [| c s IH]; [reflexivity |].
  rewrite str_app_cons. now rewrite IH.
Qed.

Lemma str_app_assoc (a b c : string) : (a ++ b) ++ c = a ++ (b ++ c).
Proof.
  induction a as [| x a IH]; [reflexivity |].
  rewrite !str_app_cons. now rewrite IH.
Qed.

Ltac strnorm :=
  repeat (progress rewrite ?str_app_assoc, ?str_app_cons, ?str_app_nil_l).

Section Encoder.
Context {DC : Dataclasses}.













End Encoder.



(** ** The selection engine *)

Section Select.
Context {DC : Dataclasses}.

Lemma calls_app (l1 l2 : list event) :
  calls (l1 ++ l2) = (calls l1 ++ calls l2)%list.
Proof. unfold calls. apply omap_app. Qed.

Lemma validate_snd (st : State) (lam : Lambda) :
  snd (_validateSelectionParams st (lam_params lam)) = validated_params st lam.
Proof. reflexivity. Qed.

Lemma validate_no_calls (st : State) (ups : list string) :
  calls (fst (_validateSelectionParams st ups)) = [].
Proof.
  unfold _validateSelectionParams. cbn [fst].
  induction (filter _ ups) as [| up l IH]; [reflexivity | exact IH].
Qed.

(** What the loop does: it calls the lambda on the eligible sources, in
    the order of the catalog, once each, until an exception; the trace
    holds nothing else; when it returns, it returns the sources that
    the lambda selects, in the order of the catalog. *)
Lemma select_loop_spec (st : State) (validated : list string)
  (lam : Lambda) (l : list ref) :
  let '(log, res) := select_loop st validated lam l in
  (exists called,
      called `prefix_of` filter (fun r => eligible st validated r = true) l
      /\ Forall2 (call_args st validated) called (calls log))
  /\ Forall (fun e => exists args, e = Call args) log
  /\ (forall found, res = Ok found ->
        found = filter (fun r => selects st validated lam r = true) l).
Proof.
  induction l as [| r l IH]; cbn [select_loop].
  - split; [exists []; split; [apply prefix_nil | constructor] |].
    split; [constructor |]. now intros found [= <-].
  - unfold deref, selects, eligible in *.
    rewrite !filter_cons.
    destruct (objs st !! r) as [source |] eqn:Hr; cbn zeta.
    2: { cbn. split; [exists []; split; [apply prefix_nil | constructor] |].
         split; [constructor | discriminate]. }
    destruct (_needMultiParams st validated) eqn:Hneed; cbn [negb andb orb].
    + destruct (bool_decide (is_Some (Source.multi source))) eqn:Hm;
        cbn [negb].
      2: { destruct (select_loop st validated lam l) as [log res].
           rewrite !decide_False by (cbn; congruence). exact IH. }
      rewrite decide_True by reflexivity.
      destruct (selectionParamsValues st source validated) as [args | e]
        eqn:Hargs.
      2: { split; [exists []; split; [apply prefix_nil | constructor] |].
           split; [constructor | discriminate]. }
      destruct (lam_call lam args) as [b | e] eqn:Hcall.
      2: { split; [| split; [repeat constructor; eauto | discriminate]].
           exists [r]. split; [apply prefix_cons, prefix_nil |].
           repeat constructor. exists source. split; assumption. }
      destruct (select_loop st validated lam l) as [log res].
      destruct IH as ((called & Hpre & Hcalled) & Hlog & Hres).
      split; [| split].
      * exists (r :: called). split; [now apply prefix_cons |].
        constructor; [exists source; split; assumption | exact Hcalled].
      * constructor; [eauto | exact Hlog].
      * intros found Hfound. destruct res as [sel | e]; [| discriminate].
        cbn [bind] in Hfound. injection Hfound as <-.
        rewrite (Hres sel eq_refl). cbn [andb].
        destruct b; [now rewrite decide_True | now rewrite decide_False].
    + rewrite decide_True by reflexivity.
      destruct (selectionParamsValues st source validated) as [args | e]
        eqn:Hargs.
      2: { split; [exists []; split; [apply prefix_nil | constructor] |].
           split; [constructor | discriminate]. }
      destruct (lam_call lam args) as [b | e] eqn:Hcall.
      2: { split; [| split; [repeat constructor; eauto | discriminate]].
           exists [r]. split; [apply prefix_cons, prefix_nil |].
           repeat constructor. exists source. split; assumption. }
      destruct (select_loop st validated lam l) as [log res].
      destruct IH as ((called & Hpre & Hcalled) & Hlog & Hres).
      split; [| split].
      * exists (r :: called). split; [now apply prefix_cons |].
        constructor; [exists source; split; assumption | exact Hcalled].
      * constructor; [eauto | exact Hlog].
      * intros found Hfound. destruct res as [sel | e]; [| discriminate].
        cbn [bind] in Hfound. injection Hfound as <-.
        rewrite (Hres sel eq_refl). cbn [andb].
        destruct b; [now rewrite decide_True | now rewrite decide_False].
Qed.

Lemma select_loop_eligible (st : State) (validated : list string)
  (lam : Lambda) (l : list ref) :
  select_loop st validated lam l
  = select_loop st validated lam
      (filter (fun r => eligible st validated r = true) l).
Proof.
  induction l as [| r l IH]; [reflexivity |].
  rewrite filter_cons.
  destruct (decide (eligible st validated r = true)) as [He | He];
    unfold eligible in He; cbn [select_loop]; unfold deref;
    destruct (objs st !! r) as [source |]; try reflexivity; try congruence;
    destruct (_needMultiParams st validated);
    destruct (bool_decide (is_Some (Source.multi source)));
    cbn [negb andb orb] in He |- *;
    try congruence; try (now rewrite IH).
Qed.

Lemma Forall2_In_r {A B} (P : A -> B -> Prop) (l : list A) (k : list B) :
  Forall2 P l k -> forall y, In y k -> exists x, In x l /\ P x y.
Proof.
  induction 1 as [| x y l k Hxy _ IH]; intros z Hz; [destruct Hz |].
  destruct Hz as [<- | Hz]; [exists x; split; [now left | exact Hxy] |].
  destruct (IH z Hz) as (x' & Hx' & HP). exists x'. split; [now right | exact HP].
Qed.

(** [in] on a list of strings is membership. *)
Lemma str_in_elem_of (p : string) (l : list string) :
  str_in p l = bool_decide (p ∈ l).
Proof.
  apply eq_true_iff_eq. rewrite bool_decide_eq_true.
  unfold str_in. rewrite existsb_exists. split.
  - intros (x & Hx & Heq). apply String.eqb_eq in Heq. subst x.
    now apply list_elem_of_In.
  - intros Hp. exists p. split; [now apply list_elem_of_In | apply String.eqb_refl].
Qed.

(** The test of the loop is the one of the specification. *)
Lemma needMultiParams_requires_fit (st : State) (validated : list string) :
  _needMultiParams st validated = SelectionSpec.requires_fit st validated.
Proof.
  unfold _needMultiParams, SelectionSpec.requires_fit.
  induction validated as [| p ps IH]; [reflexivity |].
  cbn [existsb]. now rewrite IH, str_in_elem_of.
Qed.

Lemma eligible_passed_over (st : State) (validated : list string) (r : ref) :
  eligible st validated r = negb (SelectionSpec.passed_over st validated r).
Proof.
  unfold eligible, SelectionSpec.passed_over.
  destruct (objs st !! r) as [source |]; [| reflexivity].
  rewrite needMultiParams_requires_fit.
  destruct (SelectionSpec.requires_fit st validated);
    destruct (bool_decide (is_Some (Source.multi source))); reflexivity.
Qed.

Lemma filter_eligible_passed_over (st : State) (validated : list string)
  (l : list ref) :
  filter (fun r => eligible st validated r = true) l
  = filter (fun r => SelectionSpec.passed_over st validated r = false) l.
Proof.
  apply list_filter_iff. intros r. rewrite eligible_passed_over.
  destruct (SelectionSpec.passed_over st validated r); cbn; split; congruence.
Qed.

Lemma mapM_Forall2 {A B} (f : A -> res B) (l : list A) (ys : list B) :
  mapM f l = Ok ys <-> Forall2 (fun x y => f x = Ok y) l ys.
Proof.
  revert ys. induction l as [| x l IH]; intros ys; cbn [mapM].
  - split; [intros [= <-]; constructor | intros H; inversion H; reflexivity].
  - split.
    + intros H. destruct (f x) as [y |] eqn:Hy; [| discriminate].
      cbn [bind] in H.
      destruct (mapM f l) as [zs |]; [| discriminate].
      cbn [bind] in H. injection H as <-.
      constructor; [exact Hy | now apply IH].
    + intros H. inversion H as [| x' y l' zs Hy Hzs]; subst.
      apply IH in Hzs. now rewrite Hy, Hzs.
Qed.

Lemma Forall2_iff {A B} (P Q : A -> B -> Prop) (l : list A) (k : list B) :
  (forall x y, P x y <-> Q x y) -> Forall2 P l k <-> Forall2 Q l k.
Proof.
  intros HPQ. split; induction 1; constructor; auto; now apply HPQ.
Qed.

(** The inner loop computes the values of the parameters, and nothing
    else does. *)
Lemma selectionParamsValues_values (st : State) (source : Source.t)
  (validated : list string) (args : list (string + float)) :
  selectionParamsValues st source validated = Ok args
  <-> Forall2 (SelectionSpec.param_value st source) validated args.
Proof.
  unfold selectionParamsValues. rewrite mapM_Forall2.
  apply Forall2_iff. intros p v. unfold SelectionSpec.param_value.
  destruct (String.eqb p "Name").
  { split; [now intros [= <-] | now intros ->]. }
  unfold getattr, deref, attr_float. split.
  - intros H.
    destruct (Source.multi source) as [r |]; [| discriminate].
    destruct (fits st !! r) as [o |] eqn:Ho; [| discriminate].
    cbn [bind] in H.
    destruct (o !! p) as [a |] eqn:Ha; [| discriminate].
    cbn [bind] in H.
    destruct (py_float a) as [f |] eqn:Hf; [| discriminate].
    cbn [bind] in H. injection H as <-.
    exists r, o, f. rewrite Ha. repeat split; assumption.
  - intros (r & o & f & -> & Ho & Hf & ->). rewrite Ho. cbn [bind].
    destruct (o !! p) as [a |]; [| discriminate].
    cbn [bind]. now rewrite Hf.
Qed.

Lemma call_args_values (st : State) (validated : list string) (r : ref)
  (args : list (string + float)) :
  call_args st validated r args <-> SelectionSpec.values_of st r validated args.
Proof.
  unfold call_args, SelectionSpec.values_of.
  split; intros (source & Hr & H); exists source; (split; [exact Hr |]);
    now apply selectionParamsValues_values.
Qed.

Lemma Forall2_impl_r {A B} (P Q : A -> B -> Prop) (l : list A) (k : list B) :
  (forall x y, P x y -> Q x y) -> Forall2 P l k -> Forall2 Q l k.
Proof. intros HPQ. induction 1; constructor; auto. Qed.

Lemma selects_chosen (st : State) (validated : list string) (lam : Lambda)
  (r : ref) :
  selects st validated lam r = true <-> SelectionSpec.chosen st validated lam r.
Proof.
  unfold selects, SelectionSpec.chosen. rewrite eligible_passed_over.
  rewrite andb_true_iff, negb_true_iff.
  split; intros [Hp H]; (split; [exact Hp |]).
  - destruct (objs st !! r) as [source |] eqn:Hr; [| discriminate].
    destruct (selectionParamsValues st source validated) as [args |] eqn:Ha;
      [| discriminate].
    destruct (lam_call lam args) as [b |] eqn:Hb; [| discriminate].
    subst b. exists args. split; [| exact Hb].
    apply call_args_values. exists source. split; assumption.
  - destruct H as (args & Hv & Hb).
    apply call_args_values in Hv as (source & Hr & Ha).
    now rewrite Hr, Ha, Hb.
Qed.

(** C7.  The lambda is called only with the values of the validated
    parameters of a source of the catalog, one value for each
    parameter, in their order: the name of the source for [Name], the
    number that [float] makes of the attribute of its fit result for
    another one.  The validated parameters are the declared ones that
    the registry has; a declared parameter that the registry lacks is
    dropped with a warning; when no parameter is validated, the empty
    list is returned and the lambda is not called. *)
Theorem select_validated_only (st : State) (lam : Lambda) :
  let validated := validated_params st lam in
  let '(log, res) := selectSourcesWithLambda st lam in
  Forall (fun p => p ∈ getSelectionParams st false
                   /\ In p (lam_params lam)) validated
  /\ (forall args, In args (calls log) ->
        List.length args = List.length validated
        /\ exists r, In r (sources st)
                     /\ SelectionSpec.values_of st r validated args)
  /\ (forall up, In up (lam_params lam) ->
        up ∉ getSelectionParams st false ->
        In (Warning "The selectionParam %s is not supported and it is not going to be used! Supported params: %s" [up]) log)
  /\ (validated = [] -> res = Ok [] /\ calls log = []).
Proof.
  intros validated. unfold selectSourcesWithLambda.
  pose proof (validate_no_calls st (lam_params lam)) as Hnocall.
  pose proof (validate_snd st lam) as Hsnd. fold validated in Hsnd.
  assert (forall up, In up (lam_params lam) ->
            up ∉ getSelectionParams st false ->
            In (Warning "The selectionParam %s is not supported and it is not going to be used! Supported params: %s" [up])
               (fst (_validateSelectionParams st (lam_params lam)))) as Hwarn.
  { intros up Hup Hreg. unfold _validateSelectionParams. cbn [fst].
    apply in_map_iff. exists up. split; [reflexivity |].
    apply list_elem_of_In, list_elem_of_filter. split.
    - rewrite str_in_elem_of. now rewrite bool_decide_eq_false_2.
    - now apply list_elem_of_In. }
  destruct (_validateSelectionParams st (lam_params lam)) as [warnings v].
  cbn [fst snd] in *. subst v.
  assert (Forall (fun p => p ∈ getSelectionParams st false
                           /\ In p (lam_params lam)) validated) as Hval.
  { apply Forall_forall. intros p Hp.
    unfold validated, validated_params in Hp.
    apply list_elem_of_filter in Hp as [Hreg Hp].
    split; [| now apply list_elem_of_In].
    rewrite str_in_elem_of in Hreg. now apply bool_decide_unpack in Hreg. }
  destruct (List.length validated =? 0)%nat eqn:Hlen.
  - split; [exact Hval |]. rewrite calls_app, Hnocall. cbn.
    split; [intros args [] |]. split; [| now split].
    intros up Hup Hreg. apply in_or_app. left. now apply Hwarn.
  - pose proof (select_loop_spec st validated lam (sources st)) as Hloop.
    destruct (select_loop st validated lam (sources st)) as [log res].
    destruct Hloop as ((called & Hpre & Hcalled) & _ & _).
    split; [exact Hval |]. rewrite calls_app, Hnocall. cbn [app].
    split; [| split].
    + intros args Hargs.
      destruct (Forall2_In_r _ _ _ Hcalled args Hargs) as (r & Hr & Hcall).
      apply call_args_values in Hcall.
      split.
      { destruct Hcall as (source & _ & Hvals).
        symmetry. exact (Forall2_length _ _ _ Hvals). }
      exists r. split; [| exact Hcall].
      destruct Hpre as [rest Hpre].
      assert (In r (filter (fun r => eligible st validated r = true)
                           (sources st))) as Hin.
      { rewrite Hpre. apply in_or_app. now left. }
      apply list_elem_of_In, list_elem_of_filter in Hin as [_ Hin].
      now apply list_elem_of_In.
    + intros up Hup Hreg. apply in_or_app. left. now apply Hwarn.
    + intros Hnil. rewrite Hnil in Hlen. discriminate.
Qed.

Lemma select_loop_name (st : State) (X : string) (l : list ref) :
  str_in "Name" (getSelectionParams st true) = false ->
  Forall (fun r => is_Some (objs st !! r)) l ->
  snd (select_loop st ["Name"] (name_is X) l)
  = Ok (filter (fun r => source_named st X r = true) l).
Proof.
  intros Hmulti. induction 1 as [| r l [source Hr] _ IH]; [reflexivity |].
  cbn [select_loop]. unfold deref, _needMultiParams. rewrite Hr.
  cbn [existsb]. rewrite Hmulti. cbn [orb andb].
  cbn [selectionParamsValues mapM String.eqb Ascii.eqb Bool.eqb bind
       name_is lam_call].
  rewrite filter_cons.
  assert (source_named st X r = String.eqb (Source.name source) X) as Hnamed
    by (unfold source_named; now rewrite Hr).
  destruct (select_loop st ["Name"] (name_is X) l) as [log res].
  cbn [snd] in *. rewrite IH. cbn [bind].
  destruct (String.eqb (Source.name source) X);
    [rewrite decide_True by exact Hnamed
    | rewrite decide_False by (rewrite Hnamed; discriminate)];
    reflexivity.
Qed.

(** The lambda [Name == X] selects the sources named [X]. *)
Lemma select_name_is (st : State) (X : string) :
  str_in "Name" (getSelectionParams st false) = true ->
  str_in "Name" (getSelectionParams st true) = false ->
  Forall (fun r => is_Some (objs st !! r)) (sources st) ->
  snd (selectSourcesWithLambda st (name_is X))
  = Ok (filter (fun r => source_named st X r = true) (sources st)).
Proof.
  intros Hreg Hmulti Hwf. unfold selectSourcesWithLambda.
  unfold _validateSelectionParams. cbn [name_is lam_params].
  rewrite !filter_cons, !filter_nil. rewrite Hreg.
  rewrite decide_True by exact I.
  rewrite decide_False by (cbn; tauto).
  cbn [List.length Nat.eqb map app].
  pose proof (select_loop_name st X (sources st) Hmulti Hwf) as Hloop.
  destruct (select_loop st ["Name"] (name_is X) (sources st)) as [log res].
  exact Hloop.
Qed.

(** The calls and the result of a selection, for every lambda. *)
Lemma select_calls_and_result (st : State) (lam : Lambda) :
  let validated := validated_params st lam in
  let '(log, res) := selectSourcesWithLambda st lam in
  (exists called,
      called `prefix_of`
        filter (fun r => eligible st validated r = true) (sources st)
      /\ Forall2 (call_args st validated) called (calls log))
  /\ (forall found, res = Ok found ->
        found = match validated with
                | [] => []
                | _ => filter (fun r => selects st validated lam r = true)
                              (sources st)
                end
        /\ sublist found (sources st)
        /\ Forall (fun r => eligible st validated r = true) found).
Proof.
  intros validated. unfold selectSourcesWithLambda.
  pose proof (validate_no_calls st (lam_params lam)) as Hnocall.
  pose proof (validate_snd st lam) as Hsnd. fold validated in Hsnd.
  destruct (_validateSelectionParams st (lam_params lam)) as [warnings v].
  cbn [fst snd] in *. subst v. clearbody validated.
  pose proof (select_loop_spec st validated lam (sources st)) as Hloop.
  destruct validated as [| p ps]; cbn [List.length Nat.eqb].
  - split.
    + exists []. split; [apply prefix_nil |].
      rewrite calls_app, Hnocall. constructor.
    + intros found [= <-].
      split; [reflexivity | split; [apply sublist_nil_l | constructor]].
  - destruct (select_loop st (p :: ps) lam (sources st)) as [log res].
    destruct Hloop as (Hcalled & _ & Hres).
    rewrite calls_app, Hnocall. cbn [app].
    split; [exact Hcalled |].
    intros found Hfound. specialize (Hres found Hfound). subst found.
    split; [reflexivity | split; [apply sublist_filter |]].
    apply Forall_forall. intros r Hr.
    apply list_elem_of_filter in Hr as [Hr _].
    unfold selects in Hr. now apply andb_true_iff in Hr as [Hr _].
Qed.

(** C8.  With [Name] in the registry and not among the parameters that
    need a fit result, the lambda [Name == X] selects exactly the
    sources named [X], in the order of the catalog.  For every lambda:
    a source is passed over when one of the validated parameters is
    among those that the registry lists for [multi=True] and the source
    has no fit result; the calls are made on the sources that are not
    passed over, in the order of the catalog, once each, with the
    values of the validated parameters; the loop does on the catalog
    what it does on the sources that are not passed over; and what is
    returned is the catalog, in its order, without the sources that are
    passed over and those of whose values the lambda does not hold. *)
Theorem select_by_name_in_order (st : State) :
  (forall X,
      str_in "Name" (getSelectionParams st false) = true ->
      str_in "Name" (getSelectionParams st true) = false ->
      Forall (fun r => is_Some (objs st !! r)) (sources st) ->
      snd (selectSourcesWithLambda st (name_is X))
      = Ok (filter (fun r => source_named st X r = true) (sources st)))
  /\ (forall lam,
        let validated := validated_params st lam in
        let '(log, res) := selectSourcesWithLambda st lam in
        (exists called,
            called `prefix_of`
              filter (fun r => SelectionSpec.passed_over st validated r = false)
                     (sources st)
            /\ Forall2 (fun r args => SelectionSpec.values_of st r validated args)
                       called (calls log))
        /\ select_loop st validated lam (sources st)
           = select_loop st validated lam
               (filter (fun r => SelectionSpec.passed_over st validated r = false)
                       (sources st))
        /\ (forall found, res = Ok found ->
              (exists keep : ref -> bool,
                  (forall r, keep r = true
                             <-> SelectionSpec.chosen st validated lam r)
                  /\ found = match validated with
                             | [] => []
                             | _ => filter (fun r => keep r = true) (sources st)
                             end)
              /\ sublist found (sources st)
              /\ Forall (fun r => SelectionSpec.passed_over st validated r = false)
                        found)).
Proof.
  split; [intros X; apply select_name_is |].
  intros lam validated.
  pose proof (select_calls_and_result st lam) as H. fold validated in H.
  cbv zeta in H.
  destruct (selectSourcesWithLambda st lam) as [log res].
  destruct H as [(called & Hpre & Hcalled) Hres].
  split; [| split].
  - exists called. split; [now rewrite <- filter_eligible_passed_over |].
    revert Hcalled. apply Forall2_impl_r. intros r args.
    apply call_args_values.
  - rewrite <- filter_eligible_passed_over. apply select_loop_eligible.
  - intros found Hfound. destruct (Hres found Hfound) as (Heq & Hsub & Hel).
    split; [| split; [exact Hsub |]].
    + exists (selects st validated lam).
      split; [intros r; apply selects_chosen | exact Heq].
    + eapply Forall_impl; [exact Hel |]. cbn beta. intros r Hr.
      rewrite eligible_passed_over in Hr.
      now destruct (SelectionSpec.passed_over st validated r).
Qed.

End Select.

(** ** The mutators *)

Section Mutators.
Context {DC : Dataclasses}.

Lemma mapM_ext {A B} (f g : A -> res B) (l : list A) :
  (forall x, f x = g x) -> mapM f l = mapM g l.
Proof.
  intros H. induction l as [| x l IH]; [reflexivity |].
  cbn [mapM]. now rewrite H, IH.
Qed.

Lemma filter_ext_in {A} (P Q : A -> Prop)
  `{!forall x, Decision (P x)} `{!forall x, Decision (Q x)} (l : list A) :
  (forall x, In x l -> (P x <-> Q x)) -> filter P l = filter Q l.
Proof.
  induction l as [| x l IH]; intros Hext; [reflexivity |].
  rewrite !filter_cons.
  rewrite IH by (intros y Hy; apply Hext; now right).
  pose proof (Hext x (or_introl eq_refl)) as Hx.
  destruct (decide (P x)) as [HP | HP], (decide (Q x)) as [HQ | HQ];
    try reflexivity; tauto.
Qed.

(** Two sources that compare equal are selected together. *)
Lemma selects_eq (st : State) (validated : list string) (lam : Lambda)
  (r e : ref) (a b : Source.t) :
  eq_respects_selection st ->
  objs st !! r = Some a ->
  objs st !! e = Some b ->
  Source__eq__ st a b = true ->
  selects st validated lam r = selects st validated lam e.
Proof.
  intros Heq Hr He Hab. destruct (Heq a b Hab) as (Hname & Hmulti & Hattr).
  unfold selects, eligible. rewrite Hr, He.
  assert (selectionParamsValues st a validated
          = selectionParamsValues st b validated) as ->.
  { unfold selectionParamsValues. apply mapM_ext. intros p.
    now rewrite Hname, Hattr. }
  f_equal. f_equal. apply bool_decide_ext. exact Hmulti.
Qed.

Lemma source_in_found (st : State) (validated : list string) (lam : Lambda)
  (found : list ref) (r : ref) :
  eq_respects_selection st ->
  found = match validated with
          | [] => []
          | _ => filter (fun r => selects st validated lam r = true)
                        (sources st)
          end ->
  r ∈ sources st ->
  source_in st r found = true <-> r ∈ found.
Proof.
  intros Heq Hfound Hr. unfold source_in. rewrite existsb_exists. split.
  - intros (e & He & Hre). apply list_elem_of_In in He.
    apply orb_true_iff in Hre as [Hre | Hre].
    + apply Nat.eqb_eq in Hre. now subst e.
    + destruct (objs st !! r) as [a |] eqn:Ha; [| discriminate].
      destruct (objs st !! e) as [b |] eqn:Hb; [| discriminate].
      destruct validated as [| p ps]; [now subst found |].
      subst found. apply list_elem_of_filter.
      apply list_elem_of_filter in He as [He _].
      split; [| exact Hr].
      now rewrite (selects_eq st (p :: ps) lam r e a b Heq Ha Hb Hre).
  - intros Hin. exists r. split; [now apply list_elem_of_In |].
    now rewrite Nat.eqb_refl.
Qed.

(** C9.  [deleteSources] returns what the selection returns; the
    sources that stay are those of the catalog that are not among the
    returned ones, in their order; the test is on the object, not on
    the name, so a source that is not returned stays even when a
    returned one has its name; nothing else changes; when nothing is
    returned the state is the same. *)
Theorem deleteSources_removes_selected (st : State) (lam : Lambda) :
  eq_respects_selection st ->
  let validated := validated_params st lam in
  let '(log, res) := selectSourcesWithLambda st lam in
  let '(log', res', st') := deleteSources st lam in
  log' = log /\ res' = res
  /\ objs st' = objs st /\ fits st' = fits st
  /\ (forall e, res = Err e -> st' = st)
  /\ (forall found, res = Ok found ->
        found = match validated with
                | [] => []
                | _ => filter (fun r => selects st validated lam r = true)
                              (sources st)
                end
        /\ sources st' = filter (fun r => r ∉ found) (sources st)
        /\ (forall r kept gone s,
               r ∈ sources st -> r ∉ found -> gone ∈ found ->
               objs st !! r = Some kept ->
               objs st !! gone = Some s ->
               Source.name s = Source.name kept ->
               r ∈ sources st')
        /\ (found = [] -> st' = st)).
Proof.
  intros Heq validated.
  pose proof (select_calls_and_result st lam) as Hsel.
  fold validated in Hsel. cbv zeta in Hsel.
  unfold deleteSources.
  destruct (selectSourcesWithLambda st lam) as [log res].
  destruct Hsel as (_ & Hfound).
  destruct res as [found | e].
  2: { do 4 (split; [reflexivity |]). split; [reflexivity | discriminate]. }
  destruct (Hfound found eq_refl) as (Hf & _ & _). cbn [objs fits set_sources].
  assert (filter (fun s => negb (source_in st s found)) (sources st)
          = filter (fun r => r ∉ found) (sources st)) as Hfilter.
  { apply filter_ext_in. intros r Hr. apply list_elem_of_In in Hr.
    rewrite <- (source_in_found st validated lam found r Heq Hf Hr).
    destruct (source_in st r found); cbn; split; try tauto; congruence. }
  do 4 (split; [reflexivity |]). split; [discriminate |].
  intros found' [= <-]. split; [exact Hf |]. cbn [sources].
  split; [exact Hfilter |]. split.
  - intros r kept gone s Hr Hnot _ _ _ _. rewrite Hfilter.
    apply list_elem_of_filter. split; [exact Hnot | exact Hr].
  - intros ->. destruct st as [o f l]. unfold set_sources. cbn in *.
    f_equal. rewrite Hfilter. clear.
    induction l as [| x l IH]; [reflexivity |].
    rewrite filter_cons. rewrite decide_True by apply not_elem_of_nil.
    now rewrite IH.
Qed.

End Mutators.

(** ** The update with a fit result *)

Section Update.
Context {DC : Dataclasses}.

Lemma select_loop_ext (st : State) (validated : list string)
  (lam1 lam2 : Lambda) (l : list ref) :
  (forall args, lam_call lam1 args = lam_call lam2 args) ->
  select_loop st validated lam1 l = select_loop st validated lam2 l.
Proof.
  intros Hcall. induction l as [| r l IH]; [reflexivity |].
  cbn [select_loop]. rewrite IH.
  destruct (deref (objs st) r) as [source | e]; [| reflexivity].
  destruct (_ && _); [reflexivity |].
  destruct (selectionParamsValues st source validated) as [values | e];
    [| reflexivity].
  now rewrite Hcall.
Qed.

Lemma select_ext (st : State) (lam1 lam2 : Lambda) :
  lam_params lam1 = lam_params lam2 ->
  (forall args, lam_call lam1 args = lam_call lam2 args) ->
  selectSourcesWithLambda st lam1 = selectSourcesWithLambda st lam2.
Proof.
  intros Hparams Hcall. unfold selectSourcesWithLambda. rewrite Hparams.
  destruct (_validateSelectionParams st (lam_params lam2)) as [w v].
  now rewrite (select_loop_ext st v lam1 lam2 _ Hcall).
Qed.

(** The lambda of [updateMulti] is [Name == label]. *)
Lemma label_lambda_name_is (st : State) (data : ref) (o : MultiOutput)
  (label : string) :
  fits st !! data = Some o ->
  o !! "label" = Some (AStr label) ->
  selectSourcesWithLambda st (label_lambda st data)
  = selectSourcesWithLambda st (name_is label).
Proof.
  intros Hdata Hlabel. apply select_ext; [reflexivity |].
  intros args. cbn [label_lambda name_is lam_call].
  destruct args as [| Name [| ? ?]]; try reflexivity.
  unfold getattr, deref. rewrite Hdata. cbn [bind]. rewrite Hlabel.
  cbn [bind]. now destruct Name.
Qed.

Lemma attr_float_insert_Dist (o : MultiOutput) (d : float) (n : string) :
  n <> "Dist" ->
  attr_float (<["Dist" := AFloat d]> o) n = attr_float o n.
Proof.
  intros Hn. unfold attr_float. now rewrite lookup_insert_ne.
Qed.

(** The value stored in [Dist]. *)
Lemma multi_distance_ok (st : State) (source : Source.t) (data : ref)
  (o : MultiOutput) (mapL mapB l b sl sb : float) :
  fits st !! data = Some o ->
  has_position source ->
  attr_float o "L" = Ok l ->
  attr_float o "B" = Ok b ->
  (PrimFloat.eqb l (-1)%float = true -> attr_float o "start_l" = Ok sl) ->
  (PrimFloat.eqb b (-1)%float = true -> attr_float o "start_b" = Ok sb) ->
  multi_distance st source data mapL mapB
  = Ok (Astro_distance (resolved l sl) (resolved b sb) mapL mapB).
Proof.
  intros Hdata (glon & glat & Hglon & [x Hx] & Hglat & [y Hy]) HL HB Hsl Hsb.
  unfold multi_distance. rewrite Hglon, Hglat. cbn [bind py_float].
  rewrite Hx, Hy. cbn [bind].
  unfold getattr, deref. rewrite Hdata. cbn [bind].
  unfold attr_float in HL, HB.
  destruct (o !! "L") as [aL |]; [| discriminate]. cbn [bind]. rewrite HL.
  destruct (o !! "B") as [aB |]; [| discriminate]. cbn [bind]. rewrite HB.
  cbn [bind]. unfold resolved.
  destruct (PrimFloat.eqb l (-1)%float).
  - specialize (Hsl eq_refl). unfold attr_float in Hsl.
    destruct (o !! "start_l") as [a |]; [| discriminate].
    cbn [bind]. rewrite Hsl. cbn [bind].
    destruct (PrimFloat.eqb b (-1)%float); [| reflexivity].
    specialize (Hsb eq_refl). unfold attr_float in Hsb.
    destruct (o !! "start_b") as [a' |]; [| discriminate].
    cbn [bind]. now rewrite Hsb.
  - cbn [bind].
    destruct (PrimFloat.eqb b (-1)%float); [| reflexivity].
    specialize (Hsb eq_refl). unfold attr_float in Hsb.
    destruct (o !! "start_b") as [a' |]; [| discriminate].
    cbn [bind]. now rewrite Hsb.
Qed.

(** The loop: every source found gets the fit result, and the fit
    result gets its [Dist]. *)
Lemma updateMulti_loop_ok (data : ref) (mapL mapB : float) (o : MultiOutput)
  (l b sl sb : float) :
  attr_float o "L" = Ok l ->
  attr_float o "B" = Ok b ->
  (PrimFloat.eqb l (-1)%float = true -> attr_float o "start_l" = Ok sl) ->
  (PrimFloat.eqb b (-1)%float = true -> attr_float o "start_b" = Ok sb) ->
  let d := Astro_distance (resolved l sl) (resolved b sb) mapL mapB in
  let o' : MultiOutput := <["Dist" := AFloat d]> o in
  forall (found : list ref) (st : State) (oX : MultiOutput),
    fits st !! data = Some oX ->
    oX = o \/ oX = o' ->
    Forall (fun r => exists s, objs st !! r = Some s /\ has_position s)
           found ->
    let '(log, res, st') := updateMulti_loop st data mapL mapB found in
    res = Ok tt
    /\ fits st' = match found with
                  | [] => fits st
                  | _ => <[data := o']> (fits st)
                  end
    /\ sources st' = sources st
    /\ forall r,
         objs st' !! r
         = if bool_decide (r ∈ found)
           then Source.set_multi (Some data) <$> objs st !! r
           else objs st !! r.
Proof.
  intros HL HB Hsl Hsb d o'.
  induction found as [| r0 rest IH]; intros st oX Hdata HoX Hfound.
  - cbn [updateMulti_loop]. repeat (split; [reflexivity |]).
    intros r. now rewrite bool_decide_eq_false_2 by apply not_elem_of_nil.
  - apply Forall_cons in Hfound as [(s0 & Hr0 & Hpos0) Hrest].
    cbn [updateMulti_loop]. unfold deref at 1. rewrite Hr0. cbv zeta.
    set (s1 := Source.set_multi (Some data) s0).
    set (st1 := set_objs (<[r0 := s1]> (objs st)) st).
    assert (multi_distance st1 s1 data mapL mapB = Ok d) as ->.
    { apply (multi_distance_ok st1 s1 data oX); try assumption.
      all: destruct HoX as [-> | ->]; try assumption.
      all: unfold o'; rewrite ?attr_float_insert_Dist by discriminate;
        try assumption.
      all: intros E; rewrite attr_float_insert_Dist by discriminate; auto. }
    cbn [bind]. unfold deref. change (fits st1) with (fits st).
    rewrite Hdata. cbn [bind].
    assert (<["Dist" := AFloat d]> oX = o') as ->.
    { destruct HoX as [-> | ->]; [reflexivity |].
      unfold o'. apply insert_insert_eq. }
    set (st2 := set_fits (<[data := o']> (fits st)) st1).
    specialize (IH st2 o').
    assert (fits st2 !! data = Some o') as Hdata2
      by (cbn; apply lookup_insert_eq).
    assert (Forall (fun r => exists s, objs st2 !! r = Some s
                                      /\ has_position s) rest) as Hrest2.
    { eapply Forall_impl; [exact Hrest |]. intros r (s & Hr & Hpos).
      cbn. destruct (decide (r0 = r)) as [<- | Hne].
      - exists s1. split; [apply lookup_insert_eq | exact Hpos0].
      - exists s. split; [now rewrite lookup_insert_ne | exact Hpos]. }
    specialize (IH Hdata2 (or_intror eq_refl) Hrest2).
    destruct (updateMulti_loop st2 data mapL mapB rest) as [[log res] st'].
    destruct IH as (Hres & Hfits & Hsources & Hobjs).
    split; [exact Hres |]. split; [| split; [exact Hsources |]].
    + rewrite Hfits. destruct rest; [reflexivity |].
      cbn. apply insert_insert_eq.
    + intros r. rewrite Hobjs. cbn [objs st2 st1 set_fits set_objs].
      destruct (decide (r0 = r)) as [<- | Hne].
      * rewrite lookup_insert_eq, Hr0.
        rewrite (bool_decide_eq_true_2 (r0 ∈ r0 :: rest))
          by apply list_elem_of_here.
        now destruct (bool_decide (r0 ∈ rest)).
      * rewrite lookup_insert_ne by exact Hne.
        apply (f_equal (fun c : bool =>
                 if c then Source.set_multi (Some data) <$> objs st !! r
                 else objs st !! r)).
        apply bool_decide_ext. rewrite elem_of_cons. split; [tauto |].
        intros [-> | H]; [contradiction | exact H].
Qed.

(** C4.  With [Name] in the registry and not among the parameters that
    need a fit result: when no source of the catalog has the name
    [data.label], [updateMulti] logs a critical message and exits with
    status 1, and the state is the same.  Otherwise, when the sources
    of that name have a position and [float] converts the coordinates
    of the fit result, every one of them gets the fit result as its
    [multi], no other source changes, and [Dist] of the fit result is
    the distance, as [Astro.distance] computes it, from the resolved
    position to the center of the map; the resolved longitude is the
    reported [L], unless it is -1, and then [start_l]; likewise for
    the latitude with [B] and [start_b]. *)
Theorem updateMulti_attaches_and_measures (st : State) (data : ref)
  (mapCenterL mapCenterB : float) (o : MultiOutput) (label : string) :
  str_in "Name" (getSelectionParams st false) = true ->
  str_in "Name" (getSelectionParams st true) = false ->
  Forall (fun r => is_Some (objs st !! r)) (sources st) ->
  fits st !! data = Some o ->
  o !! "label" = Some (AStr label) ->
  let matching :=
    filter (fun r => source_named st label r = true) (sources st) in
  let '(log, res, st') := updateMulti st data mapCenterL mapCenterB in
  (matching = [] -> fatal log res /\ st' = st)
  /\ (matching <> [] ->
      forall l b sl sb,
        Forall (fun r => exists s, objs st !! r = Some s /\ has_position s)
               matching ->
        attr_float o "L" = Ok l ->
        attr_float o "B" = Ok b ->
        (PrimFloat.eqb l (-1)%float = true -> attr_float o "start_l" = Ok sl) ->
        (PrimFloat.eqb b (-1)%float = true -> attr_float o "start_b" = Ok sb) ->
        res = Ok tt
        /\ fits st'
           = <[data := <["Dist" := AFloat
                           (Astro_distance (resolved l sl) (resolved b sb)
                                           mapCenterL mapCenterB)]> o]>
               (fits st)
        /\ sources st' = sources st
        /\ forall r,
             objs st' !! r
             = if bool_decide (r ∈ matching)
               then Source.set_multi (Some data) <$> objs st !! r
               else objs st !! r).
Proof.
  intros Hreg Hmulti Hwf Hdata Hlabel matching. unfold updateMulti.
  rewrite (label_lambda_name_is st data o label Hdata Hlabel).
  pose proof (select_name_is st label Hreg Hmulti Hwf) as Hsel.
  fold matching in Hsel.
  destruct (selectSourcesWithLambda st (name_is label)) as [log res].
  cbn [snd] in Hsel. subst res. clearbody matching.
  destruct matching as [| r0 rest].
  - cbn [List.length Nat.eqb]. split; [| congruence]. intros _.
    split; [| reflexivity]. split; [reflexivity |].
    eexists _, _. apply in_or_app. right. now left.
  - cbn [List.length Nat.eqb].
    pose proof (fun l b sl sb HL HB Hsl Hsb =>
                  updateMulti_loop_ok data mapCenterL mapCenterB o l b sl sb
                    HL HB Hsl Hsb (r0 :: rest) st o Hdata
                    (or_introl eq_refl)) as Hloop.
    destruct (updateMulti_loop st data mapCenterL mapCenterB (r0 :: rest))
      as [[log' res] st'].
    split; [discriminate |].
    intros _ l b sl sb Hpos HL HB Hsl Hsb.
    exact (Hloop l b sl sb HL HB Hsl Hsb Hpos).
Qed.

End Update.

Lemma updateMulti_attaches_and_measures_witness :
  let '(log, res, st') :=
    @updateMulti Sample.dataclasses Sample.catalog 7 263%float 0%float in
  res = Ok tt
  /\ fits st' = {[ 7 := <["Dist" := AFloat 3%float]> Sample.fit ]}
  /\ objs st' !! 1 = Some (Sample.vela (PyStr "1") (Some 7))
  /\ objs st' !! 2 = Some (Sample.crab (PyStr "0"))
  /\ objs st' !! 3 = Some (Sample.vela (PyStr "0") (Some 7)).
Proof.
  pose proof (@updateMulti_attaches_and_measures Sample.dataclasses
                Sample.catalog 7 263%float 0%float Sample.fit "Vela"
                eq_refl eq_refl) as H.
  cbv zeta in H.
  destruct (@updateMulti Sample.dataclasses Sample.catalog 7 263 0)
    as [[log res] st'].
  destruct H as [_ H]; try reflexivity.
  { repeat constructor; eexists; reflexivity. }
  destruct (H ltac:(discriminate) (-1)%float (-3)%float 263%float (-2)%float)
    as (Hres & Hfits & _ & Hobjs); try reflexivity.
  { repeat constructor; eexists; (split; [reflexivity |]);
      exists "263", "-2"; repeat split; eexists; reflexivity. }
  split; [exact Hres |]. split; [rewrite Hfits; reflexivity |].
  rewrite !Hobjs. repeat split; reflexivity.
Defined.

(** ** Releasing and fixing parameters *)

Section Free.
Context {DC : Dataclasses}.



End Free.


(** ** The parser of the output of the fitter *)

Lemma readlines_nonempty (s : string) :
  Forall (fun line => line <> "") (readlines s).
Proof.
  induction s as [| c s IH]; [constructor |].
  cbn [readlines]. destruct (Ascii.eqb c newline).
  - constructor; [discriminate | exact IH].
  - destruct (readlines s) as [| h t]; [repeat constructor; discriminate |].
    apply Forall_cons in IH as [_ IH]. constructor; [discriminate | exact IH].
Qed.

Lemma filterM_not_comment (l : list string) :
  Forall (fun line => line <> "") l ->
  filterM not_comment l = Ok (filter (fun line => is_comment line = false) l).
Proof.
  induction 1 as [| line l Hline _ IH]; [reflexivity |].
  cbn [filterM]. rewrite IH. rewrite filter_cons.
  destruct line as [| c line]; [congruence |]. cbn [not_comment bind is_comment].
  destruct (Ascii.eqb c "!"); cbn [negb];
    [now rewrite decide_False | now rewrite decide_True].
Qed.

Lemma split_char_cons (sep : ascii) (s : string) :
  exists h t, split_char sep s = h :: t.
Proof.
  destruct s as [| c s]; [now exists "", [] |].
  cbn [split_char]. destruct (Ascii.eqb c sep); [now eexists _, _ |].
  destruct (split_char sep s); now eexists _, _.
Qed.

(** The words of a line are the pieces between its blanks that are not
    empty. *)
Lemma words_from_split (s cur : string) :
  words_from cur s
  = match split_char " " s with
    | h :: t => filter (fun v => negb (String.eqb v "")) ((cur ++ h) :: t)
    | [] => []
    end.
Proof.
  revert cur. induction s as [| c s IH]; intros cur.
  - cbn [words_from split_char]. rewrite str_app_nil_r, filter_cons, filter_nil.
    now destruct cur.
  - cbn [words_from split_char]. destruct (Ascii.eqb c " ").
    + rewrite str_app_nil_r, filter_cons.
      assert (words_from "" s
              = filter (fun v => negb (String.eqb v "")) (split_char " " s))
        as Hs.
      { rewrite IH. destruct (split_char_cons " " s) as (h & t & ->).
        now rewrite str_app_nil_l. }
      rewrite Hs. now destruct cur.
    + rewrite IH. destruct (split_char_cons " " s) as (h & t & ->).
      now rewrite str_app_assoc.
Qed.

Lemma words_split (s : string) :
  words s = filter (fun v => negb (String.eqb v "")) (split_char " " s).
Proof.
  unfold words. rewrite words_from_split.
  destruct (split_char_cons " " s) as (h & t & ->).
  now rewrite str_app_nil_l.
Qed.

Lemma filter_nonempty_value (l : list string) :
  filter nonempty_value (map AStr l) = map AStr (filter (fun v => v <> "") l).
Proof.
  induction l as [| v l IH]; [reflexivity |].
  cbn [map]. rewrite !filter_cons, IH. cbn [nonempty_value].
  destruct (String.eqb_spec v "") as [-> | Hne]; cbn [negb].
  - rewrite decide_False by (cbn; tauto). now rewrite decide_False by tauto.
  - rewrite decide_True by exact I. now rewrite decide_True by exact Hne.
Qed.

(** [s.split("..")] has a first element. *)
Lemma split_dotdot_cons (s : string) :
  exists h t, split_dotdot s = h :: t.
Proof.
  induction s as [| c s IH]; [now exists "", [] |].
  cbn [split_dotdot].
  destruct IH as (h & t & IH). rewrite IH.
  repeat match goal with
         | |- context [match ?x with _ => _ end] => destruct x
         end; now eexists _, _.
Qed.

Lemma mapM_dotdot_first (l : list string) :
  exists r, mapM (fun e => index (split_dotdot e) 0) l = Ok r.
Proof.
  induction l as [| e l (r & IH)]; cbn [mapM]; [now eexists |].
  destruct (split_dotdot_cons e) as (h & t & ->).
  cbn [index nth_error bind]. rewrite IH. cbn [bind]. now eexists.
Qed.

Lemma mapM_dotdot_second (l : list string) :
  if forallb Shape.has_range l
  then exists r, mapM (fun e => index (split_dotdot e) 1) l = Ok r
  else mapM (fun e => index (split_dotdot e) 1) l = Err IndexError.
Proof.
  induction l as [| e l IH]; cbn [mapM forallb]; [now eexists |].
  unfold Shape.has_range at 1.
  destruct (split_dotdot e) as [| h [| h2 t]]; cbn [List.length Nat.leb andb];
    [reflexivity | reflexivity |].
  cbn [index nth_error bind].
  destruct (forallb Shape.has_range l).
  - destruct IH as (r & ->). cbn [bind]. now eexists.
  - now rewrite IH.
Qed.

Section Parser.
Context {DC : Dataclasses}.

(** The values of line 0 are its tokens. *)
Lemma line_values_0 (line : string) :
  exists values,
    line_values 0 line = Ok values
    /\ head values = AStr <$> first_token line.
Proof.
  unfold line_values, first_token. cbn [bind]. eexists. split; [reflexivity |].
  rewrite filter_nonempty_value, list_filter_filter, <- words_split.
  set (l := map strip (words line)). clearbody l.
  assert (filter (fun x => x <> "" /\ negb (String.eqb x "[")
                           && negb (String.eqb x "]")
                           && negb (String.eqb x ",")) l
          = filter (fun v => v <> "" /\ v <> "[" /\ v <> "]" /\ v <> ",") l)
    as ->.
  { apply list_filter_iff. intros x.
    destruct (String.eqb_spec x "["), (String.eqb_spec x "]"),
      (String.eqb_spec x ","); cbn; tauto. }
  now destruct (filter _ l).
Qed.

Lemma MultiOutput_new_first (args : list attr) (record : MultiOutput)
  (a : attr) (n : string) :
  MultiOutput_new args = Ok record ->
  head args = Some a ->
  head MultiOutput_fields = Some n ->
  record !! n = Some a.
Proof.
  unfold MultiOutput_new. intros Hnew Ha Hn.
  destruct (_ =? _)%nat; [| discriminate]. injection Hnew as <-.
  destruct args as [| a' args]; [discriminate |].
  destruct MultiOutput_fields as [| n' fields]; [discriminate |].
  cbn in Ha, Hn. injection Ha as ->. injection Hn as ->.
  cbn [zip zip_with list_to_map foldr]. apply lookup_insert_eq.
Qed.

(** Line 5 needs a word. *)
Lemma line_values_5 (line : string) :
  if Shape.line_shape 5 line
  then exists v, line_values 5 line = Ok v
  else line_values 5 line = Err IndexError.
Proof.
  unfold Shape.line_shape, line_values. rewrite <- words_split.
  destruct (words line) as [| w ws]; [reflexivity |].
  unfold last_item.
  destruct (rev (map strip (w :: ws))) as [| x l] eqn:Hrev.
  { apply (f_equal (@List.length string)) in Hrev.
    rewrite List.length_rev in Hrev. discriminate Hrev. }
  cbn [bind]. now eexists.
Qed.

(** Lines 8 to 11 need two pieces. *)
Lemma line_values_coeffs (n : nat) (line : string) :
  n = 8%nat \/ n = 9%nat \/ n = 10%nat \/ n = 11%nat ->
  if Shape.line_shape n line
  then exists v, line_values n line = Ok v
  else line_values n line = Err IndexError.
Proof.
  intros [-> | [-> | [-> | ->]]]; unfold Shape.line_shape, line_values;
    destruct (split_char " " line) as [| c0 [| c1 rest]];
    cbn [List.length Nat.leb index nth_error bind];
    try reflexivity; now eexists.
Qed.

(** Line 13 needs two pieces, of items [a..b]. *)
Lemma line_values_13 (line : string) :
  if Shape.line_shape 13 line
  then exists v, line_values 13 line = Ok v
  else line_values 13 line = Err IndexError.
Proof.
  unfold Shape.line_shape, line_values.
  destruct (split_char " " line) as [| c0 [| c1 rest]].
  - reflexivity.
  - cbn [index nth_error bind].
    destruct (mapM_dotdot_first (split_char "," c0)) as (r0 & ->).
    cbn [bind].
    pose proof (mapM_dotdot_second (split_char "," c0)) as H0.
    destruct (forallb Shape.has_range (split_char "," c0));
      [destruct H0 as (r1 & ->) | rewrite H0]; reflexivity.
  - cbn [index nth_error bind].
    destruct (mapM_dotdot_first (split_char "," c0)) as (r0 & ->).
    cbn [bind].
    pose proof (mapM_dotdot_second (split_char "," c0)) as H0.
    destruct (forallb Shape.has_range (split_char "," c0));
      [destruct H0 as (r1 & ->) | rewrite H0; reflexivity].
    cbn [bind andb].
    destruct (mapM_dotdot_first (split_char "," c1)) as (r2 & ->).
    cbn [bind].
    pose proof (mapM_dotdot_second (split_char "," c1)) as H1.
    destruct (forallb Shape.has_range (split_char "," c1));
      [destruct H1 as (r3 & ->) | rewrite H1; reflexivity].
    cbn [bind]. now eexists.
Qed.

(** A line of the shape gives its values; another one raises
    [IndexError]. *)
Lemma line_values_shape (n : nat) (line : string) :
  if Shape.line_shape n line
  then exists v, line_values n line = Ok v
  else line_values n line = Err IndexError.
Proof.
  destruct (decide (n = 5%nat)) as [-> | H5]; [apply line_values_5 |].
  destruct (decide (n = 13%nat)) as [-> | H13]; [apply line_values_13 |].
  destruct (decide (n = 8%nat \/ n = 9%nat \/ n = 10%nat \/ n = 11%nat))
    as [Hc | Hc]; [now apply line_values_coeffs |].
  assert (Shape.line_shape n line = true) as ->.
  { unfold Shape.line_shape.
    do 14 (destruct n as [| n]; [try reflexivity; exfalso; tauto |]).
    reflexivity. }
  unfold line_values.
  do 14 (destruct n as [| n];
         [first [exfalso; tauto | cbn [bind]; eexists; reflexivity] |]).
  cbn [bind]. eexists. reflexivity.
Qed.

Lemma all_values_shape (body : list string) (n : nat) :
  if Shape.shaped n body
  then exists v, all_values n body = Ok v
  else all_values n body = Err IndexError.
Proof.
  revert n. induction body as [| line rest IH]; intros n;
    cbn [Shape.shaped all_values]; [now eexists |].
  pose proof (line_values_shape n line) as Hline.
  destruct (Shape.line_shape n line); cbn [andb].
  - destruct Hline as (v & ->). cbn [bind].
    specialize (IH (S n)).
    destruct (Shape.shaped (S n) rest).
    + destruct IH as (more & ->). cbn [bind]. now eexists.
    + now rewrite IH.
  - now rewrite Hline.
Qed.

(** C5, as the code has it.  The lines that begin with an exclamation
    mark are discarded; the parser ends with the fatal error exactly
    when the number of the other lines is not 17.  It returns a record
    exactly when there are 17 of them, they have the shape of the
    output of the fitter, and their flattened values are as many as the
    record has fields; the first field of the record is then the first
    token of line 0.  With 17 lines that do not have the shape it
    raises [IndexError]. *)
Theorem parseSourceFile_17_shaped (text : string) :
  let body := body_of text in
  let '(log, res) := parseSourceFile text in
  (fatal log res <-> List.length body <> 17%nat)
  /\ (List.length body = 17%nat -> Shape.shaped 0 body = false ->
      res = Err IndexError)
  /\ ((exists record, res = Ok record)
      <-> List.length body = 17%nat
          /\ Shape.shaped 0 body = true
          /\ exists allValues,
               all_values 0 body = Ok allValues
               /\ List.length allValues = List.length MultiOutput_fields)
  /\ (forall record line0 token field0,
        res = Ok record ->
        head body = Some line0 ->
        first_token line0 = Some token ->
        head MultiOutput_fields = Some field0 ->
        log = [] /\ record !! field0 = Some (AStr token)).
Proof.
  intros body. unfold parseSourceFile.
  rewrite (filterM_not_comment _ (readlines_nonempty text)).
  fold (body_of text). fold body.
  destruct (Nat.eqb_spec (List.length body) 17) as [Hlen | Hlen];
    cbn [negb].
  2: { split.
       { split; [intros _; exact Hlen |].
         intros _. split; [reflexivity |]. eexists _, _. now left. }
       split; [intros H; contradiction |].
       split; [| intros ? ? ? ? H; discriminate H].
       split; [intros [record H]; discriminate H | intros [H _]; contradiction]. }
  split; [split; [intros [_ (msg & args & [])] | congruence] |].
  pose proof (all_values_shape body 0) as Hshape.
  destruct (Shape.shaped 0 body).
  2: { rewrite Hshape. cbn [bind]. split; [reflexivity |].
       split; [| intros ? ? ? ? H; discriminate H].
       split; [intros [record H]; discriminate H |].
       intros (_ & H & _); discriminate H. }
  destruct Hshape as (allValues & Hall). rewrite Hall. cbn [bind].
  split; [discriminate |]. split.
  - unfold MultiOutput_new. split.
    + intros [record Hrecord]. split; [exact Hlen |].
      split; [reflexivity |]. exists allValues. split; [reflexivity |].
      destruct (Nat.eqb_spec (List.length allValues)
                  (List.length MultiOutput_fields)) as [Hcount | Hcount];
        [exact Hcount | discriminate Hrecord].
    + intros (_ & _ & allValues' & [= <-] & Hcount).
      rewrite Hcount, Nat.eqb_refl. now eexists.
  - intros record line0 token field0 Hrecord Hline0 Htoken Hfield.
    split; [reflexivity |].
    destruct body as [| line rest]; [discriminate |].
    cbn in Hline0. injection Hline0 as ->.
    cbn [all_values] in Hall.
    destruct (line_values_0 line0) as (values & Hvalues & Hhead).
    rewrite Hvalues in Hall. cbn [bind] in Hall.
    destruct (all_values 1 rest) as [more | e]; [| discriminate].
    cbn [bind] in Hall. injection Hall as <-.
    apply (MultiOutput_new_first _ _ _ _ Hrecord); [| exact Hfield].
    rewrite Htoken in Hhead. destruct values; [discriminate |].
    exact Hhead.
Qed.

End Parser.

(** C5, as the specification states it, does not hold: seventeen lines
    are not enough for the parser to return.  Here line 8 has one
    piece only, and the parser raises [IndexError].  And seventeen
    lines of the shape with fewer values than the record has fields
    are not enough either: the constructor refuses them. *)
Lemma parseSourceFile_17_lines_raises :
  let text := unlines (repeat "x" 17) in
  let text' := unlines (repeat "a..b c..d" 17) in
  List.length (body_of text) = 17%nat
  /\ snd (@parseSourceFile Sample.dataclasses text) = Err IndexError
  /\ List.length (body_of text') = 17%nat
  /\ Shape.shaped 0 (body_of text') = true
  /\ snd (@parseSourceFile Sample.dataclasses text') = Err TypeError.
Proof. vm_compute. repeat split; reflexivity. Qed.

Lemma parseSourceFile_17_shaped_witness :
  exists record,
    @parseSourceFile Sample.dataclasses (unlines Sample.fitter_lines)
    = ([], Ok record)
    /\ List.length (body_of (unlines Sample.fitter_lines)) = 17%nat
    /\ Shape.shaped 0 (body_of (unlines Sample.fitter_lines)) = true
    /\ record !! "label" = Some (AStr "Vela").
Proof.
  pose proof (@parseSourceFile_17_shaped Sample.dataclasses
                (unlines Sample.fitter_lines)) as H.
  cbv zeta in H.
  destruct (@parseSourceFile Sample.dataclasses (unlines Sample.fitter_lines))
    as [log res].
  destruct H as (_ & _ & Hiff & Hfirst).
  assert (List.length (body_of (unlines Sample.fitter_lines)) = 17%nat)
    as Hlen by (vm_compute; reflexivity).
  assert (Shape.shaped 0 (body_of (unlines Sample.fitter_lines)) = true)
    as Hshape by (vm_compute; reflexivity).
  destruct (proj2 Hiff) as [record ->].
  { split; [exact Hlen |]. split; [exact Hshape |].
    eexists. split; vm_compute; reflexivity. }
  exists record.
  destruct (Hfirst record _ "Vela" "label" eq_refl eq_refl eq_refl eq_refl)
    as [-> Hlabel].
  split; [reflexivity |]. split; [exact Hlen |].
  split; [exact Hshape | exact Hlabel].
Defined.

(** ** The theorems on the sample catalog *)

Lemma select_by_name_in_order_witness :
  snd (@selectSourcesWithLambda Sample.dataclasses Sample.catalog
         (name_is "Vela"))
  = Ok [1; 3]%nat
  /\ @SelectionSpec.passed_over Sample.dataclasses SampleFiles.catalog_updated
       ["Dist"] 2%nat = true
  /\ @select_loop Sample.dataclasses SampleFiles.catalog_updated ["Dist"]
       SampleFiles.near [1; 2; 3]%nat
     = @select_loop Sample.dataclasses SampleFiles.catalog_updated ["Dist"]
         SampleFiles.near [1; 3]%nat
  /\ snd (@selectSourcesWithLambda Sample.dataclasses
            SampleFiles.catalog_updated SampleFiles.near)
     = Ok [1; 3]%nat.
Proof.
  split.
  { rewrite (proj1 (@select_by_name_in_order Sample.dataclasses
                      Sample.catalog) "Vela");
      [reflexivity | reflexivity | reflexivity
      | repeat constructor; eexists; reflexivity]. }
  pose proof (proj2 (@select_by_name_in_order Sample.dataclasses
                       SampleFiles.catalog_updated) SampleFiles.near) as H.
  cbv zeta in H.
  destruct (@selectSourcesWithLambda Sample.dataclasses
              SampleFiles.catalog_updated SampleFiles.near)
    as [log res] eqn:Hsel.
  destruct H as (_ & Hloop & _).
  split; [reflexivity |]. split; [exact Hloop |].
  apply (f_equal snd) in Hsel. cbn [snd] in Hsel. rewrite <- Hsel.
  reflexivity.
Defined.

Lemma deleteSources_removes_selected_witness :
  let '(log', res', st') :=
    @deleteSources Sample.dataclasses Sample.catalog (name_is "Crab") in
  res' = Ok [2]%nat /\ sources st' = [1; 3]%nat.
Proof.
  pose proof (@deleteSources_removes_selected Sample.dataclasses
                Sample.catalog (name_is "Crab")) as H.
  assert (@eq_respects_selection Sample.dataclasses Sample.catalog) as Heq
    by (intros a b E; discriminate E).
  specialize (H Heq). cbv zeta in H.
  destruct (@selectSourcesWithLambda Sample.dataclasses Sample.catalog
              (name_is "Crab")) as [log res] eqn:Hsel.
  destruct (@deleteSources Sample.dataclasses Sample.catalog (name_is "Crab"))
    as [[log' res'] st'].
  destruct H as (_ & Hres' & _ & _ & _ & H).
  assert (res = Ok [2]%nat) as Hres
    by (apply (f_equal snd) in Hsel; cbn [snd] in Hsel; rewrite <- Hsel;
        reflexivity).
  destruct (H _ Hres) as (_ & Hsources & _).
  split; [now rewrite Hres' | rewrite Hsources; reflexivity].
Defined.

(* ================================================================== *)
(** * Part III: further properties of the code                         *)
(* ================================================================== *)

(** ** The names of the maps *)

Import MapNames.

Lemma str_length_app (a b : string) :
  String.length (a ++ b) = (String.length a + String.length b)%nat.
Proof.
  induction a as [| c a IH]; [reflexivity |].
  rewrite str_app_cons. cbn [String.length]. now rewrite IH.
Qed.

Lemma zeros_length (n : nat) : String.length (zeros n) = n.
Proof. induction n as [| n IH]; [reflexivity |]. cbn. now rewrite IH. Qed.

(** [zfill] pads and never cuts. *)
Lemma zfill_length (width : nat) (s : string) :
  String.length (zfill width s) = Nat.max width (String.length s).
Proof.
  unfold zfill. destruct (Nat.leb_spec width (String.length s)) as [H | H];
    [lia |].
  destruct s as [| c s']; [rewrite zeros_length; cbn in *; lia |].
  destruct (_ || _); cbn [String.length] in *;
    rewrite str_length_app, zeros_length; cbn [String.length]; lia.
Qed.

(** X1.  The prefix of the name of a map is never cut: it has the ten
    characters of the pattern and, for each of the three values, five,
    five and two characters or the length of the value when that is
    more.  So it has 22 characters at least, and exactly 22 when [emin]
    and [emax] have at most five characters and the numeral of [stepi]
    has at most two. *)
Theorem getMapNamePrefix_length (emin emax : string) (stepi : Z) :
  String.length (getMapNamePrefix emin emax stepi)
  = (10 + Nat.max 5 (String.length emin) + Nat.max 5 (String.length emax)
     + Nat.max 2 (String.length (str_of_int stepi)))%nat
  /\ (22 <= String.length (getMapNamePrefix emin emax stepi))%nat
  /\ ((String.length emin <= 5)%nat -> (String.length emax <= 5)%nat ->
      (String.length (str_of_int stepi) <= 2)%nat ->
      String.length (getMapNamePrefix emin emax stepi) = 22%nat).
Proof.
  assert (String.length (getMapNamePrefix emin emax stepi)
          = (10 + Nat.max 5 (String.length emin)
             + Nat.max 5 (String.length emax)
             + Nat.max 2 (String.length (str_of_int stepi)))%nat) as Hlen.
  { unfold getMapNamePrefix. rewrite !str_length_app, !zfill_length.
    cbn [String.length]. lia. }
  split; [exact Hlen |]. rewrite Hlen. split; lia.
Qed.

Lemma is_digit_facts (c : ascii) :
  is_digit c = true ->
  isspace c = false
  /\ Ascii.eqb c "_" = false /\ Ascii.eqb c "+" = false
  /\ Ascii.eqb c "-" = false
  /\ exists d, digit_value c = Some d /\ (d <? 10)%Z = true.
Proof.
  destruct c as [[] [] [] [] [] [] [] []]; intros H;
    try discriminate H;
    (split; [reflexivity |]); (split; [reflexivity |]);
    (split; [reflexivity |]); (split; [reflexivity |]);
    eexists; split; reflexivity.
Qed.

(** The scanner reads a string of digits to its end. *)
Lemma scan_all_digits (s : string) :
  all_digits s = true ->
  forall acc seen, s <> "" \/ seen = true ->
    exists v, scan_digits 10 acc false seen s = Some (v, "").
Proof.
  induction s as [| c s IH]; intros Hall acc seen Hne.
  - destruct Hne as [Hne | ->]; [congruence |]. now exists acc.
  - cbn [all_digits] in Hall. apply andb_true_iff in Hall as [Hc Hs].
    destruct (is_digit_facts c Hc) as (_ & Hu & _ & _ & d & Hd & Hlt).
    cbn [scan_digits]. rewrite Hu, Hd, Hlt.
    apply (IH Hs). now right.
Qed.

(** What was read before does not matter once a digit is read. *)
Lemma scan_digit_seen (c : ascii) (s : string) (acc : Z) (seen : bool) :
  is_digit c = true ->
  scan_digits 10 acc false seen (String c s)
  = scan_digits 10 acc false true (String c s).
Proof.
  intros Hc. destruct (is_digit_facts c Hc) as (_ & Hu & _ & _ & d & Hd & Hlt).
  cbn [scan_digits]. now rewrite Hu, Hd, Hlt.
Qed.

(** Zeros on the left do not change what the scanner reads. *)
Lemma scan_zeros (k : nat) (c : ascii) (s : string) (seen : bool) :
  is_digit c = true ->
  scan_digits 10 0 false seen (zeros k ++ String c s)
  = scan_digits 10 0 false true (String c s).
Proof.
  intros Hc. revert seen. induction k as [| k IH]; intros seen.
  - rewrite str_app_nil_l. now apply scan_digit_seen.
  - cbn [zeros]. rewrite str_app_cons. cbn [scan_digits].
    change (Ascii.eqb "0" "_") with false. cbn. apply IH.
Qed.

(** [int] of a string that begins with a digit: no blank to skip, no
    sign and no prefix. *)
Lemma int_of_string_digit_first (c : ascii) (s : string) :
  is_digit c = true ->
  int_of_string 10 (String c s)
  = match scan_digits 10 0 false false (String c s) with
    | Some (v, rest) => if all_space_int rest then Ok v else Err ValueError
    | None => Err ValueError
    end.
Proof.
  intros Hc. unfold int_of_string.
  destruct c as [[] [] [] [] [] [] [] []]; try discriminate Hc;
    destruct s as [| c' s']; reflexivity.
Qed.

(** [int] reads a numeral, and reads the same with zeros on its left. *)
Lemma int_of_string_zeros (k : nat) (s : string) :
  is_numeral s = true ->
  exists v,
    int_of_string 10 s = Ok v
    /\ int_of_string 10 (zeros k ++ s) = Ok v.
Proof.
  unfold is_numeral. intros H. apply andb_true_iff in H as [Hne Hall].
  destruct s as [| c s]; [discriminate |].
  pose proof Hall as Hall'. cbn [all_digits] in Hall'.
  apply andb_true_iff in Hall' as [Hc _].
  destruct (scan_all_digits (String c s) Hall 0%Z true (or_intror eq_refl))
    as [v Hv].
  exists v. split.
  - rewrite (int_of_string_digit_first c s Hc).
    rewrite (scan_digit_seen c s 0 false Hc), Hv. reflexivity.
  - destruct k as [| k]; [rewrite str_app_nil_l |].
    + rewrite (int_of_string_digit_first c s Hc).
      rewrite (scan_digit_seen c s 0 false Hc), Hv. reflexivity.
    + cbn [zeros]. rewrite str_app_cons.
      rewrite (int_of_string_digit_first "0" _ eq_refl).
      change (String "0" (zeros k ++ String c s))
        with (zeros (S k) ++ String c s).
      rewrite (scan_zeros (S k) c s false Hc), Hv. reflexivity.
Qed.

Lemma zfill_numeral (width : nat) (s : string) :
  is_numeral s = true ->
  zfill width s = zeros (width - String.length s) ++ s.
Proof.
  unfold is_numeral. intros H. apply andb_true_iff in H as [Hne Hall].
  destruct s as [| c s]; [discriminate |].
  cbn [all_digits] in Hall. apply andb_true_iff in Hall as [Hc _].
  destruct (is_digit_facts c Hc) as (_ & _ & Hp & Hm & _).
  unfold zfill. destruct (Nat.leb_spec width (String.length (String c s)))
    as [H | H].
  - replace (width - _)%nat with 0%nat by lia. reflexivity.
  - now rewrite Hp, Hm.
Qed.

Lemma substring_skip (a r : string) (n m : nat) :
  substring (String.length a + n) m (a ++ r) = substring n m r.
Proof.
  induction a as [| c a IH]; [reflexivity |].
  rewrite str_app_cons. exact IH.
Qed.

Lemma substring_take (b r : string) :
  substring 0 (String.length b) (b ++ r) = b.
Proof.
  induction b as [| c b IH]; [now destruct r |].
  rewrite str_app_cons. cbn [String.length substring]. now rewrite IH.
Qed.

(** A property of the integers from 0 to 99 that holds of each of them. *)
Lemma below_100 (P : Z -> bool) :
  forallb P (map Z.of_nat (seq 0 100)) = true ->
  forall z, (0 <= z < 100)%Z -> P z = true.
Proof.
  intros H z Hz. rewrite forallb_forall in H. apply H.
  apply in_map_iff. exists (Z.to_nat z). split; [lia |].
  apply in_seq. lia.
Qed.

Lemma zfill_step (stepi : Z) :
  (0 <= stepi < 100)%Z ->
  String.length (zfill 2 (str_of_int stepi)) = 2%nat
  /\ int_of_string 10 (zfill 2 (str_of_int stepi)) = Ok stepi.
Proof.
  intros Hz.
  pose proof (below_100
                (fun z =>
                   (String.length (zfill 2 (str_of_int z)) =? 2)%nat
                   && match int_of_string 10 (zfill 2 (str_of_int z)) with
                      | Ok v => (v =? z)%Z
                      | Err _ => false
                      end)
                ltac:(vm_compute; reflexivity) stepi Hz) as H.
  cbv beta in H. apply andb_true_iff in H as [Hlen Hint].
  split; [now apply Nat.eqb_eq |].
  destruct (int_of_string 10 (zfill 2 (str_of_int stepi))) as [v | e];
    [| discriminate].
  apply Z.eqb_eq in Hint. now subst.
Qed.

(** X2.  The three values can be read back from the name at fixed
    places.  For [emin] and [emax] numerals of at most five digits and
    [stepi] from 0 to 99, the name has 22 characters; [int] of the
    characters 4 to 8 is [int(emin)], [int] of the characters 14 to 18
    is [int(emax)], and [int] of the characters 20 and 21 is [stepi].
    So two names are the same only when the three numbers are. *)
Theorem getMapNamePrefix_reads_back (emin emax : string) (stepi : Z) :
  is_numeral emin = true -> (String.length emin <= 5)%nat ->
  is_numeral emax = true -> (String.length emax <= 5)%nat ->
  (0 <= stepi < 100)%Z ->
  let name := getMapNamePrefix emin emax stepi in
  exists x y,
    int_of_string 10 emin = Ok x
    /\ int_of_string 10 emax = Ok y
    /\ String.length name = 22%nat
    /\ int_of_string 10 (substring 4 5 name) = Ok x
    /\ int_of_string 10 (substring 14 5 name) = Ok y
    /\ int_of_string 10 (substring 20 2 name) = Ok stepi.
Proof.
  intros Hmin Hlmin Hmax Hlmax Hstep name.
  destruct (int_of_string_zeros (5 - String.length emin) emin Hmin)
    as (x & Hx & Hx').
  destruct (int_of_string_zeros (5 - String.length emax) emax Hmax)
    as (y & Hy & Hy').
  destruct (zfill_step stepi Hstep) as [Hlen Hint].
  rewrite <- (zfill_numeral 5 emin Hmin) in Hx'.
  rewrite <- (zfill_numeral 5 emax Hmax) in Hy'.
  assert (String.length (zfill 5 emin) = 5%nat) as Ha
    by (rewrite zfill_length; lia).
  assert (String.length (zfill 5 emax) = 5%nat) as Hb
    by (rewrite zfill_length; lia).
  exists x, y. split; [exact Hx |]. split; [exact Hy |].
  subst name. unfold getMapNamePrefix.
  set (a := zfill 5 emin) in *. set (b := zfill 5 emax) in *.
  set (c := zfill 2 (str_of_int stepi)) in *.
  split; [rewrite !str_length_app, Ha, Hb, Hlen; reflexivity |].
  split; [| split].
  - change (substring 4 5 ("EMIN" ++ a ++ "_EMAX" ++ b ++ "_" ++ c))
      with (substring 0 5 (a ++ "_EMAX" ++ b ++ "_" ++ c)).
    rewrite <- Ha at 1. now rewrite substring_take.
  - change (substring 14 5 ("EMIN" ++ a ++ "_EMAX" ++ b ++ "_" ++ c))
      with (substring 10 5 (a ++ "_EMAX" ++ b ++ "_" ++ c)).
    change 10%nat with (5 + 5)%nat. rewrite <- Ha at 1.
    rewrite substring_skip.
    change (substring 5 5 ("_EMAX" ++ b ++ "_" ++ c))
      with (substring 0 5 (b ++ "_" ++ c)).
    rewrite <- Hb at 1. now rewrite substring_take.
  - change (substring 20 2 ("EMIN" ++ a ++ "_EMAX" ++ b ++ "_" ++ c))
      with (substring 16 2 (a ++ "_EMAX" ++ b ++ "_" ++ c)).
    change 16%nat with (5 + 11)%nat. rewrite <- Ha at 1.
    rewrite substring_skip.
    change (substring 11 2 ("_EMAX" ++ b ++ "_" ++ c))
      with (substring 6 2 (b ++ "_" ++ c)).
    change 6%nat with (5 + 1)%nat. rewrite <- Hb at 1.
    rewrite substring_skip.
    change (substring 1 2 ("_" ++ c)) with (substring 0 2 c).
    rewrite <- (str_app_nil_r c) at 1. rewrite <- Hlen at 1.
    now rewrite substring_take.
Qed.

Lemma getMapNamePrefix_reads_back_witness :
  getMapNamePrefix "100" "300" 1 = "EMIN00100_EMAX00300_01"
  /\ exists x y,
       int_of_string 10 "100" = Ok x
       /\ int_of_string 10 "300" = Ok y
       /\ String.length (getMapNamePrefix "100" "300" 1) = 22%nat
       /\ int_of_string 10 (substring 4 5 (getMapNamePrefix "100" "300" 1))
          = Ok x
       /\ int_of_string 10 (substring 14 5 (getMapNamePrefix "100" "300" 1))
          = Ok y
       /\ int_of_string 10 (substring 20 2 (getMapNamePrefix "100" "300" 1))
          = Ok 1%Z.
Proof.
  split; [reflexivity |].
  apply (getMapNamePrefix_reads_back "100" "300" 1);
    [reflexivity | cbn; lia | reflexivity | cbn; lia | lia].
Defined.

(** ** The log files of an interval *)

Section Logs.
Context {DC : Dataclasses}.
Import AGEng Props.

Lemma log_file_of_entry (tmin tmax : float) (line : string) (e : entry) :
  reads_as line e ->
  log_file_of tmin tmax (strip line)
  = Ok (if meets tmin tmax e then Some (path e) else None).
Proof.
  intros (t1 & t2 & more & Hsplit & H1 & H2).
  unfold log_file_of. rewrite Hsplit. cbn [index nth_error bind py_float].
  now rewrite H1, H2.
Qed.

Lemma logs_loop_entries (tmin tmax : float) (lines : list string)
  (entries : list entry) :
  Forall2 reads_as lines entries ->
  logs_loop tmin tmax (map strip lines)
  = Ok (map path (filter (fun e => meets tmin tmax e = true) entries)).
Proof.
  induction 1 as [| line e lines entries He _ IH]; [reflexivity |].
  cbn [map logs_loop]. rewrite (log_file_of_entry tmin tmax line e He), IH.
  cbn [bind]. rewrite filter_cons.
  destruct (meets tmin tmax e);
    [now rewrite decide_True | now rewrite decide_False].
Qed.

(** X3.  On an index whose lines read as entries, one entry a line,
    [_getLogsFileInInterval] returns the paths of the entries whose
    interval meets the one asked for, ends included, in the order of
    the index; what follows the third piece of a line is ignored. *)
Theorem getLogsFileInInterval_selects (text : string) (tmin tmax : float)
  (entries : list entry) :
  Forall2 reads_as (readlines text) entries ->
  snd (_getLogsFileInInterval text tmin tmax)
  = Ok (map path (filter (fun e => meets tmin tmax e = true) entries)).
Proof.
  intros H. unfold _getLogsFileInInterval. cbn [snd].
  now apply logs_loop_entries.
Qed.

Lemma lstrip_all_space (s : string) : all_space s = true -> lstrip s = "".
Proof.
  induction s as [| c s IH]; [reflexivity |].
  cbn [all_space lstrip]. intros H. apply andb_true_iff in H as [Hc Hs].
  rewrite Hc. now apply IH.
Qed.

Lemma logs_loop_good (tmin tmax : float) (good rest : list string) (e : exn) :
  Forall well_formed good ->
  logs_loop tmin tmax (map strip rest) = Err e ->
  logs_loop tmin tmax (map strip (good ++ rest)) = Err e.
Proof.
  intros Hgood Hrest. induction Hgood as [| line good [en Hen] _ IH];
    [exact Hrest |].
  cbn [app map logs_loop].
  rewrite (log_file_of_entry tmin tmax line en Hen), IH. reflexivity.
Qed.

(** X4.  Every line of the index is read, whatever the interval: after
    lines that read as entries, a line with fewer than three pieces
    makes the call raise.  The exception is [IndexError], or
    [ValueError] when the line has two pieces and the second is no
    numeral; it is [IndexError] for a line of blanks, such as an empty
    line at the end of the file. *)
Theorem getLogsFileInInterval_short_line (text : string) (tmin tmax : float)
  (good rest : list string) (bad : string) :
  readlines text = (good ++ bad :: rest)%list ->
  Forall well_formed good ->
  (List.length (split_char " " (strip bad)) < 3)%nat ->
  exists e,
    snd (_getLogsFileInInterval text tmin tmax) = Err e
    /\ (e = IndexError \/ e = ValueError)
    /\ (all_space bad = true -> e = IndexError).
Proof.
  intros Hlines Hgood Hshort. unfold _getLogsFileInInterval. cbn [snd].
  rewrite Hlines.
  assert (exists e,
             log_file_of tmin tmax (strip bad) = Err e
             /\ (e = IndexError \/ e = ValueError)
             /\ (all_space bad = true -> e = IndexError))
    as (e & He & Hkind & Hblank).
  { unfold log_file_of.
    assert (all_space bad = true -> strip bad = "") as Hstrip
      by (intros Hsp; unfold strip; now rewrite (lstrip_all_space bad Hsp)).
    destruct (split_char " " (strip bad)) as [| p [| t1 [| t2 more]]] eqn:Hs;
      cbn [List.length] in Hshort; try lia.
    - exists IndexError. repeat split; auto.
    - exists IndexError. repeat split; auto.
    - cbn [index nth_error bind py_float].
      destruct (float_of_string t1) as [f |].
      + exists IndexError. repeat split; auto.
      + exists ValueError. split; [reflexivity |]. split; [now right |].
        intros Hsp. rewrite (Hstrip Hsp) in Hs. discriminate Hs. }
  exists e. split; [| split; assumption].
  apply logs_loop_good; [exact Hgood |].
  cbn [map logs_loop]. now rewrite He.
Qed.

End Logs.

Lemma getLogsFileInInterval_selects_witness :
  snd (@AGEng._getLogsFileInInterval Sample.dataclasses
         SampleFiles.log_index 250%float 350%float)
  = Ok ["/logs/b.log.gz"; "/logs/c.log.gz"].
Proof.
  rewrite (@getLogsFileInInterval_selects Sample.dataclasses
             SampleFiles.log_index 250%float 350%float
             SampleFiles.log_entries); [reflexivity |].
  repeat constructor; eexists _, _, _; (split; [reflexivity |]);
    split; reflexivity.
Defined.

Lemma getLogsFileInInterval_short_line_witness :
  exists e,
    snd (@AGEng._getLogsFileInInterval Sample.dataclasses
           (unlines ["/logs/a.log.gz 100 200"; ""; "/logs/c.log.gz 300 400"])
           0%float 50%float)
    = Err e
    /\ (e = IndexError \/ e = ValueError)
    /\ (all_space (String newline "") = true -> e = IndexError).
Proof.
  apply (@getLogsFileInInterval_short_line Sample.dataclasses
           (unlines ["/logs/a.log.gz 100 200"; ""; "/logs/c.log.gz 300 400"])
           0%float 50%float
           [("/logs/a.log.gz 100 200" ++ String newline "")%string]
           [("/logs/c.log.gz 300 400" ++ String newline "")%string]
           (String newline ""));
    [reflexivity | | vm_compute; lia].
  repeat constructor.
  exists {| Props.path := "/logs/a.log.gz";
            Props.first := 100%float; Props.last := 200%float |}.
  eexists _, _, _. split; [reflexivity |]. split; reflexivity.
Defined.

(** ** More on the energy bins *)

(** X5.  [checkEnergyBin] returns [True] only for a bin of two elements
    that [int] converts to numbers [x < y], from 30 to 50000; a bin
    whose elements are converted and that has not two of them is
    answered with [False], not with an exception. *)
Theorem checkEnergyBin_accepts_intervals (energyBin : list pyval) :
  (fst (Parameters.checkEnergyBin Parameters.Parameters energyBin) = Ok true ->
   exists x y,
     mapM py_int energyBin = Ok [x; y] /\ (30 <= x < y)%Z /\ (y <= 50000)%Z)
  /\ (forall ints,
        mapM py_int energyBin = Ok ints ->
        List.length ints <> 2%nat ->
        fst (Parameters.checkEnergyBin Parameters.Parameters energyBin)
        = Ok false).
Proof.
  assert (Forall (fun b => exists x y : Z,
                      b = [x; y] /\ (30 <= x < y)%Z /\ (y <= 50000)%Z)
                 (Parameters.energybins Parameters.Parameters)) as Htable.
  { cbn. repeat (constructor; [eexists _, _; split; [reflexivity | lia] |]).
    constructor. }
  rewrite Forall_forall in Htable.
  unfold Parameters.checkEnergyBin.
  destruct (mapM py_int energyBin) as [ints | e]; cbn [fst].
  - destruct (Parameters.py_in_table ints _) eqn:Hin; cbn [fst].
    + apply py_in_table_In, list_elem_of_In in Hin.
      destruct (Htable ints Hin) as (x & y & -> & Hxy).
      split; [intros _; now exists x, y |].
      intros ints' [= <-] Hlen. now destruct Hlen.
    + split; [discriminate | reflexivity].
  - split; [discriminate |]. intros ints H. discriminate H.
Qed.

Lemma checkEnergyBin_accepts_intervals_witness :
  exists x y,
    mapM py_int [PyStr "100"; PyInt 300] = Ok [x; y]
    /\ (30 <= x < y)%Z /\ (y <= 50000)%Z.
Proof.
  apply (proj1 (checkEnergyBin_accepts_intervals [PyStr "100"; PyInt 300])).
  reflexivity.
Defined.

(** ** More on the packed flags *)

Section FixFlagMore.
Context {DC : Dataclasses}.

(** X6.  A flag of Flux that is an integer other than 0 makes
    [_computeFixFlag] raise: the digits are added to one another as
    strings, and an integer cannot be added to them. *)
Theorem computeFixFlag_int_flux_raises (source : Source.t) (z : Z) :
  getFreeAttributeValueOf (Source.spectrum source) "name" "Flux"
  = Ok (PyInt z) ->
  z <> 0%Z ->
  exists e, _computeFixFlag source = Err e.
Proof.
  intros Hflux Hz.
  destruct (_computeFixFlag source) as [r | e] eqn:Hr; [| now exists e].
  destruct (computeFixFlag_returns source r Hr) as (flux & Hflux' & H).
  rewrite Hflux in Hflux'. injection Hflux' as <-.
  destruct H as [[Hzero _] | [[s Hs] _]]; [| discriminate].
  cbn in Hzero. apply Z.eqb_eq in Hzero. contradiction.
Qed.

(** X7.  On flags that are digits, with Flux free, the bitmask is the
    numeral of a number from 1 to 255 that [int] reads back, and each
    flag is a bit of it: Flux bit 0, the spatial model bit 1, Index1
    bit 2, Index bit 3, PivotEnergy bit 4, CutoffEnergy bit 5, Index2
    bit 6 and Curvature bit 7. *)
Theorem computeFixFlag_bits (source : Source.t)
  (curvature index2 cutoff pivot index index1 spatial : bool) :
  let free := getFreeAttributeValueOf (Source.spectrum source) "name" in
  free "Flux" = Ok (digit true) ->
  free "Curvature" = Ok (digit curvature) ->
  free "Index2" = Ok (digit index2) ->
  free "CutoffEnergy" = Ok (digit cutoff) ->
  free "PivotEnergy" = Ok (digit pivot) ->
  free "Index" = Ok (digit index) ->
  free "Index1" = Ok (digit index1) ->
  SpatialModel.free (Source.spatialModel source) = digit spatial ->
  exists r v,
    _computeFixFlag source = Ok r
    /\ int_of_string 10 r = Ok v
    /\ (1 <= v <= 255)%Z
    /\ Z.testbit v 0 = true
    /\ Z.testbit v 1 = spatial
    /\ Z.testbit v 2 = index1
    /\ Z.testbit v 3 = index
    /\ Z.testbit v 4 = pivot
    /\ Z.testbit v 5 = cutoff
    /\ Z.testbit v 6 = index2
    /\ Z.testbit v 7 = curvature.
Proof.
  intros free H1 H2 H3 H4 H5 H6 H7 H8.
  exists (str_of_int
            (bits_value [curvature; index2; cutoff; pivot; index; index1;
                         spatial; true])),
         (bits_value [curvature; index2; cutoff; pivot; index; index1;
                      spatial; true]).
  split; [now apply computeFixFlag_digits |].
  destruct curvature, index2, cutoff, pivot, index, index1, spatial;
    vm_compute; (split; [reflexivity |]);
    (split; [split; discriminate |]);
    repeat split.
Qed.

End FixFlagMore.

Lemma computeFixFlag_int_flux_raises_witness :
  exists e, @_computeFixFlag Sample.dataclasses (Sample.crab (PyInt 1)) = Err e.
Proof.
  apply (@computeFixFlag_int_flux_raises Sample.dataclasses
           (Sample.crab (PyInt 1)) 1%Z); [reflexivity | discriminate].
Defined.

Lemma computeFixFlag_bits_witness :
  exists r v,
    @_computeFixFlag Sample.dataclasses (Sample.vela (PyStr "1") None) = Ok r
    /\ int_of_string 10 r = Ok v
    /\ (1 <= v <= 255)%Z
    /\ Z.testbit v 0 = true
    /\ Z.testbit v 1 = true
    /\ Z.testbit v 2 = false
    /\ Z.testbit v 3 = true
    /\ Z.testbit v 4 = false
    /\ Z.testbit v 5 = false
    /\ Z.testbit v 6 = false
    /\ Z.testbit v 7 = false.
Proof.
  apply (@computeFixFlag_bits Sample.dataclasses
           (Sample.vela (PyStr "1") None)
           false false false false true false true); reflexivity.
Defined.

(** ** More on the selection parameters *)

Section Validate.
Context {DC : Dataclasses}.

Lemma filter_negb_length {A} (p : A -> bool) (l : list A) :
  (List.length (filter (fun x => negb (p x)) l)
   + List.length (filter (fun x => p x) l))%nat
  = List.length l.
Proof.
  induction l as [| x l IH]; [reflexivity |].
  rewrite !filter_cons. destruct (p x); cbn [negb].
  - rewrite decide_False by (cbn; tauto). rewrite decide_True by exact I.
    cbn [List.length]. lia.
  - rewrite decide_True by exact I. rewrite decide_False by (cbn; tauto).
    cbn [List.length]. lia.
Qed.

Lemma filter_negb_filter {A} (p : A -> bool) (l : list A) :
  filter (fun x => negb (p x)) (filter (fun x => p x) l) = [].
Proof.
  induction l as [| x l IH]; [reflexivity |].
  rewrite filter_cons. destruct (p x) eqn:Hp.
  - rewrite decide_True by exact I. rewrite filter_cons, Hp.
    now rewrite decide_False by (cbn; tauto).
  - now rewrite decide_False by (cbn; tauto).
Qed.

Lemma filter_idem {A} (p : A -> bool) (l : list A) :
  filter (fun x => p x) (filter (fun x => p x) l) = filter (fun x => p x) l.
Proof.
  induction l as [| x l IH]; [reflexivity |].
  rewrite filter_cons. destruct (p x) eqn:Hp.
  - rewrite decide_True by exact I. rewrite filter_cons, Hp.
    rewrite decide_True by exact I. now rewrite IH.
  - now rewrite decide_False by (cbn; tauto).
Qed.

(** X8.  [_validateSelectionParams] sorts the declared parameters in
    two: every one of them is either kept or warned about, once; the
    kept ones come in the order of the declaration; and validating the
    kept ones again keeps them all and warns about nothing. *)
Theorem validateSelectionParams_partition (st : State)
  (userSelectionParams : list string) :
  let '(warnings, validated) :=
    _validateSelectionParams st userSelectionParams in
  (List.length warnings + List.length validated)%nat
  = List.length userSelectionParams
  /\ sublist validated userSelectionParams
  /\ Forall (fun p => str_in p (getSelectionParams st false) = true) validated
  /\ _validateSelectionParams st validated = ([], validated).
Proof.
  unfold _validateSelectionParams.
  split; [rewrite length_map; apply filter_negb_length |].
  split; [apply sublist_filter |]. split.
  - apply Forall_forall. intros p Hp.
    apply list_elem_of_filter in Hp as [Hp _].
    now destruct (str_in p (getSelectionParams st false)).
  - now rewrite filter_negb_filter, filter_idem.
Qed.

End Validate.

(** ** More on the text format *)

Section EncoderMore.
Context {DC : Dataclasses}.
Import Props.

Ltac step_goal :=
  match goal with
  | |- context [bind ?m _] =>
      lazymatch m with
      | bind _ _ => fail
      | Ok _ => fail
      | Err _ => fail
      | _ => destruct m; cbn [bind]; try reflexivity
      end
  end.

(** The fields of a source are appended to what is there. *)
Lemma append_source_acc (sourceStr : string) (source : Source.t) :
  append_source sourceStr source
  = let* line := append_source "" source in Ok (sourceStr ++ line).
Proof.
  unfold append_source.
  destruct (String.eqb (Spectrum.type (Source.spectrum source)) "PowerLaw"),
    (String.eqb (Spectrum.type (Source.spectrum source)) "PLExpCutoff"),
    (String.eqb (Spectrum.type (Source.spectrum source)) "PLSuperExpCutoff");
    cbn [bind]; repeat step_goal; strnorm; reflexivity.
Qed.

Lemma append_sources_concat (st : State) (l : list ref) :
  forall sourceStr text,
    append_sources st sourceStr l = Ok text
    <-> exists lines,
          Forall2 (encodes_to st) l lines
          /\ text = sourceStr ++ concat_lines lines.
Proof.
  induction l as [| r l IH]; intros acc text; cbn [append_sources].
  - split.
    + intros [= <-]. exists []. split; [constructor |].
      cbn. now rewrite str_app_nil_r.
    + intros (lines & HF & ->). inversion HF; subst.
      cbn. now rewrite str_app_nil_r.
  - unfold deref. destruct (objs st !! r) as [s |] eqn:Hr; cbn [bind].
    + rewrite append_source_acc.
      destruct (append_source "" s) as [line | e] eqn:Hline; cbn [bind].
      * rewrite IH. split.
        -- intros (lines & HF & ->). exists (line :: lines).
           split; [constructor; [now exists s | exact HF] |].
           cbn [concat_lines fold_right]. now rewrite str_app_assoc.
        -- intros (lines & HF & ->).
           inversion HF as [| ? line' ? lines' (s' & Hs' & Hl') HF']; subst.
           rewrite Hr in Hs'. injection Hs' as <-.
           rewrite Hline in Hl'. injection Hl' as <-.
           exists lines'. split; [exact HF' |].
           cbn [concat_lines fold_right]. now rewrite str_app_assoc.
      * split; [discriminate |]. intros (lines & HF & _).
        inversion HF as [| ? line' ? lines' (s' & Hs' & Hl') HF']; subst.
        rewrite Hr in Hs'. injection Hs' as <-. congruence.
    + split; [discriminate |]. intros (lines & HF & _).
      inversion HF as [| ? line' ? lines' (s' & Hs' & Hl') HF']; subst.
      congruence.
Qed.

(** X9.  [_convertToAgileFormat] returns a text exactly when every
    source of the catalog encodes to a line on its own, and the text is
    then these lines, one after the other, in the order of the catalog:
    the line of a source does not depend on the sources around it, and
    one source that fails leaves no text at all. *)
Theorem convertToAgileFormat_concat (st : State) (text : string) :
  _convertToAgileFormat st = Ok text
  <-> exists lines,
        Forall2 (encodes_to st) (sources st) lines
        /\ text = concat_lines lines.
Proof.
  unfold _convertToAgileFormat. rewrite append_sources_concat.
  split; intros (lines & HF & ->); exists lines; (split; [exact HF |]);
    now rewrite str_app_nil_l.
Qed.




End EncoderMore.


(** ** The catalog across the calls *)

Section CatalogMore.
Context {DC : Dataclasses}.
Import Props.

(** What [deleteSources] leaves, when the selection returns. *)
Lemma deleteSources_sources (st : State) (lam : Lambda) (log : list event)
  (found : list ref) :
  eq_respects_selection st ->
  selectSourcesWithLambda st lam = (log, Ok found) ->
  deleteSources st lam
  = (log, Ok found,
     set_sources (filter (fun r => r ∉ found) (sources st)) st).
Proof.
  intros Heq Hsel. pose proof (select_calls_and_result st lam) as H.
  cbv zeta in H. unfold deleteSources. rewrite Hsel in *.
  destruct H as (_ & Hfound). destruct (Hfound found eq_refl) as (Hf & _ & _).
  f_equal. f_equal. apply filter_ext_in. intros r Hr.
  apply list_elem_of_In in Hr.
  rewrite <- (source_in_found st _ lam found r Heq Hf Hr).
  destruct (source_in st r found); cbn; split; try tauto; congruence.
Qed.

Lemma fold_alter_is_Some (f : Source.t -> Source.t) (l : list ref)
  (m : gmap ref Source.t) (r : ref) :
  is_Some (fold_left (fun o s => alter f s o) l m !! r) <-> is_Some (m !! r).
Proof.
  revert m. induction l as [| x l IH]; intros m; [reflexivity |].
  cbn [fold_left]. rewrite IH, lookup_alter.
  destruct (decide (x = r)) as [<- | _]; [| reflexivity].
  apply fmap_is_Some.
Qed.

(** The loop of [updateMulti] keeps the list of the catalog, and the
    references that name a source, also when it raises. *)
Lemma updateMulti_loop_frame (data : ref) (mapL mapB : float)
  (found : list ref) :
  forall st,
    let '(log, res, st') := updateMulti_loop st data mapL mapB found in
    sources st' = sources st
    /\ forall r, is_Some (objs st' !! r) <-> is_Some (objs st !! r).
Proof.
  induction found as [| r0 rest IH]; intros st; cbn [updateMulti_loop].
  - split; [reflexivity | reflexivity].
  - unfold deref at 1. destruct (objs st !! r0) as [s0 |] eqn:Hr0.
    2: { split; reflexivity. }
    cbv zeta.
    set (s1 := Source.set_multi (Some data) s0).
    set (st1 := set_objs (<[r0 := s1]> (objs st)) st).
    assert (forall r, is_Some (objs st1 !! r) <-> is_Some (objs st !! r))
      as Hst1.
    { intros r. cbn. destruct (decide (r0 = r)) as [<- | Hne].
      - rewrite lookup_insert_eq, Hr0. split; eauto.
      - now rewrite lookup_insert_ne. }
    match goal with
    | |- context [match ?m with Ok _ => _ | Err _ => _ end] =>
        destruct m as [o | e]
    end.
    + set (st2 := set_fits (<[data := o]> (fits st1)) st1).
      specialize (IH st2).
      destruct (updateMulti_loop st2 data mapL mapB rest) as [[log res] st'].
      destruct IH as [Hs Ho]. split; [exact Hs |].
      intros r. rewrite Ho. apply Hst1.
    + split; [reflexivity | exact Hst1].
Qed.

(** X11.  The three calls that change the catalog keep it well formed,
    whether they return or raise: no source is listed twice and every
    reference of the list names a source, after [deleteSources], after
    [freeSources] and after [updateMulti], when that held before. *)
Theorem mutators_keep_catalog_wf (st : State) (lam : Lambda)
  (parameterName : string) (free : bool) (data : ref)
  (mapCenterL mapCenterB : float) :
  catalog_wf st ->
  catalog_wf (snd (deleteSources st lam))
  /\ catalog_wf (snd (freeSources st lam parameterName free))
  /\ catalog_wf (snd (updateMulti st data mapCenterL mapCenterB)).
Proof.
  intros [Hnd Hwf]. split; [| split].
  - unfold deleteSources.
    destruct (selectSourcesWithLambda st lam) as [log [found | e]];
      cbn [snd]; [| now split].
    split; cbn [sources objs set_sources].
    + now apply NoDup_filter.
    + apply Forall_forall. intros r Hr.
      apply list_elem_of_filter in Hr as [_ Hr].
      rewrite Forall_forall in Hwf. now apply Hwf.
  - unfold freeSources.
    destruct (selectSourcesWithLambda st lam) as [log [found | e]];
      cbn [snd]; [| now split].
    destruct (negb (str_in parameterName (getFreeParams st)));
      [destruct (module_binds "selectionParam"); now split |].
    cbn [snd]. split; cbn [sources objs set_objs]; [exact Hnd |].
    eapply Forall_impl; [exact Hwf |].
    intros r Hr. now apply fold_alter_is_Some.
  - unfold updateMulti.
    destruct (selectSourcesWithLambda st (label_lambda st data))
      as [log [found | e]]; cbn [snd]; [| now split].
    destruct (List.length found =? 0)%nat; [now split |].
    pose proof (updateMulti_loop_frame data mapCenterL mapCenterB found st)
      as Hloop.
    destruct (updateMulti_loop st data mapCenterL mapCenterB found)
      as [[log' res] st'].
    destruct Hloop as [Hs Ho]. cbn [snd]. split; rewrite Hs; [exact Hnd |].
    eapply Forall_impl; [exact Hwf |]. intros r Hr. now apply Ho.
Qed.

Lemma getSourcesNames_names (self : Instance.Self) (st : State) :
  Forall (fun r => is_Some (objs st !! r)) (sources st) ->
  Instance.sourcesLibrary self = Some st ->
  Instance.getSourcesNames self = Ok (names_of st).
Proof.
  intros Hwf Hself. unfold Instance.getSourcesNames, Instance.library_sources.
  rewrite Hself. cbn [bind]. unfold names_of.
  induction Hwf as [| r l [s Hr] _ IH]; [reflexivity |].
  cbn [mapM]. unfold deref at 1. rewrite Hr. cbn [bind].
  rewrite IH. cbn [bind]. unfold omap. cbn [list_omap]. now rewrite Hr.
Qed.

Lemma filter_none {A} (P : A -> Prop) `{!forall x, Decision (P x)}
  (l : list A) :
  (forall x, x ∈ l -> ~ P x) -> filter P l = [].
Proof.
  induction l as [| x l IH]; intros Hall; [reflexivity |].
  rewrite filter_cons.
  rewrite decide_False by (apply Hall; apply list_elem_of_here).
  apply IH. intros y Hy. apply Hall. now apply list_elem_of_further.
Qed.

Lemma filter_all {A} (P : A -> Prop) `{!forall x, Decision (P x)}
  (l : list A) :
  (forall x, x ∈ l -> P x) -> filter P l = l.
Proof.
  induction l as [| x l IH]; intros Hall; [reflexivity |].
  rewrite filter_cons.
  rewrite decide_True by (apply Hall; apply list_elem_of_here).
  f_equal. apply IH. intros y Hy. apply Hall. now apply list_elem_of_further.
Qed.

(** X12.  After [deleteSources] with the lambda [Name == X], with
    [Name] in the registry, [getSourcesNames] returns the names it
    returned before without the occurrences of [X], in the same order,
    and [getSources] returns the sources that are not named [X]. *)
Theorem deleteSources_names (st : State) (X : string)
  (self self' : Instance.Self) :
  eq_respects_selection st ->
  str_in "Name" (getSelectionParams st false) = true ->
  str_in "Name" (getSelectionParams st true) = false ->
  Forall (fun r => is_Some (objs st !! r)) (sources st) ->
  Instance.sourcesLibrary self = Some st ->
  Instance.sourcesLibrary self' = Some (snd (deleteSources st (name_is X))) ->
  Instance.getSourcesNames self = Ok (names_of st)
  /\ Instance.getSourcesNames self'
     = Ok (filter (fun n => n <> X) (names_of st))
  /\ Instance.getSources self'
     = Ok (filter (fun r => source_named st X r = false) (sources st)).
Proof.
  intros Heq Hreg Hmulti Hwf Hself Hself'.
  split; [now apply getSourcesNames_names |].
  pose proof (select_name_is st X Hreg Hmulti Hwf) as Hsel.
  destruct (selectSourcesWithLambda st (name_is X)) as [log res] eqn:Hs.
  cbn [snd] in Hsel. subst res.
  rewrite (deleteSources_sources st (name_is X) log _ Heq Hs) in Hself'.
  cbn [snd] in Hself'.
  assert (filter (fun r => r ∉ filter (fun r => source_named st X r = true)
                                      (sources st)) (sources st)
          = filter (fun r => source_named st X r = false) (sources st))
    as Hfilter.
  { apply filter_ext_in. intros r Hr. apply list_elem_of_In in Hr.
    rewrite list_elem_of_filter.
    destruct (source_named st X r); split.
    - intros H. destruct H. now split.
    - discriminate.
    - reflexivity.
    - intros _ [H _]. discriminate H. }
  rewrite Hfilter in Hself'.
  set (st' := set_sources
                (filter (fun r => source_named st X r = false) (sources st))
                st) in *.
  split.
  - rewrite (getSourcesNames_names self' st').
    + f_equal. unfold names_of. cbn [sources objs st' set_sources].
      clear -Hwf. unfold omap.
      induction Hwf as [| r l [s Hr] _ IH]; [reflexivity |].
      assert (source_named st X r = String.eqb (Source.name s) X) as Hnamed
        by (unfold source_named; now rewrite Hr).
      rewrite filter_cons. cbn [list_omap]. rewrite Hr.
      cbn [fmap option_fmap option_map]. rewrite filter_cons.
      destruct (String.eqb_spec (Source.name s) X) as [E | E].
      * rewrite decide_False by (rewrite Hnamed; discriminate).
        rewrite decide_False by tauto. exact IH.
      * rewrite decide_True by exact Hnamed.
        rewrite decide_True by exact E.
        cbn [list_omap]. rewrite Hr. cbn [fmap option_fmap option_map].
        now rewrite IH.
    + cbn [sources objs st' set_sources]. apply Forall_forall.
      intros r Hr. apply list_elem_of_filter in Hr as [_ Hr].
      rewrite Forall_forall in Hwf. now apply Hwf.
    + exact Hself'.
  - unfold Instance.getSources, Instance.library_sources.
    now rewrite Hself'.
Qed.

(** The loop reads the state through the objects, the fit results and
    the registry only. *)
Lemma select_loop_state (st st' : State) (validated : list string)
  (lam : Lambda) (l : list ref) :
  objs st' = objs st ->
  fits st' = fits st ->
  getSelectionParams st' true = getSelectionParams st true ->
  select_loop st' validated lam l = select_loop st validated lam l.
Proof.
  intros Hobjs Hfits Hreg. induction l as [| r l IH]; [reflexivity |].
  cbn [select_loop]. rewrite Hobjs, IH. unfold _needMultiParams. rewrite Hreg.
  destruct (deref (objs st) r) as [source | e]; [| reflexivity].
  assert (selectionParamsValues st' source validated
          = selectionParamsValues st source validated) as ->; [| reflexivity].
  unfold selectionParamsValues. apply mapM_ext. intros p.
  unfold getattr. now rewrite Hfits.
Qed.

(** A loop that returns makes no call that raises: on a part of its
    list it returns as well. *)
Lemma select_loop_sub (st : State) (validated : list string) (lam : Lambda)
  (l : list ref) (found : list ref) :
  snd (select_loop st validated lam l) = Ok found ->
  forall l', (forall x, x ∈ l' -> x ∈ l) ->
    exists found', snd (select_loop st validated lam l') = Ok found'.
Proof.
  intros Hl l'. induction l' as [| r l' IH]; intros Hsub; [now exists [] |].
  destruct IH as [rest Hrest];
    [intros x Hx; apply Hsub; now apply list_elem_of_further |].
  assert (r ∈ l) as Hr by (apply Hsub; apply list_elem_of_here).
  clear Hsub. cbn [select_loop].
  revert found Hl. induction l as [| x l IHl]; intros found Hl;
    [now apply not_elem_of_nil in Hr |].
  cbn [select_loop] in Hl.
  apply elem_of_cons in Hr as [<- | Hr].
  - destruct (deref (objs st) r) as [source | e]; [| discriminate Hl].
    destruct (_ && _); [now exists rest |].
    destruct (selectionParamsValues st source validated) as [values | e];
      [| discriminate Hl].
    destruct (lam_call lam values) as [b | e]; [| discriminate Hl].
    destruct (select_loop st validated lam l') as [log' res'].
    cbn [snd] in *. subst res'. cbn [bind]. eauto.
  - destruct (deref (objs st) x) as [sx | e]; [| discriminate Hl].
    destruct (_ && _); [exact (IHl Hr found Hl) |].
    destruct (selectionParamsValues st sx validated) as [values | e];
      [| discriminate Hl].
    destruct (lam_call lam values) as [b | e]; [| discriminate Hl].
    destruct (select_loop st validated lam l) as [log0 [found0 | e]];
      [| discriminate Hl].
    exact (IHl Hr found0 eq_refl).
Qed.

Lemma set_sources_same (st : State) : set_sources (sources st) st = st.
Proof. now destruct st. Qed.

(** X13.  Deleting twice is deleting once, when the registry is a
    constant: after a [deleteSources] that returned, the same call
    returns the empty list and leaves the catalog as it is. *)
Theorem deleteSources_twice (st st' : State) (lam : Lambda)
  (log : list event) (found : list ref) :
  fixed_registry ->
  eq_respects_selection st ->
  deleteSources st lam = (log, Ok found, st') ->
  exists log', deleteSources st' lam = (log', Ok [], st').
Proof.
  intros Hfixed Heq Hdel.
  destruct (selectSourcesWithLambda st lam) as [log0 res0] eqn:Hsel.
  assert (res0 = Ok found /\ log0 = log) as [-> ->].
  { unfold deleteSources in Hdel. rewrite Hsel in Hdel.
    destruct res0; now inversion Hdel. }
  rewrite (deleteSources_sources st lam log found Heq Hsel) in Hdel.
  injection Hdel as <-.
  set (st' := set_sources (filter (fun r => r ∉ found) (sources st)) st).
  assert (exists log', selectSourcesWithLambda st' lam = (log', Ok []))
    as [log' Hsel'].
  { pose proof (select_calls_and_result st lam) as Hres. cbv zeta in Hres.
    rewrite Hsel in Hres. destruct Hres as (_ & Hres).
    destruct (Hres found eq_refl) as (Hfound & _ & _).
    unfold selectSourcesWithLambda in Hsel |- *.
    unfold _validateSelectionParams in *.
    rewrite (Hfixed st' st false).
    fold (validated_params st lam) in *.
    destruct (validated_params st lam) as [| p ps] eqn:Hv;
      cbn [List.length Nat.eqb] in *; [eauto |].
    rewrite (select_loop_state st st' (p :: ps) lam _ eq_refl eq_refl
               (Hfixed st' st true)).
    destruct (select_loop st (p :: ps) lam (sources st)) as [l0 r0] eqn:Hloop.
    injection Hsel as _ ->.
    assert (snd (select_loop st (p :: ps) lam (sources st)) = Ok found)
      as Hok by now rewrite Hloop.
    destruct (select_loop_sub st (p :: ps) lam (sources st) found Hok
                (sources st')) as [found' Hfound'].
    { intros x Hx. cbn in Hx. now apply list_elem_of_filter in Hx as [_ Hx]. }
    pose proof (select_loop_spec st (p :: ps) lam (sources st')) as Hspec.
    destruct (select_loop st (p :: ps) lam (sources st')) as [l1 r1].
    cbn [snd] in Hfound'. subst r1.
    destruct Hspec as (_ & _ & Hspec). specialize (Hspec found' eq_refl).
    assert (found' = []) as ->; [| eauto].
    rewrite Hspec. apply filter_none. intros x Hx Hselects.
    cbn in Hx. apply list_elem_of_filter in Hx as [Hnot Hx].
    apply Hnot. rewrite Hfound. now apply list_elem_of_filter. }
  exists log'. unfold deleteSources. rewrite Hsel'.
  f_equal. rewrite filter_all by (intros x _; exact I).
  apply set_sources_same.
Qed.

(** What [updateMulti] leaves, when the sources named as the fit result
    have a position and [float] converts its coordinates. *)
Lemma updateMulti_ok (st : State) (data : ref) (mapL mapB : float)
  (o : MultiOutput) (label : string) (l b sl sb : float) :
  str_in "Name" (getSelectionParams st false) = true ->
  str_in "Name" (getSelectionParams st true) = false ->
  Forall (fun r => is_Some (objs st !! r)) (sources st) ->
  fits st !! data = Some o ->
  o !! "label" = Some (AStr label) ->
  let matching :=
    filter (fun r => source_named st label r = true) (sources st) in
  matching <> [] ->
  Forall (fun r => exists s, objs st !! r = Some s /\ has_position s)
         matching ->
  attr_float o "L" = Ok l ->
  attr_float o "B" = Ok b ->
  (PrimFloat.eqb l (-1)%float = true -> attr_float o "start_l" = Ok sl) ->
  (PrimFloat.eqb b (-1)%float = true -> attr_float o "start_b" = Ok sb) ->
  exists log st',
    updateMulti st data mapL mapB = (log, Ok tt, st')
    /\ fits st'
       = <[data := <["Dist" := AFloat
                       (Astro_distance (resolved l sl) (resolved b sb)
                                       mapL mapB)]> o]>
           (fits st)
    /\ sources st' = sources st
    /\ forall r,
         objs st' !! r
         = if bool_decide (r ∈ matching)
           then Source.set_multi (Some data) <$> objs st !! r
           else objs st !! r.
Proof.
  intros Hreg Hmulti Hwf Hdata Hlabel matching Hne Hpos HL HB Hsl Hsb.
  unfold updateMulti.
  rewrite (label_lambda_name_is st data o label Hdata Hlabel).
  pose proof (select_name_is st label Hreg Hmulti Hwf) as Hsel.
  fold matching in Hsel.
  destruct (selectSourcesWithLambda st (name_is label)) as [log res].
  cbn [snd] in Hsel. subst res. clearbody matching.
  destruct matching as [| r0 rest]; [congruence |].
  cbn [List.length Nat.eqb].
  pose proof (updateMulti_loop_ok data mapL mapB o l b sl sb
                HL HB Hsl Hsb (r0 :: rest) st o Hdata
                (or_introl eq_refl) Hpos) as Hloop.
  destruct (updateMulti_loop st data mapL mapB (r0 :: rest))
    as [[log' res] st'].
  destruct Hloop as (-> & Hfits & Hsources & Hobjs).
  exists (log ++ log')%list, st'. repeat split; assumption.
Qed.

End CatalogMore.
Section UpdateMore.
Context {DC : Dataclasses}.
Import Props.

(** The selection by [Dist], after the fit result has been attached to
    the sources of [matching]. *)
Lemma select_loop_dist (st st' : State) (data : ref) (o' : MultiOutput)
  (d : float) (lam : Lambda) (answer : bool) (matching : list ref) :
  str_in "Dist" (getSelectionParams st' true) = true ->
  fits st' !! data = Some o' ->
  o' !! "Dist" = Some (AFloat d) ->
  lam_call lam [inr d] = Ok answer ->
  (forall r,
      objs st' !! r
      = if bool_decide (r ∈ matching)
        then Source.set_multi (Some data) <$> objs st !! r
        else objs st !! r) ->
  forall l,
    Forall (fun r => exists s, objs st !! r = Some s
                               /\ Source.multi s = None) l ->
    snd (select_loop st' ["Dist"] lam l)
    = Ok (if answer then filter (fun r => r ∈ matching) l else []).
Proof.
  intros Hdist Hfits HDist Hcall Hobjs l.
  induction 1 as [| r l (s & Hr & Hm) _ IH]; [now destruct answer |].
  cbn [select_loop]. unfold deref at 1. rewrite Hobjs, Hr.
  unfold _needMultiParams. cbn [existsb]. rewrite Hdist. cbn [orb andb].
  rewrite filter_cons.
  destruct (bool_decide (r ∈ matching)) eqn:Hin.
  - apply bool_decide_eq_true in Hin.
    cbn [fmap option_fmap option_map Source.multi Source.set_multi].
    rewrite bool_decide_eq_true_2 by eauto. cbn [negb].
    cbn [selectionParamsValues mapM String.eqb Ascii.eqb Bool.eqb
         Source.multi Source.set_multi].
    unfold getattr, deref. rewrite Hfits. cbn [bind]. rewrite HDist.
    cbn [bind py_float]. rewrite Hcall.
    destruct (select_loop st' ["Dist"] lam l) as [log res].
    cbn [snd] in *. subst res. cbn [bind].
    rewrite decide_True by exact Hin. now destruct answer.
  - apply bool_decide_eq_false in Hin. rewrite Hm.
    rewrite bool_decide_eq_false_2 by (intros [? ?]; discriminate).
    cbn [negb]. rewrite IH. now rewrite decide_False by exact Hin.
Qed.

Lemma filter_elem_of_filter {A} (P : A -> Prop)
  `{!forall x, Decision (P x)} `{!EqDecision A} (l : list A) :
  filter (fun r => r ∈ filter P l) l = filter P l.
Proof.
  apply filter_ext_in. intros r Hr. apply list_elem_of_In in Hr.
  rewrite list_elem_of_filter. tauto.
Qed.

(** X14.  After [updateMulti] the fit result can be selected on: with
    [Dist] in the registry, among the parameters that need a fit
    result, and a catalog that carried no fit result before, a lambda
    of the one parameter [Dist] is called with the distance that
    [updateMulti] stored, and it selects the sources named as the fit
    result when it holds of that distance, and none otherwise. *)
Theorem updateMulti_then_select_by_dist (st : State) (data : ref)
  (mapCenterL mapCenterB : float) (o : MultiOutput) (label : string)
  (l b sl sb : float) (lam : Lambda) (answer : bool) :
  fixed_registry ->
  str_in "Name" (getSelectionParams st false) = true ->
  str_in "Name" (getSelectionParams st true) = false ->
  str_in "Dist" (getSelectionParams st false) = true ->
  str_in "Dist" (getSelectionParams st true) = true ->
  Forall (fun r => is_Some (objs st !! r)) (sources st) ->
  no_fit_result st ->
  fits st !! data = Some o ->
  o !! "label" = Some (AStr label) ->
  let matching :=
    filter (fun r => source_named st label r = true) (sources st) in
  matching <> [] ->
  Forall (fun r => exists s, objs st !! r = Some s /\ has_position s)
         matching ->
  attr_float o "L" = Ok l ->
  attr_float o "B" = Ok b ->
  (PrimFloat.eqb l (-1)%float = true -> attr_float o "start_l" = Ok sl) ->
  (PrimFloat.eqb b (-1)%float = true -> attr_float o "start_b" = Ok sb) ->
  on_dist lam ->
  lam_call lam [inr (Astro_distance (resolved l sl) (resolved b sb)
                                    mapCenterL mapCenterB)]
  = Ok answer ->
  let '(log, res, st') := updateMulti st data mapCenterL mapCenterB in
  res = Ok tt
  /\ snd (selectSourcesWithLambda st' lam)
     = Ok (if answer then matching else []).
Proof.
  intros Hfixed Hreg Hmulti HregD HmultiD Hwf Hnofit Hdata Hlabel matching
    Hne Hpos HL HB Hsl Hsb Hon Hcall.
  destruct (updateMulti_ok st data mapCenterL mapCenterB o label l b sl sb
              Hreg Hmulti Hwf Hdata Hlabel Hne Hpos HL HB Hsl Hsb)
    as (log & st' & -> & Hfits & Hsources & Hobjs).
  fold matching in Hobjs. split; [reflexivity |].
  unfold selectSourcesWithLambda, _validateSelectionParams.
  red in Hon. rewrite Hon, (Hfixed st' st false).
  rewrite !filter_cons, !filter_nil. rewrite HregD.
  rewrite decide_True by exact I.
  rewrite decide_False by (cbn; tauto).
  cbn [List.length Nat.eqb map app].
  set (d := Astro_distance (resolved l sl) (resolved b sb)
                           mapCenterL mapCenterB) in *.
  assert (Forall (fun r => exists s, objs st !! r = Some s
                                     /\ Source.multi s = None) (sources st))
    as Hnone.
  { unfold no_fit_result in Hnofit.
    rewrite Forall_forall in Hwf, Hnofit. apply Forall_forall.
    intros r Hr. destruct (Hwf r Hr) as [s Hs]. exists s.
    split; [exact Hs | exact (Hnofit r Hr s Hs)]. }
  pose proof (select_loop_dist st st' data (<["Dist" := AFloat d]> o) d lam
                answer matching) as Hloop.
  rewrite (Hfixed st' st true) in Hloop.
  specialize (Hloop HmultiD).
  rewrite Hfits, lookup_insert_eq in Hloop. specialize (Hloop eq_refl).
  rewrite lookup_insert_eq in Hloop.
  specialize (Hloop eq_refl Hcall Hobjs (sources st) Hnone).
  rewrite Hsources.
  destruct (select_loop st' ["Dist"] lam (sources st)) as [log' res'].
  cbn [snd] in *. rewrite Hloop.
  unfold matching. now rewrite filter_elem_of_filter.
Qed.

(** X15.  Updating twice with the same fit result is updating once,
    when the registry is a constant: the second [updateMulti] returns
    and leaves the catalog, the sources and the fit result as the first
    one left them. *)
Theorem updateMulti_twice (st : State) (data : ref)
  (mapCenterL mapCenterB : float) (o : MultiOutput) (label : string)
  (l b sl sb : float) :
  fixed_registry ->
  str_in "Name" (getSelectionParams st false) = true ->
  str_in "Name" (getSelectionParams st true) = false ->
  Forall (fun r => is_Some (objs st !! r)) (sources st) ->
  fits st !! data = Some o ->
  o !! "label" = Some (AStr label) ->
  let matching :=
    filter (fun r => source_named st label r = true) (sources st) in
  matching <> [] ->
  Forall (fun r => exists s, objs st !! r = Some s /\ has_position s)
         matching ->
  attr_float o "L" = Ok l ->
  attr_float o "B" = Ok b ->
  (PrimFloat.eqb l (-1)%float = true -> attr_float o "start_l" = Ok sl) ->
  (PrimFloat.eqb b (-1)%float = true -> attr_float o "start_b" = Ok sb) ->
  let '(log, res, st') := updateMulti st data mapCenterL mapCenterB in
  res = Ok tt
  /\ exists log',
       updateMulti st' data mapCenterL mapCenterB = (log', Ok tt, st').
Proof.
  intros Hfixed Hreg Hmulti Hwf Hdata Hlabel matching Hne Hpos HL HB Hsl Hsb.
  destruct (updateMulti_ok st data mapCenterL mapCenterB o label l b sl sb
              Hreg Hmulti Hwf Hdata Hlabel Hne Hpos HL HB Hsl Hsb)
    as (log & st' & -> & Hfits & Hsources & Hobjs).
  fold matching in Hobjs. split; [reflexivity |].
  set (d := Astro_distance (resolved l sl) (resolved b sb)
                           mapCenterL mapCenterB) in *.
  set (o' := <["Dist" := AFloat d]> o : MultiOutput) in *.
  assert (forall r, source_named st' label r = source_named st label r)
    as Hnamed.
  { intros r. unfold source_named. rewrite Hobjs.
    destruct (bool_decide (r ∈ matching)); [| reflexivity].
    now destruct (objs st !! r). }
  assert (filter (fun r => source_named st' label r = true) (sources st')
          = matching) as Hmatching.
  { rewrite Hsources. unfold matching. apply filter_ext_in.
    intros r _. now rewrite Hnamed. }
  assert (Forall (fun r => is_Some (objs st' !! r)) (sources st')) as Hwf'.
  { rewrite Hsources. eapply Forall_impl; [exact Hwf |].
    intros r [s Hs]. rewrite Hobjs, Hs.
    destruct (bool_decide (r ∈ matching)); cbn; eauto. }
  assert (Forall (fun r => exists s, objs st' !! r = Some s /\ has_position s)
                 (filter (fun r => source_named st' label r = true)
                         (sources st'))) as Hpos'.
  { rewrite Hmatching. rewrite Forall_forall in Hpos. apply Forall_forall.
    intros r Hr. destruct (Hpos r Hr) as (s & Hs & Hp).
    exists (Source.set_multi (Some data) s).
    rewrite Hobjs, Hs. rewrite bool_decide_eq_true_2 by exact Hr.
    split; [reflexivity | exact Hp]. }
  assert (fits st' !! data = Some o') as Hdata'
    by (rewrite Hfits; apply lookup_insert_eq).
  assert (o' !! "label" = Some (AStr label)) as Hlabel'
    by (unfold o'; now rewrite lookup_insert_ne).
  destruct (updateMulti_ok st' data mapCenterL mapCenterB o' label l b sl sb)
    as (log' & st'' & Hupd & Hfits' & Hsources' & Hobjs').
  { now rewrite (Hfixed st' st false). }
  { now rewrite (Hfixed st' st true). }
  { exact Hwf'. }
  { exact Hdata'. }
  { exact Hlabel'. }
  { rewrite Hmatching. exact Hne. }
  { exact Hpos'. }
  { unfold o'. now rewrite attr_float_insert_Dist. }
  { unfold o'. now rewrite attr_float_insert_Dist. }
  { unfold o'. now rewrite attr_float_insert_Dist. }
  { unfold o'. now rewrite attr_float_insert_Dist. }
  exists log'. rewrite Hupd. f_equal.
  rewrite Hmatching in Hobjs'.
  destruct st' as [objs' fits' sources'], st'' as [objs'' fits'' sources''].
  cbn [objs fits sources] in *. f_equal.
  - apply map_eq. intros r. rewrite Hobjs'.
    destruct (bool_decide (r ∈ matching)) eqn:Hin; [| reflexivity].
    rewrite Hobjs, Hin. now destruct (objs st !! r).
  - rewrite Hfits'. fold d. unfold o'. rewrite insert_insert_eq.
    rewrite Hfits. now rewrite insert_insert_eq.
  - exact Hsources'.
Qed.

End UpdateMore.

Lemma mutators_keep_catalog_wf_witness :
  Props.catalog_wf
    (snd (@deleteSources Sample.dataclasses Sample.catalog (name_is "Vela")))
  /\ Props.catalog_wf
       (snd (@freeSources Sample.dataclasses Sample.catalog (name_is "Vela")
               "Flux" true))
  /\ Props.catalog_wf
       (snd (@updateMulti Sample.dataclasses Sample.catalog 7
               263%float 0%float)).
Proof.
  apply (@mutators_keep_catalog_wf Sample.dataclasses).
  split; [apply (bool_decide_unpack _); vm_compute; exact I |].
  repeat constructor; eexists; reflexivity.
Defined.

Lemma deleteSources_names_witness :
  Instance.getSourcesNames SampleFiles.loaded
  = Ok ["Vela"; "Crab"; "Vela"]
  /\ Instance.getSourcesNames
       {| Instance.xmlFilePath := Some "/data/catalog.xml";
          Instance.xmlFilePathPrefix := Some "/data";
          Instance.sourcesLibrary :=
            Some (snd (@deleteSources Sample.dataclasses Sample.catalog
                         (name_is "Vela"))) |}
     = Ok ["Crab"]
  /\ Instance.getSources
       {| Instance.xmlFilePath := Some "/data/catalog.xml";
          Instance.xmlFilePathPrefix := Some "/data";
          Instance.sourcesLibrary :=
            Some (snd (@deleteSources Sample.dataclasses Sample.catalog
                         (name_is "Vela"))) |}
     = Ok [2%nat].
Proof.
  apply (@deleteSources_names Sample.dataclasses Sample.catalog "Vela");
    [intros a b E; discriminate E | reflexivity | reflexivity
    | repeat constructor; eexists; reflexivity | reflexivity | reflexivity].
Defined.

Lemma deleteSources_twice_witness :
  exists log',
    @deleteSources Sample.dataclasses
      (set_sources [2%nat] Sample.catalog) (name_is "Vela")
    = (log', Ok [], set_sources [2%nat] Sample.catalog).
Proof.
  apply (@deleteSources_twice Sample.dataclasses Sample.catalog
           (set_sources [2%nat] Sample.catalog) (name_is "Vela")
           [Call [inl "Vela"]; Call [inl "Crab"]; Call [inl "Vela"]]
           [1%nat; 3%nat]);
    [intros st1 st2 multi; reflexivity | intros a b E; discriminate E
    | reflexivity].
Defined.

Lemma updateMulti_then_select_by_dist_witness :
  let '(log, res, st') :=
    @updateMulti Sample.dataclasses Sample.catalog 7 263%float 0%float in
  res = Ok tt
  /\ snd (@selectSourcesWithLambda Sample.dataclasses st' SampleFiles.near)
     = Ok [1%nat; 3%nat].
Proof.
  apply (@updateMulti_then_select_by_dist Sample.dataclasses Sample.catalog 7
           263%float 0%float Sample.fit "Vela"
           (-1)%float (-3)%float 263%float (-2)%float SampleFiles.near true);
    try reflexivity.
  - intros st1 st2 multi. reflexivity.
  - repeat constructor; eexists; reflexivity.
  - repeat constructor; intros s [= <-]; reflexivity.
  - discriminate.
  - repeat constructor; eexists; (split; [reflexivity |]);
      exists "263", "-2"; repeat split; eexists; reflexivity.
Defined.

Lemma updateMulti_twice_witness :
  let '(log, res, st') :=
    @updateMulti Sample.dataclasses Sample.catalog 7 263%float 0%float in
  res = Ok tt
  /\ exists log',
       @updateMulti Sample.dataclasses st' 7 263%float 0%float
       = (log', Ok tt, st').
Proof.
  apply (@updateMulti_twice Sample.dataclasses Sample.catalog 7
           263%float 0%float Sample.fit "Vela"
           (-1)%float (-3)%float 263%float (-2)%float);
    try reflexivity.
  - intros st1 st2 multi. reflexivity.
  - repeat constructor; eexists; reflexivity.
  - discriminate.
  - repeat constructor; eexists; (split; [reflexivity |]);
      exists "263", "-2"; repeat split; eexists; reflexivity.
Defined.

(** ** More on the parser *)

Lemma readlines_line (line rest : string) :
  Props.one_line line ->
  readlines (line ++ String newline rest)
  = (line ++ String newline "") :: readlines rest.
Proof.
  unfold Props.one_line. induction line as [| c line IH]; intros Hline.
  - rewrite !str_app_nil_l. cbn [readlines].
    now rewrite (proj2 (Ascii.eqb_eq newline newline) eq_refl).
  - cbn [has_char] in Hline. apply orb_false_iff in Hline as [Hc Hline].
    rewrite !str_app_cons. cbn [readlines]. rewrite Hc.
    now rewrite (IH Hline).
Qed.

Lemma readlines_unlines (lines : list string) :
  Forall Props.one_line lines ->
  readlines (unlines lines)
  = map (fun line => line ++ String newline "") lines.
Proof.
  induction 1 as [| line lines Hline _ IH]; [reflexivity |].
  cbn [unlines fold_right map]. fold (unlines lines).
  now rewrite (readlines_line line _ Hline), IH.
Qed.

Section ParserMore.
Context {DC : Dataclasses}.

(** The parser reads the text through the lines that are no comment. *)
Lemma parseSourceFile_body (text1 text2 : string) :
  body_of text1 = body_of text2 ->
  parseSourceFile text1 = parseSourceFile text2.
Proof.
  intros H. unfold parseSourceFile.
  rewrite !(filterM_not_comment _ (readlines_nonempty _)).
  fold (body_of text1) (body_of text2). now rewrite H.
Qed.

(** X16.  A comment may stand anywhere: a line that begins with an
    exclamation mark, put between any two lines of the file, before the
    first or after the last, changes neither what [parseSourceFile]
    returns nor what it logs; the numbers of the lines that follow it
    are not shifted. *)
Theorem parseSourceFile_comment_anywhere (lines1 lines2 : list string)
  (comment : string) :
  Forall Props.one_line (lines1 ++ comment :: lines2) ->
  is_comment comment = true ->
  parseSourceFile (unlines (lines1 ++ comment :: lines2))
  = parseSourceFile (unlines (lines1 ++ lines2)).
Proof.
  intros Hlines Hcomment. apply parseSourceFile_body. unfold body_of.
  assert (Forall Props.one_line (lines1 ++ lines2)) as Hlines'.
  { apply Forall_app in Hlines as [H1 H2]. apply Forall_cons in H2 as [_ H2].
    apply Forall_app. now split. }
  rewrite (readlines_unlines _ Hlines), (readlines_unlines _ Hlines').
  rewrite !map_app, !filter_app. cbn [map]. rewrite filter_cons.
  destruct comment as [| c comment]; [discriminate |].
  rewrite str_app_cons. cbn [is_comment] in *.
  now rewrite decide_False by congruence.
Qed.

End ParserMore.

Lemma parseSourceFile_comment_anywhere_witness :
  @parseSourceFile Sample.dataclasses (unlines Sample.fitter_lines)
  = @parseSourceFile Sample.dataclasses
      (unlines ("! header" :: skipn 2 Sample.fitter_lines)).
Proof.
  apply (@parseSourceFile_comment_anywhere Sample.dataclasses
           ["! header"] (skipn 2 Sample.fitter_lines) "! columns");
    [| reflexivity].
  repeat constructor.
Defined.

(** ** The file that [writeToFile] writes *)

Section Files.
Context {DC : Dataclasses}.
Import Instance.

(** X17.  [writeToFile] changes one file at most, the one at the path
    it computes.  When it returns, the format is AG, the path it
    returns is the directory of the XML file joined with the given
    name, with [.txt] after it, the file at that path holds the text of
    [_convertToAgileFormat], and no other file has changed.  When it
    does not return, either no file has changed, or the file was
    opened and the write raised: the call ends with the error of the
    write, that file holds what the write left in it, and no other file
    has changed.  An exception that is not raised by the file leaves
    every file as it was: a format other than AG ends with a critical
    message and [exit(1)] before anything is read; a catalog that does
    not encode raises before the file is opened; and without a loaded
    XML file the join raises [TypeError]. *)
Theorem writeToFile_one_file (self : Self)
  (files : gmap string string) (io : string -> string -> io_outcome)
  (outfileNamePrefix format : string) :
  let '(log, out, files') :=
    writeToFile self files io outfileNamePrefix format in
  (forall outfilepath,
      out = Returned outfilepath ->
      format = "AG"
      /\ exists base st text,
           os_path_join (xmlFilePathPrefix self) outfileNamePrefix = Ok base
           /\ sourcesLibrary self = Some st
           /\ _convertToAgileFormat st = Ok text
           /\ outfilepath = base ++ ".txt"
           /\ io outfilepath text = Written
           /\ files' = <[outfilepath := text]> files)
  /\ ((forall outfilepath, out <> Returned outfilepath) ->
      files' = files
      \/ exists base st text remains,
           os_path_join (xmlFilePathPrefix self) outfileNamePrefix = Ok base
           /\ sourcesLibrary self = Some st
           /\ _convertToAgileFormat st = Ok text
           /\ io (base ++ ".txt") text = WriteFailed remains
           /\ out = OSError
           /\ files' = <[base ++ ".txt" := remains]> files)
  /\ (forall base p,
        os_path_join (xmlFilePathPrefix self) outfileNamePrefix = Ok base ->
        p <> base ++ ".txt" ->
        files' !! p = files !! p)
  /\ (forall e, out = Raised e -> files' = files)
  /\ (format <> "AG" ->
      out = Raised (SystemExit 1)
      /\ log = [Critical "Format %s not supported. Supported formats: 'AG'"
                         [format]])
  /\ (format = "AG" ->
      (xmlFilePathPrefix self = None -> out = Raised TypeError)
      /\ (forall st e,
             is_Some (xmlFilePathPrefix self) ->
             sourcesLibrary self = Some st ->
             _convertToAgileFormat st = Err e ->
             out = Raised e)).
Proof.
  unfold writeToFile. cbn [str_in existsb]. rewrite orb_false_r.
  destruct (String.eqb_spec format "AG") as [-> | Hformat]; cbn [negb].
  2: { split; [discriminate |]. split; [now left |].
       split; [reflexivity |]. split; [reflexivity |].
       split; [now split | congruence]. }
  unfold os_path_join at 1.
  destruct (xmlFilePathPrefix self) as [prefix |] eqn:Hprefix.
  2: { split; [discriminate |]. split; [now left |].
       split; [reflexivity |]. split; [reflexivity |].
       split; [congruence |]. intros _. split; [reflexivity |].
       intros st e [x Hx]. discriminate Hx. }
  cbn [String.eqb Ascii.eqb Bool.eqb]. unfold library_sources.
  destruct (sourcesLibrary self) as [st |] eqn:Hst; cbn [bind].
  2: { split; [discriminate |]. split; [now left |].
       split; [reflexivity |]. split; [reflexivity |].
       split; [congruence |]. intros _. split; [discriminate |].
       intros st e _ H. discriminate H. }
  destruct (_convertToAgileFormat st) as [text | e] eqn:Htext.
  2: { split; [discriminate |]. split; [now left |].
       split; [reflexivity |]. split; [reflexivity |].
       split; [congruence |]. intros _. split; [discriminate |].
       intros st' e' _ [= <-] H. rewrite Htext in H. now injection H as <-. }
  match goal with
  | |- context [io ?p text] => destruct (io p text) as [| | remains] eqn:Hio
  end.
  - split.
    { intros p [= <-]. split; [reflexivity |].
      eexists _, st, text. split; [reflexivity |].
      split; [reflexivity |]. split; [exact Htext |].
      split; [reflexivity |]. split; [exact Hio | reflexivity]. }
    split; [intros H; now destruct (H _ eq_refl) |].
    split.
    { intros base p Hbase Hp. unfold os_path_join in Hbase.
      injection Hbase as <-. now apply lookup_insert_ne. }
    split; [discriminate |].
    split; [congruence |]. intros _. split; [discriminate |].
    intros st' e' _ [= <-] H. rewrite Htext in H. discriminate H.
  - split; [discriminate |]. split; [now left |].
    split; [reflexivity |]. split; [reflexivity |].
    split; [congruence |]. intros _. split; [discriminate |].
    intros st' e' _ [= <-] H. rewrite Htext in H. discriminate H.
  - split; [discriminate |].
    split.
    { intros _. right. eexists _, st, text, remains.
      split; [reflexivity |]. split; [reflexivity |].
      split; [exact Htext |]. split; [exact Hio |]. now split. }
    split.
    { intros base p Hbase Hp. unfold os_path_join in Hbase.
      injection Hbase as <-. now apply lookup_insert_ne. }
    split; [discriminate |].
    split; [congruence |]. intros _. split; [discriminate |].
    intros st' e' _ [= <-] H. rewrite Htext in H. discriminate H.
Qed.

End Files.

(** The three ways in which the file can answer, on the sample
    catalog with a file already at the path. *)
Example writeToFile_sample_outcomes :
  let files : gmap string string := {[ "/data/out.txt" := "old" ]} in
  let write io :=
    @Instance.writeToFile Sample.dataclasses SampleFiles.loaded files io
      "out" "AG" in
  (exists text,
      write SampleFiles.io_ok
      = ([], Instance.Returned "/data/out.txt",
         {[ "/data/out.txt" := text ]}))
  /\ write (fun _ _ => Instance.NotOpened) = ([], Instance.OSError, files)
  /\ write (fun _ _ => Instance.WriteFailed "")
     = ([], Instance.OSError, {[ "/data/out.txt" := "" ]}).
Proof.
  cbv zeta. split; [eexists |]; [| split].
  - vm_compute. reflexivity.
  - vm_compute. reflexivity.
  - vm_compute. reflexivity.
Qed.


(** ** Loading the XML file *)

Section Load.
Context {DC : Dataclasses} {CT : Constructors}.
Import Loader.

(** What [_fail] leaves: the text with the path and [exit(1)] in a
    module that binds [e], the [NameError] otherwise. *)
Lemma fail_outcome (self : Instance.Self) (msg : string) :
  _fail self msg
  = if module_binds "e"
    then ([Stdout ("[SourcesConfig] Parsing _failed: "
                     ++ match Instance.xmlFilePath self with
                        | Some p => p
                        | None => "None"
                        end)],
          SystemExit 1)
    else ([], NameError "e").
Proof. reflexivity. Qed.

Lemma parameters_loop_bad (self : Instance.Self) (parameters : list Xml.Element) :
  Exists (fun p => Xml.tag p <> "parameter") parameters ->
  forall d, exists e, snd (parameters_loop self d parameters) = Err e.
Proof.
  induction 1 as [p ps Hbad | p ps _ IH]; intros d; cbn [parameters_loop].
  - destruct (String.eqb_spec (Xml.tag p) "parameter") as [E | _];
      [contradiction |].
    cbn [negb]. destruct (_fail self _) as [out e]. now exists e.
  - destruct (negb _); [destruct (_fail self _) as [out e]; now exists e |].
    destruct (Parameter_new (Xml.attrib p)) as [paramDC | e];
      [| now exists e].
    destruct (parameters_append d paramDC) as [d' | e]; [| now exists e].
    apply IH.
Qed.

Lemma parameters_loop_app (self : Instance.Self) (good rest : list Xml.Element)
  (d d' : DescrDC) (out : list output) :
  parameters_loop self d good = (out, Ok d') ->
  parameters_loop self d (good ++ rest)
  = (let '(out', r) := parameters_loop self d' rest in ((out ++ out')%list, r)).
Proof.
  revert d out. induction good as [| p good IH]; intros d out Hgood.
  - cbn in Hgood. injection Hgood as <- <-. cbn [app].
    now destruct (parameters_loop self d rest).
  - cbn [app parameters_loop] in *.
    destruct (negb _);
      [destruct (_fail self _) as [o e]; discriminate Hgood |].
    destruct (Parameter_new (Xml.attrib p)) as [paramDC | e];
      [| discriminate Hgood].
    destruct (parameters_append d paramDC) as [d1 | e];
      [| discriminate Hgood].
    now apply IH.
Qed.

(** X18.  [_checkAndAddParameters] accepts children tagged
    [parameter] only: with any other child it returns no description.
    After children that were added, the first other child ends the
    call in [_fail], and [_fail] does not do what it is written for:
    building its text raises [NameError] on the name [e], so nothing
    is printed and the process does not exit; in a module that binds
    [e], the text is printed with the path of the file and without the
    message, and the process exits with status 1. *)
Theorem checkAndAddParameters_tag (self : Instance.Self)
  (sourceDescrDC : DescrDC) (sourceDescription : Xml.Element) :
  Exists (fun p => Xml.tag p <> "parameter")
         (Xml.children sourceDescription) ->
  (exists e,
      snd (_checkAndAddParameters self sourceDescrDC sourceDescription)
      = Err e)
  /\ (forall good bad rest out d,
        Xml.children sourceDescription = (good ++ bad :: rest)%list ->
        parameters_loop self sourceDescrDC good = (out, Ok d) ->
        Xml.tag bad <> "parameter" ->
        _checkAndAddParameters self sourceDescrDC sourceDescription
        = if module_binds "e"
          then ((out ++ [Stdout ("[SourcesConfig] Parsing _failed: "
                                   ++ match Instance.xmlFilePath self with
                                      | Some p => p
                                      | None => "None"
                                      end)])%list,
                Err (SystemExit 1))
          else ((out ++ [])%list, Err (NameError "e"))).
Proof.
  intros Hbad. unfold _checkAndAddParameters.
  split; [now apply parameters_loop_bad |].
  intros good bad rest out d Hch Hgood Htag. rewrite Hch.
  rewrite (parameters_loop_app self good (bad :: rest) _ d out Hgood).
  cbn [parameters_loop].
  destruct (String.eqb_spec (Xml.tag bad) "parameter") as [E | _];
    [contradiction |].
  cbn [negb]. rewrite fail_outcome. now destruct (module_binds "e").
Qed.

Lemma descriptions_loop_bad (self : Instance.Self)
  (descriptions : list Xml.Element) :
  Exists (fun d => Xml.tag d <> "spectrum" /\ Xml.tag d <> "spatialModel")
         descriptions ->
  forall s, exists e, snd (descriptions_loop self s descriptions) = Err e.
Proof.
  induction 1 as [d ds [H1 H2] | d ds _ IH]; intros s;
    cbn [descriptions_loop].
  - cbn [str_in existsb].
    destruct (String.eqb_spec (Xml.tag d) "spectrum") as [E | _];
      [contradiction |].
    destruct (String.eqb_spec (Xml.tag d) "spatialModel") as [E | _];
      [contradiction |].
    cbn [orb negb]. destruct (module_binds "sourceDescr"); [| eauto].
    destruct sourceDescr_tag as [t | e]; [| eauto].
    destruct (_fail self _) as [out e]. now exists e.
  - destruct (negb _).
    + destruct (module_binds "sourceDescr"); [| eauto].
      destruct sourceDescr_tag as [t | e]; [| eauto].
      destruct (_fail self _) as [out e]. now exists e.
    + destruct (call_with _ _ _) as [d0 | e]; [| eauto].
      destruct (_checkAndAddParameters self d0 d) as [out [d1 | e]];
        [| eauto].
      destruct (if String.eqb (Xml.tag d) "spectrum"
                then set_spectrum s d1 else set_spatialModel s d1)
        as [s1 | e]; [| eauto].
      destruct (IH s1) as [e He].
      destruct (descriptions_loop self s1 ds) as [out' r'].
      cbn [snd] in *. eauto.
Qed.

(** The loop over the sources fails when an element on its way
    fails. *)
Lemma sources_loop_bad (self : Instance.Self) (P : Xml.Element -> Prop)
  (elements : list Xml.Element) :
  (forall x, P x ->
     Xml.tag x = "source" ->
     forall s, exists e,
       snd (descriptions_loop self s (Xml.children x)) = Err e) ->
  Exists P elements ->
  forall lib, exists e, snd (sources_loop self lib elements) = Err e.
Proof.
  intros HP. induction 1 as [x xs Hx | x xs _ IH]; intros lib;
    cbn [sources_loop].
  - destruct (String.eqb_spec (Xml.tag x) "source") as [E | _]; cbn [negb].
    2: { destruct (_fail self _) as [out e]. now exists e. }
    destruct (Source_new (Xml.attrib x)) as [s | e]; [| eauto].
    destruct (HP x Hx E s) as [e He].
    destruct (descriptions_loop self s (Xml.children x)) as [out r].
    cbn [snd] in He. subst r. eauto.
  - destruct (negb _); [destruct (_fail self _) as [out e]; now exists e |].
    destruct (Source_new (Xml.attrib x)) as [s | e]; [| eauto].
    destruct (descriptions_loop self s (Xml.children x)) as [out [s1 | e]];
      [| eauto].
    destruct (sources_append lib s1) as [lib1 | e]; [| eauto].
    destruct (IH lib1) as [e He].
    destruct (sources_loop self lib1 xs) as [out' r'].
    cbn [snd] in *. eauto.
Qed.

Lemma sources_loop_app (self : Instance.Self) (good rest : list Xml.Element)
  (lib lib' : LibraryDC) (out : list output) :
  sources_loop self lib good = (out, Ok lib') ->
  sources_loop self lib (good ++ rest)
  = (let '(out', r) := sources_loop self lib' rest in ((out ++ out')%list, r)).
Proof.
  revert lib out. induction good as [| x good IH]; intros lib out Hgood.
  - cbn in Hgood. injection Hgood as <- <-. cbn [app].
    now destruct (sources_loop self lib rest).
  - cbn [app sources_loop] in *.
    destruct (negb _);
      [destruct (_fail self _) as [o e]; discriminate Hgood |].
    destruct (Source_new (Xml.attrib x)) as [s | e]; [| discriminate Hgood].
    destruct (descriptions_loop self s (Xml.children x)) as [o1 [s1 | e]];
      [| discriminate Hgood].
    destruct (sources_append lib s1) as [lib1 | e]; [| discriminate Hgood].
    destruct (sources_loop self lib1 good) as [o2 r2] eqn:Hloop.
    injection Hgood as <- ->.
    rewrite (IH lib1 o2 Hloop).
    destruct (sources_loop self lib' rest) as [o3 r3].
    now rewrite app_assoc.
Qed.

(** X19.  [_parseSourceXml] accepts children of the root tagged
    [source] only: with any other child it returns no catalog.  After
    sources that were read, the first other child ends the call in
    [_fail]: with [NameError] on the name [e], nothing printed and no
    exit; or, in a module that binds [e], with the text that has the
    path and not the message, and [exit(1)]. *)
Theorem parseSourceXml_source_tag (self : Instance.Self)
  (xmlFilePath : string) (xmlRoot : Xml.Element) :
  Exists (fun x => Xml.tag x <> "source") (Xml.children xmlRoot) ->
  (exists e, snd (_parseSourceXml self xmlFilePath xmlRoot) = Err e)
  /\ (forall lib good bad rest out lib',
        call_with "sources" SourceLibrary_new (Xml.attrib xmlRoot) = Ok lib ->
        Xml.children xmlRoot = (good ++ bad :: rest)%list ->
        sources_loop self lib good = (out, Ok lib') ->
        Xml.tag bad <> "source" ->
        _parseSourceXml self xmlFilePath xmlRoot
        = if module_binds "e"
          then (Log (Info "Parsing %s ..." [xmlFilePath])
                  :: (out ++ [Stdout ("[SourcesConfig] Parsing _failed: "
                                        ++ match Instance.xmlFilePath self with
                                           | Some p => p
                                           | None => "None"
                                           end)])%list,
                Err (SystemExit 1))
          else (Log (Info "Parsing %s ..." [xmlFilePath]) :: (out ++ [])%list,
                Err (NameError "e"))).
Proof.
  intros Hbad. unfold _parseSourceXml. split.
  - destruct (call_with "sources" SourceLibrary_new (Xml.attrib xmlRoot))
      as [lib | e]; [| now exists e].
    destruct (sources_loop_bad self (fun x => Xml.tag x <> "source")
                (Xml.children xmlRoot)
                ltac:(intros x Hx E; contradiction) Hbad lib) as [e He].
    destruct (sources_loop self lib (Xml.children xmlRoot)) as [out r].
    cbn [snd] in *. eauto.
  - intros lib good bad rest out lib' Hlib Hch Hgood Htag.
    rewrite Hlib, Hch.
    rewrite (sources_loop_app self good (bad :: rest) lib lib' out Hgood).
    cbn [sources_loop].
    destruct (String.eqb_spec (Xml.tag bad) "source") as [E | _];
      [contradiction |].
    cbn [negb]. rewrite fail_outcome. now destruct (module_binds "e").
Qed.

(** X20.  A [source] element takes children tagged [spectrum] or
    [spatialModel] only: with a source that has any other child,
    [_parseSourceXml] returns no catalog.  The message for such a
    child names [sourceDescr], which is bound nowhere: when the first
    source has it as its first child and the module does not bind the
    name, the call raises [NameError] on [sourceDescr] before [_fail]
    is entered, whether or not the module binds [e]. *)
Theorem parseSourceXml_description_tag (self : Instance.Self)
  (xmlFilePath : string) (xmlRoot : Xml.Element) :
  Exists (fun x => Exists (fun d => Xml.tag d <> "spectrum"
                                    /\ Xml.tag d <> "spatialModel")
                          (Xml.children x))
         (Xml.children xmlRoot) ->
  (exists e, snd (_parseSourceXml self xmlFilePath xmlRoot) = Err e)
  /\ (forall lib source rest sourceDC bad others,
        call_with "sources" SourceLibrary_new (Xml.attrib xmlRoot) = Ok lib ->
        Xml.children xmlRoot = source :: rest ->
        Xml.tag source = "source" ->
        Source_new (Xml.attrib source) = Ok sourceDC ->
        Xml.children source = bad :: others ->
        Xml.tag bad <> "spectrum" -> Xml.tag bad <> "spatialModel" ->
        module_binds "sourceDescr" = false ->
        _parseSourceXml self xmlFilePath xmlRoot
        = ([Log (Info "Parsing %s ..." [xmlFilePath])],
           Err (NameError "sourceDescr"))).
Proof.
  intros Hbad. unfold _parseSourceXml. split.
  - destruct (call_with "sources" SourceLibrary_new (Xml.attrib xmlRoot))
      as [lib | e]; [| now exists e].
    destruct (sources_loop_bad self _ (Xml.children xmlRoot)
                (fun x Hx _ => descriptions_loop_bad self (Xml.children x) Hx)
                Hbad lib) as [e He].
    destruct (sources_loop self lib (Xml.children xmlRoot)) as [out r].
    cbn [snd] in *. eauto.
  - intros lib source rest sourceDC bad others Hlib Hch Htag Hnew Hd H1 H2
      Hname.
    rewrite Hlib, Hch. cbn [sources_loop]. rewrite Htag.
    cbn [String.eqb Ascii.eqb Bool.eqb negb]. rewrite Hnew, Hd.
    cbn [descriptions_loop str_in existsb].
    destruct (String.eqb_spec (Xml.tag bad) "spectrum") as [E | _];
      [contradiction |].
    destruct (String.eqb_spec (Xml.tag bad) "spatialModel") as [E | _];
      [contradiction |].
    cbn [orb negb]. now rewrite Hname.
Qed.

(** X21.  A load that fails leaves the object half changed: the two
    paths are those of the new file, the catalog is the one that was
    there.  A [writeToFile] after it writes the old catalog into the
    directory of the new file. *)
Theorem failed_load_then_write (self self' : Instance.Self)
  (xmlFilePath : string) (xmlRoot : Xml.Element) (out : list output)
  (e : exn) (st : State) (text : string) (files : gmap string string)
  (io : string -> string -> Instance.io_outcome)
  (outfileNamePrefix : string) :
  loadSourceLibraryXML self xmlFilePath xmlRoot = (out, Err e, self') ->
  Instance.sourcesLibrary self = Some st ->
  _convertToAgileFormat st = Ok text ->
  (forall p t, io p t = Instance.Written) ->
  Instance.xmlFilePath self' = Some xmlFilePath
  /\ Instance.xmlFilePathPrefix self' = Some (fst (os_path_split xmlFilePath))
  /\ Instance.sourcesLibrary self' = Some st
  /\ exists base,
       Instance.os_path_join (Some (fst (os_path_split xmlFilePath)))
                             outfileNamePrefix = Ok base
       /\ Instance.writeToFile self' files io outfileNamePrefix "AG"
          = ([], Instance.Returned (base ++ ".txt"),
             <[base ++ ".txt" := text]> files).
Proof.
  intros Hload Hst Htext Hopen. unfold loadSourceLibraryXML in Hload.
  destruct (_parseSourceXml _ xmlFilePath xmlRoot) as [out0 [lib | e0]].
  { destruct (negb (library_truth lib)); discriminate Hload. }
  injection Hload as _ _ <-. cbn [Instance.xmlFilePath
    Instance.xmlFilePathPrefix Instance.sourcesLibrary].
  split; [reflexivity |]. split; [reflexivity |]. split; [exact Hst |].
  eexists. split; [reflexivity |].
  unfold Instance.writeToFile.
  cbn [str_in existsb String.eqb Ascii.eqb Bool.eqb orb negb
       Instance.xmlFilePathPrefix Instance.os_path_join].
  unfold Instance.library_sources. cbn [Instance.sourcesLibrary].
  rewrite Hst. cbn [bind]. rewrite Htext. now rewrite Hopen.
Qed.

Lemma all_sep_app (s t : string) :
  s <> "" -> Instance.endswith_sep s = false -> all_sep (s ++ t) = false.
Proof.
  induction s as [| c s IH]; [congruence |]. intros _ Hend.
  rewrite str_app_cons. cbn [all_sep].
  destruct s as [| c' s'].
  - cbn in Hend. now rewrite Hend.
  - rewrite IH; [apply andb_false_r | discriminate | exact Hend].
Qed.

Lemma rstrip_sep_app (s : string) :
  s <> "" -> Instance.endswith_sep s = false -> rstrip_sep (s ++ "/") = s.
Proof.
  induction s as [| c s IH]; [congruence |]. intros _ Hend.
  pose proof (all_sep_app (String c s) "/" ltac:(discriminate) Hend) as Hall.
  rewrite str_app_cons in *. cbn [rstrip_sep]. rewrite Hall. f_equal.
  destruct s as [| c' s']; [reflexivity |].
  apply IH; [discriminate | exact Hend].
Qed.

Lemma rsplit_sep_app (dir file : string) :
  has_char "/" file = false ->
  rsplit_sep (dir ++ String "/" file) = (dir ++ "/", file).
Proof.
  intros Hfile. induction dir as [| c dir IH].
  - rewrite !str_app_nil_l. cbn [rsplit_sep]. now rewrite Hfile.
  - rewrite !str_app_cons. cbn [rsplit_sep].
    rewrite has_char_app. cbn [has_char Ascii.eqb Bool.eqb].
    rewrite orb_true_r. now rewrite IH.
Qed.

Lemma os_path_split_dir (dir file : string) :
  dir <> "" -> Instance.endswith_sep dir = false ->
  has_char "/" file = false ->
  os_path_split (dir ++ String "/" file) = (dir, file).
Proof.
  intros Hdir Hend Hfile. unfold os_path_split.
  rewrite (rsplit_sep_app dir file Hfile).
  rewrite (all_sep_app dir "/" Hdir Hend).
  destruct dir as [| c dir]; [congruence |].
  rewrite str_app_cons. cbn [String.eqb negb andb].
  rewrite <- str_app_cons. now rewrite (rstrip_sep_app _ Hdir Hend).
Qed.

(** X22.  After a load that returns, [writeToFile] writes next to the
    XML file: for a file [dir/file] and a name that does not begin
    with a slash, the text of the catalog that was loaded goes to
    [dir/name.txt]. *)
Theorem load_then_write_path (self self' : Instance.Self)
  (dir file : string) (xmlRoot : Xml.Element) (out : list output)
  (b : bool) (files : gmap string string)
  (io : string -> string -> Instance.io_outcome)
  (outfileNamePrefix : string) :
  dir <> "" -> Instance.endswith_sep dir = false ->
  has_char "/" file = false ->
  Instance.startswith_sep outfileNamePrefix = false ->
  loadSourceLibraryXML self (dir ++ String "/" file) xmlRoot
  = (out, Ok b, self') ->
  (forall p t, io p t = Instance.Written) ->
  exists lib,
    snd (_parseSourceXml
           {| Instance.xmlFilePath := Some (dir ++ String "/" file);
              Instance.xmlFilePathPrefix := Some dir;
              Instance.sourcesLibrary := Instance.sourcesLibrary self |}
           (dir ++ String "/" file) xmlRoot) = Ok lib
    /\ b = library_truth lib
    /\ Instance.xmlFilePathPrefix self' = Some dir
    /\ Instance.sourcesLibrary self' = Some (library_state lib)
    /\ forall text,
         _convertToAgileFormat (library_state lib) = Ok text ->
         Instance.writeToFile self' files io outfileNamePrefix "AG"
         = ([],
            Instance.Returned (dir ++ "/" ++ outfileNamePrefix ++ ".txt"),
            <[dir ++ "/" ++ outfileNamePrefix ++ ".txt" := text]> files).
Proof.
  intros Hdir Hend Hfile Hname Hload Hopen.
  unfold loadSourceLibraryXML in Hload.
  rewrite (os_path_split_dir dir file Hdir Hend Hfile) in Hload.
  cbn [fst] in Hload.
  destruct (_parseSourceXml _ (dir ++ String "/" file) xmlRoot)
    as [out0 [lib | e0]]; [| discriminate Hload].
  exists lib. split; [reflexivity |].
  assert (b = library_truth lib
          /\ self' = {| Instance.xmlFilePath := Some (dir ++ String "/" file);
                        Instance.xmlFilePathPrefix := Some dir;
                        Instance.sourcesLibrary :=
                          Some (library_state lib) |}) as [-> ->].
  { destruct (library_truth lib); cbn [negb] in Hload;
      injection Hload as _ <- <-; now split. }
  split; [reflexivity |]. split; [reflexivity |]. split; [reflexivity |].
  intros text Htext. unfold Instance.writeToFile.
  cbn [str_in existsb String.eqb Ascii.eqb Bool.eqb orb negb
       Instance.xmlFilePathPrefix Instance.os_path_join].
  rewrite Hname, Hend.
  destruct dir as [| c dir]; [congruence |]. cbn [String.eqb orb].
  unfold Instance.library_sources. cbn [Instance.sourcesLibrary bind].
  rewrite Htext, Hopen. now rewrite !str_app_assoc.
Qed.

End Load.

Lemma checkAndAddParameters_tag_witness :
  @Loader._checkAndAddParameters Sample.dataclasses SampleXml.constructors
    SampleFiles.loaded ([("type", "PowerLaw")], [])
    (Xml.Elem "spectrum" [("type", "PowerLaw")]
       [SampleXml.parameter "Flux" "969e-08" "0" "1e-4" "1";
        Xml.Elem "note" [] []])
  = ([], Err (NameError "e")).
Proof.
  destruct (@checkAndAddParameters_tag Sample.dataclasses
              SampleXml.constructors SampleFiles.loaded
              ([("type", "PowerLaw")], [])
              (Xml.Elem "spectrum" [("type", "PowerLaw")]
                 [SampleXml.parameter "Flux" "969e-08" "0" "1e-4" "1";
                  Xml.Elem "note" [] []])) as [_ H].
  { apply Exists_cons_tl, Exists_cons_hd. discriminate. }
  rewrite (H [SampleXml.parameter "Flux" "969e-08" "0" "1e-4" "1"]
             (Xml.Elem "note" [] []) [] []
             ([("type", "PowerLaw")],
              [Sample.par "Flux" "969e-08" "0" "1e-4" (PyStr "1")]));
    [reflexivity | reflexivity | reflexivity | discriminate].
Defined.

Lemma parseSourceXml_source_tag_witness :
  snd (@Loader._parseSourceXml Sample.dataclasses SampleXml.constructors
         SampleFiles.loaded "/data/catalog.xml" SampleXml.document_note)
  = Err (NameError "e")
  /\ snd (@Loader._parseSourceXml Sample.dataclasses_bound
            SampleXml.constructors SampleFiles.loaded "/data/catalog.xml"
            SampleXml.document_note)
     = Err (SystemExit 1).
Proof.
  split.
  - destruct (@parseSourceXml_source_tag Sample.dataclasses
                SampleXml.constructors SampleFiles.loaded "/data/catalog.xml"
                SampleXml.document_note) as [_ H].
    { apply Exists_cons_tl, Exists_cons_hd. discriminate. }
    erewrite (H [] [SampleXml.vela] (Xml.Elem "note" [] []) []);
      [reflexivity | reflexivity | reflexivity | reflexivity | discriminate].
  - destruct (@parseSourceXml_source_tag Sample.dataclasses_bound
                SampleXml.constructors SampleFiles.loaded "/data/catalog.xml"
                SampleXml.document_note) as [_ H].
    { apply Exists_cons_tl, Exists_cons_hd. discriminate. }
    erewrite (H [] [SampleXml.vela] (Xml.Elem "note" [] []) []);
      [reflexivity | reflexivity | reflexivity | reflexivity | discriminate].
Defined.

Lemma parseSourceXml_description_tag_witness :
  @Loader._parseSourceXml Sample.dataclasses SampleXml.constructors
    SampleFiles.loaded "/data/catalog.xml" SampleXml.document_flux
  = ([Loader.Log (Info "Parsing %s ..." ["/data/catalog.xml"])],
     Err (NameError "sourceDescr")).
Proof.
  destruct (@parseSourceXml_description_tag Sample.dataclasses
              SampleXml.constructors SampleFiles.loaded "/data/catalog.xml"
              SampleXml.document_flux) as [_ H].
  { apply Exists_cons_hd, Exists_cons_hd. split; discriminate. }
  erewrite H; [reflexivity | reflexivity | reflexivity | reflexivity
              | reflexivity | reflexivity | discriminate | discriminate
              | reflexivity].
Defined.


Lemma failed_load_then_write_witness :
  let '(out, r, self') :=
    @Loader.loadSourceLibraryXML Sample.dataclasses SampleXml.constructors
      SampleFiles.loaded "/tmp/new/broken.xml" SampleXml.document_note in
  r = Err (NameError "e")
  /\ Instance.xmlFilePath self' = Some "/tmp/new/broken.xml"
  /\ Instance.sourcesLibrary self' = Some Sample.catalog
  /\ exists text,
       @_convertToAgileFormat Sample.dataclasses Sample.catalog = Ok text
       /\ @Instance.writeToFile Sample.dataclasses self' ∅ SampleFiles.io_ok
            "out" "AG"
          = ([], Instance.Returned "/tmp/new/out.txt",
             {[ "/tmp/new/out.txt" := text ]}).
Proof.
  destruct (@Loader.loadSourceLibraryXML Sample.dataclasses
              SampleXml.constructors SampleFiles.loaded "/tmp/new/broken.xml"
              SampleXml.document_note) as [[out r] self'] eqn:Hload.
  assert (r = Err (NameError "e")) as ->
    by (apply (f_equal (fun x => snd (fst x))) in Hload; cbn [fst snd] in Hload;
        rewrite <- Hload; reflexivity).
  destruct (@_convertToAgileFormat Sample.dataclasses Sample.catalog)
    as [text | e] eqn:Htext;
    [| vm_compute in Htext; discriminate Htext].
  destruct (@failed_load_then_write Sample.dataclasses SampleXml.constructors
              SampleFiles.loaded self' "/tmp/new/broken.xml"
              SampleXml.document_note out (NameError "e") Sample.catalog text
              ∅ SampleFiles.io_ok "out" Hload eq_refl Htext
              (fun _ _ => eq_refl))
    as (Hpath & _ & Hst & base & Hbase & Hwrite).
  split; [reflexivity |]. split; [exact Hpath |]. split; [exact Hst |].
  exists text. split; [reflexivity |].
  vm_compute in Hbase. injection Hbase as <-. exact Hwrite.
Defined.

Lemma load_then_write_path_witness :
  let '(out, r, self') :=
    @Loader.loadSourceLibraryXML Sample.dataclasses SampleXml.constructors
      Instance.__init__ "/data/catalog.xml" SampleXml.document in
  r = Ok true
  /\ Instance.xmlFilePathPrefix self' = Some "/data"
  /\ snd (fst (@Instance.writeToFile Sample.dataclasses self' ∅
                 SampleFiles.io_ok "out" "AG"))
     = Instance.Returned "/data/out.txt".
Proof.
  destruct (@Loader.loadSourceLibraryXML Sample.dataclasses
              SampleXml.constructors Instance.__init__ "/data/catalog.xml"
              SampleXml.document) as [[out r] self'] eqn:Hload.
  assert (r = Ok true) as ->
    by (apply (f_equal (fun x => snd (fst x))) in Hload; cbn [fst snd] in Hload;
        rewrite <- Hload; reflexivity).
  destruct (@load_then_write_path Sample.dataclasses SampleXml.constructors
              Instance.__init__ self' "/data" "catalog.xml"
              SampleXml.document out true ∅ SampleFiles.io_ok "out"
              ltac:(discriminate) eq_refl eq_refl eq_refl Hload
              (fun _ _ => eq_refl))
    as (lib & Hlib & _ & Hprefix & _ & Hwrite).
  split; [reflexivity |]. split; [exact Hprefix |].
  vm_compute in Hlib. injection Hlib as <-.
  erewrite Hwrite; [reflexivity | reflexivity].
Defined.

(** ** The pointing distances *)

Section DistancesMore.
Context {DC : Dataclasses} {EN : AGEng.Engine}.
Import AGEng.

(** A sequence returns when both of its parts do. *)
Lemma then_Return {A B} (m : list log_event * result A)
  (k : A -> list log_event * result B) (log : list log_event) (b : B) :
  then_ m k = (log, Return b) ->
  exists log1 a log2,
    m = (log1, Return a) /\ k a = (log2, Return b)
    /\ log = (log1 ++ log2)%list.
Proof.
  unfold then_. destruct m as [log1 [a | e]]; [| discriminate].
  destruct (k a) as [log2 r] eqn:Hk. intros [= <- ->].
  now exists log1, a, log2.
Qed.

Lemma eval_Return {A} (m : res A) (log : list log_event) (a : A) :
  eval m = (log, Return a) -> m = Ok a /\ log = [].
Proof. destruct m; cbn; intros [= <- <-]; now split. Qed.

Ltac peel H :=
  let l1 := fresh "log" in
  let a := fresh "a" in
  let l2 := fresh "log" in
  let Hm := fresh "Hm" in
  apply then_Return in H as (l1 & a & l2 & Hm & H & ->).

(** X23.  With the reference system [equ],
    [_computePointingDistancesFromSource] never returns: the galactic
    coordinates are built in the branch of [gal] only, and the message
    that follows the two branches reads them.  For an index given by
    the caller, coordinates that [astropy] accepts and a step of 1 at
    least, the exception is the [UnboundLocalError] of [skyCordsGAL],
    raised after the first message and before any file is read. *)
Theorem computePointingDistances_equ_never_returns
  (tmin tmax src_x src_y : float) (ref : string) (zmax : float) (step : Z)
  (writeFiles : bool) (logfilesIndex : option string) :
  ref = "equ" ->
  let '(log, r) :=
    _computePointingDistancesFromSource tmin tmax src_x src_y ref zmax step
      writeFiles logfilesIndex in
  (forall v, r <> Return v)
  /\ (forall path fk5,
        logfilesIndex = Some path -> path <> "" ->
        SkyCoord_fk5 src_x src_y = Ok fk5 ->
        (1 <= step)%Z ->
        r = Raise (PyExn (NameError "skyCordsGAL"))
        /\ log = [LogInfo "Computing pointing distances from source (%f, %f) %s in [%f, %f]"]).
Proof.
  intros ->.
  destruct (_computePointingDistancesFromSource tmin tmax src_x src_y "equ"
              zmax step writeFiles logfilesIndex) as [log r] eqn:H.
  split.
  - intros v ->. unfold _computePointingDistancesFromSource in H.
    peel H. peel H. peel H.
    cbn [String.eqb Ascii.eqb Bool.eqb] in Hm1.
    peel Hm1. injection Hm1 as <- <-.
    peel H. peel H. discriminate Hm3.
  - intros path fk5 -> Hpath Hfk5 Hstep.
    unfold _computePointingDistancesFromSource in H.
    apply String.eqb_neq in Hpath. rewrite Hpath in H.
    cbn [String.eqb Ascii.eqb Bool.eqb] in H. rewrite Hfk5 in H.
    assert ((step <? 1)%Z = false) as Hlt by lia. rewrite Hlt in H.
    cbn in H. now injection H as <- <-.
Qed.

(** X24.  [visibilityPlot] returns only for the reference system [gal],
    a step of 1 at least and an interval that a log file of the index
    meets.  With [equ] the computation raises; with another reference
    system or a smaller step it raises as well; and when no log file
    meets the interval the computation returns five values, which
    [visibilityPlot] unpacks into seven names: a [ValueError]. *)
Theorem visibilityPlot_returns_only (tmin tmax src_x src_y : float)
  (ref : string) (zmax : float) (step : Z) (writeFiles : bool)
  (logfilesIndex : option string) (saveImage : bool) (format title : string)
  (plot : Plot) :
  snd (visibilityPlot tmin tmax src_x src_y ref zmax step writeFiles
         logfilesIndex saveImage format title) = Return plot ->
  ref = "gal"
  /\ (1 <= step)%Z
  /\ exists path text logFiles,
       (logfilesIndex = Some path \/ config_logfile = Ok path)
       /\ read_text path = Some text
       /\ snd (_getLogsFileInInterval text tmin tmax) = Ok logFiles
       /\ logFiles <> [].
Proof.
  destruct (visibilityPlot tmin tmax src_x src_y ref zmax step writeFiles
              logfilesIndex saveImage format title) as [log r] eqn:H.
  cbn [snd]. intros ->. unfold visibilityPlot in H.
  peel H. destruct a as [ra dec | values]; [discriminate H |]. clear H.
  unfold _computePointingDistancesFromSource in Hm.
  peel Hm. clear Hm0. peel Hm. rename a0 into path.
  assert (logfilesIndex = Some path \/ config_logfile = Ok path) as Hindex.
  { destruct logfilesIndex as [p |].
    - destruct (String.eqb p "").
      + apply eval_Return in Hm0 as [Hc _]. now right.
      + injection Hm0 as _ <-. now left.
    - apply eval_Return in Hm0 as [Hc _]. now right. }
  clear Hm0. peel Hm. destruct a0 as [gal fk5].
  assert (ref = "gal" /\ is_Some gal) as [-> [g ->]].
  { destruct (String.eqb_spec ref "equ") as [-> | _].
    - exfalso. peel Hm0. injection Hm0 as _ <- _.
      peel Hm. peel Hm. discriminate Hm2.
    - destruct (String.eqb_spec ref "gal") as [-> | _]; [| discriminate Hm0].
      split; [reflexivity |]. peel Hm0. peel Hm0. injection Hm0 as _ <- _.
      eauto. }
  clear Hm0. peel Hm.
  assert (1 <= step)%Z as Hstep.
  { destruct (Z.ltb_spec step 1); [discriminate Hm0 | lia]. }
  clear Hm0. peel Hm. clear Hm0. peel Hm. peel Hm. peel Hm. peel Hm.
  rename a5 into logFiles. peel Hm.
  split; [reflexivity |]. split; [exact Hstep |].
  unfold logs_of_index in Hm3.
  destruct (read_text path) as [text |] eqn:Hread; [| discriminate Hm3].
  exists path, text, logFiles. split; [exact Hindex |].
  split; [exact Hread |].
  destruct (_getLogsFileInInterval text tmin tmax) as [l0 [l | e]];
    [| discriminate Hm3].
  injection Hm3 as _ <-. split; [reflexivity |].
  intros ->. peel Hm. peel Hm. peel Hm. discriminate Hm.
Qed.

End DistancesMore.

Lemma computePointingDistances_equ_never_returns_witness :
  @AGEng._computePointingDistancesFromSource Sample.dataclasses
    SampleFiles.engine 250%float 350%float 10%float 20%float "equ" 60%float 1
    true (Some "/logs/index")
  = ([AGEng.LogInfo "Computing pointing distances from source (%f, %f) %s in [%f, %f]"],
     AGEng.Raise (AGEng.PyExn (NameError "skyCordsGAL"))).
Proof.
  pose proof (@computePointingDistances_equ_never_returns Sample.dataclasses
                SampleFiles.engine 250%float 350%float 10%float 20%float "equ"
                60%float 1 true (Some "/logs/index") eq_refl) as H.
  destruct (@AGEng._computePointingDistancesFromSource Sample.dataclasses
              SampleFiles.engine 250%float 350%float 10%float 20%float "equ"
              60%float 1 true (Some "/logs/index")) as [log r].
  destruct H as [_ H].
  destruct (H "/logs/index" (10%float, 20%float) eq_refl ltac:(discriminate)
              eq_refl ltac:(lia)) as [-> ->].
  reflexivity.
Defined.

Lemma visibilityPlot_returns_only_witness :
  snd (@AGEng.visibilityPlot Sample.dataclasses SampleFiles.engine
         250%float 350%float 10%float 20%float "gal" 60%float 1 true None
         true "png" "visibility")
  = AGEng.Return "visibility.png"
  /\ exists path text logFiles,
       (@None string = Some path
        \/ @AGEng.config_logfile SampleFiles.engine = Ok path)
       /\ @AGEng.read_text SampleFiles.engine path = Some text
       /\ snd (@AGEng._getLogsFileInInterval Sample.dataclasses text
                 250%float 350%float) = Ok logFiles
       /\ logFiles <> [].
Proof.
  split; [reflexivity |].
  apply (@visibilityPlot_returns_only Sample.dataclasses SampleFiles.engine
           250%float 350%float 10%float 20%float "gal" 60%float 1 true None
           true "png" "visibility" "visibility.png" eq_refl).
Defined.

